(** * Trajectory analytics of the Argo float dashboard

    A shallow embedding of the trajectory data module of the dashboard
    and of the computations that consume it:

    - [generateMockDriftData] (chart mock-data module): the drift series
      (speed, bearing, cumulative distance, displacement) of a trajectory;
    - the profile grouping loop of [ProfileOverlayChart], the instant that
      colours a profile and the ranges of its tooltip;
    - the other generators of the module, which draw random numbers and
      read the clock: [generateMockPositioningData],
      [generateMockBatteryData], [generateMockProfileData],
      [generateMockCyclePhases], [generateMockQualityData] and
      [generateMockTrajectoryData], with [getTrajectoryCoordinates];
    - what the dashboard and its charts compute from their results: the
      battery status and health, the badges of the QC flags and of the
      status, and the summary statistics of the quality chart.

    JavaScript numbers are modelled by the real numbers [R]: the model is
    the exact-arithmetic reading of the code, without floating-point
    rounding, NaN or infinities for coordinates.  The only NaN the code
    guards against, an unparsable timestamp, is modelled by [None].
    Where the doubles of the code depart from the real numbers in a way
    that a statement could feel, the statement allows for it: the ranges
    of the random values include both ends, because a sum of doubles can
    round to its upper end; the bounds that depend on an index, a product
    or a long sum are given to within a billionth; and the properties of
    the Haversine distance are stated for pairs that are not antipodal,
    because at antipodal pairs the doubles can make [a] exceed 1, and
    [Math.sqrt(1 - a)] is then NaN.  The theorems on the speed, the
    cumulative distance and the displacement of the drift series are
    marked as read in exact arithmetic: they describe the real numbers
    only.
    [Math.random] and [Date.now] read two streams of the host; the texts
    of dates and of numbers that are not whole, and the calendar in local
    time, are built-ins of the host, in which the development is
    parametric. *)

From Stdlib Require Import Reals Lra Lia ZArith String List.
From Stdlib Require Import Zfloor Machin Sorting.Sorted Sorting.Permutation.
From stdpp Require Import base option list pretty gmap.

Local Open Scope R_scope.

(** ** JavaScript built-ins used by the code *)

Definition Math_PI : R := PI.
Definition Math_sin : R -> R := sin.
Definition Math_cos : R -> R := cos.
(** [Math.sqrt] on the non-negative numbers.  On a negative number the
    code gets NaN, which the model does not have: [sqrt] is 0 there. *)
Definition Math_sqrt : R -> R := sqrt.
Definition Math_max : R -> R -> R := Rmax.
Definition Math_min : R -> R -> R := Rmin.

(** [Math.atan2(y, x)]: the angle of the point [(x, y)], in (-PI, PI]. *)
Definition Math_atan2 (y x : R) : R :=
  if Rlt_dec 0 x then atan (y / x)
  else if Rlt_dec x 0 then
    (if Rle_dec 0 y then atan (y / x) + PI else atan (y / x) - PI)
  else if Rlt_dec 0 y then PI / 2
  else if Rlt_dec y 0 then - (PI / 2)
  else 0.

(** Truncation toward zero, and the remainder operator [x % m], whose
    result takes the sign of the dividend. *)
Definition Rtrunc (r : R) : Z :=
  if Rle_dec 0 r then Zfloor r else Zceil r.

Definition Number_rem (x m : R) : R := x - m * IZR (Rtrunc (x / m)).

(** [new Date(s).getTime()]: milliseconds since the epoch, [None] for an
    invalid date (NaN in the code).  The parser is a built-in of the host;
    the development is parametric in it. *)
Class DateParser := Date_getTime : string -> option Z.

(** Arithmetic on a possibly-NaN number. *)
Definition nan_sub (a b : option Z) : option R :=
  match a, b with
  | Some x, Some y => Some (IZR x - IZR y)
  | _, _ => None
  end.

Definition nan_div (a : option R) (d : R) : option R :=
  match a with Some x => Some (x / d) | None => None end.

(** [Array.prototype.slice(start, end)] on in-range non-negative indices
    ([end] is clamped to the length). *)
Definition Array_slice {A} (start end_ : nat) (l : list A) : list A :=
  take (end_ - start) (drop start l).

(** [Array.prototype.map] with a callback [(element, index)] that may
    throw ([None]). *)
Fixpoint Array_map_from {A B} (f : A -> nat -> option B) (i : nat)
    (l : list A) : option (list B) :=
  match l with
  | [] => Some []
  | p :: l' =>
      r ← f p i;
      rs ← Array_map_from f (S i) l';
      Some (r :: rs)
  end.

Definition Array_map {A B} (f : A -> nat -> option B) (l : list A)
  : option (list B) := Array_map_from f 0 l.

(** [Array.prototype.reduce(callback, init)] with a callback
    [(total, element, index)] that may throw. *)
Fixpoint Array_reduce_from {A B} (f : B -> A -> nat -> option B) (i : nat)
    (acc : B) (l : list A) : option B :=
  match l with
  | [] => Some acc
  | p :: l' =>
      acc' ← f acc p i;
      Array_reduce_from f (S i) acc' l'
  end.

Definition Array_reduce {A B} (f : B -> A -> nat -> option B) (init : B)
    (l : list A) : option B := Array_reduce_from f 0 init l.

(** ** Data model *)

Inductive Status := active | completed | current.

Module TrajectoryPoint.
Record t := mk {
  id : R;
  latitude : R;
  longitude : R;
  timestamp : string;
  depth : option R;
  temperature : option R;
  salinity : option R;
  status : Status
}.
End TrajectoryPoint.

Module DriftData.
Record t := mk {
  timestamp : string;
  speed : R;
  direction : R;
  latitude : R;
  longitude : R;
  distance : R;
  displacement : R
}.
End DriftData.

Abbreviation Point := TrajectoryPoint.t.

(** ** The drift series builder, [generateMockDriftData] *)

Section Drift.
Context `{DateParser}.

(** The arithmetic of the [reduce] callback for an index other than 0:
    the running total plus the Haversine length of the leg from [prev]
    to [p]. *)
Definition cumulativeArith (prev p : Point) (total : R) : R :=
  let lat1 := (TrajectoryPoint.latitude prev * Math_PI) / 180 in
  let lat2 := (TrajectoryPoint.latitude p * Math_PI) / 180 in
  let dLat :=
    ((TrajectoryPoint.latitude p - TrajectoryPoint.latitude prev)
     * Math_PI) / 180 in
  let dLon :=
    ((TrajectoryPoint.longitude p - TrajectoryPoint.longitude prev)
     * Math_PI) / 180 in
  let a :=
    Math_sin (dLat / 2) * Math_sin (dLat / 2) +
    Math_cos lat1 * Math_cos lat2 *
      Math_sin (dLon / 2) * Math_sin (dLon / 2) in
  let c := 2 * Math_atan2 (Math_sqrt a) (Math_sqrt (1 - a)) in
  total + 6371 * c.

(** The arithmetic of the [map] callback, once [prevPoint], the
    cumulative distance and [startPoint] have been read. *)
Definition driftArith (prevPoint point : Point) (cumulativeDistance : R)
    (startPoint : Point) : DriftData.t :=
  let lat1 := (TrajectoryPoint.latitude prevPoint * Math_PI) / 180 in
  let lat2 := (TrajectoryPoint.latitude point * Math_PI) / 180 in
  let deltaLat :=
    ((TrajectoryPoint.latitude point - TrajectoryPoint.latitude prevPoint)
     * Math_PI) / 180 in
  let deltaLon :=
    ((TrajectoryPoint.longitude point
      - TrajectoryPoint.longitude prevPoint) * Math_PI) / 180 in
  let a :=
    Math_sin (deltaLat / 2) * Math_sin (deltaLat / 2) +
    Math_cos lat1 * Math_cos lat2 *
      Math_sin (deltaLon / 2) * Math_sin (deltaLon / 2) in
  let c := 2 * Math_atan2 (Math_sqrt a) (Math_sqrt (1 - a)) in
  let distance := 6371 * c in
  let timeDiff :=
    nan_div
      (nan_sub (Date_getTime (TrajectoryPoint.timestamp point))
               (Date_getTime (TrajectoryPoint.timestamp prevPoint)))
      (1000 * 60 * 60) in
  let speed :=
    match timeDiff with
    | Some td => if Rlt_dec 0 td then distance / td else 0
    | None => 0
    end in
  let y := Math_sin deltaLon * Math_cos lat2 in
  let x :=
    Math_cos lat1 * Math_sin lat2 -
    Math_sin lat1 * Math_cos lat2 * Math_cos deltaLon in
  let direction :=
    Number_rem ((Math_atan2 y x * 180) / Math_PI + 360) 360 in
  let startLat := (TrajectoryPoint.latitude startPoint * Math_PI) / 180 in
  let pointLat := (TrajectoryPoint.latitude point * Math_PI) / 180 in
  let dLat :=
    ((TrajectoryPoint.latitude point
      - TrajectoryPoint.latitude startPoint) * Math_PI) / 180 in
  let dLon :=
    ((TrajectoryPoint.longitude point
      - TrajectoryPoint.longitude startPoint) * Math_PI) / 180 in
  let aDisp :=
    Math_sin (dLat / 2) * Math_sin (dLat / 2) +
    Math_cos startLat * Math_cos pointLat *
      Math_sin (dLon / 2) * Math_sin (dLon / 2) in
  let cDisp :=
    2 * Math_atan2 (Math_sqrt aDisp) (Math_sqrt (1 - aDisp)) in
  let displacement := 6371 * cDisp in
  {|
    DriftData.timestamp := TrajectoryPoint.timestamp point;
    DriftData.speed := Math_max 0 (Math_min speed 10);
    DriftData.direction := direction;
    DriftData.latitude := TrajectoryPoint.latitude point;
    DriftData.longitude := TrajectoryPoint.longitude point;
    DriftData.distance := cumulativeDistance;
    DriftData.displacement := displacement
  |}.

(** The callback of [reduce]; [trajectoryPoints[i - 1]] is read from the
    whole trajectory. *)
Definition cumulativeStep (trajectoryPoints : list Point)
    (total : R) (p : Point) (i : nat) : option R :=
  if Nat.eqb i 0 then Some 0
  else
    prev ← trajectoryPoints !! (i - 1)%nat;
    Some (cumulativeArith prev p total).

(** The callback of [map]: the drift record of [point], the element of
    [trajectoryPoints.slice(1)] at [index]. *)
Definition driftRecord (trajectoryPoints : list Point)
    (point : Point) (index : nat) : option DriftData.t :=
  prevPoint ← trajectoryPoints !! index;
  cumulativeDistance ←
    Array_reduce (cumulativeStep trajectoryPoints) 0
      (Array_slice 0 (index + 2) trajectoryPoints);
  startPoint ← trajectoryPoints !! 0%nat;
  Some (driftArith prevPoint point cumulativeDistance startPoint).

(** [None] stands for a thrown [TypeError] (a property read on
    [undefined]). *)
Definition generateMockDriftData (trajectoryPoints : list Point)
  : option (list DriftData.t) :=
  Array_map (driftRecord trajectoryPoints) (drop 1 trajectoryPoints).

End Drift.

(** ** The profile grouper of [ProfileOverlayChart] *)

(** [Array.prototype.sort(compare)]: the sort is stable, and [a] is placed
    after [b] exactly when [compare(a, b) > 0]; for a comparator that is a
    total preorder the result is the stable insertion sort below. *)
Fixpoint sort_insert {A} (compare : A -> A -> R) (x : A) (l : list A)
  : list A :=
  match l with
  | [] => [x]
  | y :: l' =>
      if Rlt_dec 0 (compare x y) then y :: sort_insert compare x l'
      else x :: y :: l'
  end.

Definition Array_sort {A} (compare : A -> A -> R) (l : list A) : list A :=
  foldr (sort_insert compare) [] l.

(** [v || 0] on an optional number. *)
Definition or0 (v : option R) : R := default 0 v.

(** [(a, b) => (a.depth || 0) - (b.depth || 0)] *)
Definition compareDepth (a b : Point) : R :=
  or0 (TrajectoryPoint.depth a) - or0 (TrajectoryPoint.depth b).

(** [point.temperature != null && point.depth != null] *)
Definition isValidPoint (point : Point) : bool :=
  bool_decide (is_Some (TrajectoryPoint.temperature point))
  && bool_decide (is_Some (TrajectoryPoint.depth point)).

Definition profileSize : nat := 5.

(** The [for (let i = 0; i < validPoints.length; i += profileSize)] loop;
    [None] when the fuel runs out. *)
Fixpoint profileLoop (fuel : nat) (validPoints : list Point) (i : nat)
    (profiles : list (list Point)) : option (list (list Point)) :=
  if (i <? length validPoints)%nat then
    match fuel with
    | O => None
    | S fuel' =>
        let profile := Array_slice i (i + profileSize) validPoints in
        let profiles' :=
          if (1 <? length profile)%nat
          then profiles ++ [Array_sort compareDepth profile]
          else profiles in
        profileLoop fuel' validPoints (i + profileSize) profiles'
    end
  else Some profiles.

(** The profiles drawn by the chart for the points of a trajectory; the two
    early returns of the effect draw nothing. *)
Definition profileGroups (points : list Point)
  : option (list (list Point)) :=
  if (length points =? 0)%nat then Some []
  else
    let validPoints := filter (fun p => isValidPoint p = true) points in
    if (length validPoints =? 0)%nat then Some []
    else profileLoop (length validPoints) validPoints 0 [].

(** ** The same code with arrays as mutable heap objects

    To state what the code does to its input array, and what it depends on,
    arrays of trajectory points are heap objects named by a location, and
    [Math.random] draws from a stream held in the world.  Result arrays
    (drift records, positioning records, the array of profiles) are created
    by the code and handed to the caller; they are returned by value. *)

Module World.
Record t := mk {
  heap : list (list Point);
  rnd : nat -> R;
  rnd_pos : nat
}.
End World.

Abbreviation loc := nat (only parsing).

(** Computations over the world that may throw. *)
Definition M (A : Type) : Type := World.t -> option (A * World.t).

Definition ret {A} (x : A) : M A := fun w => Some (x, w).

Definition bind {A B} (m : M A) (k : A -> M B) : M B :=
  fun w => match m w with Some (x, w') => k x w' | None => None end.

Definition throw {A} : M A := fun _ => None.

Declare Scope world_scope.
Delimit Scope world_scope with world.
Notation "'let*' x ':=' m 'in' k" := (bind m (fun x => k))
  (at level 10, x name, m at level 100, k at level 200) : world_scope.

Local Open Scope world_scope.

Definition alloc (l : list Point) : M loc :=
  fun w => Some (length (World.heap w),
                 World.mk (World.heap w ++ [l]) (World.rnd w)
                          (World.rnd_pos w)).

Definition load (a : loc) : M (list Point) :=
  fun w => match World.heap w !! a with
           | Some l => Some (l, w)
           | None => None
           end.

Definition store (a : loc) (l : list Point) : M unit :=
  fun w => if (a <? length (World.heap w))%nat
           then Some (tt, World.mk (<[a := l]> (World.heap w))
                                   (World.rnd w) (World.rnd_pos w))
           else None.

(** [Math.random()] *)
Definition Math_random : M R :=
  fun w => Some (World.rnd w (World.rnd_pos w),
                 World.mk (World.heap w) (World.rnd w)
                          (S (World.rnd_pos w))).

(** [a.length] *)
Definition Array_length_h (a : loc) : M nat :=
  let* l := load a in ret (length l).

(** [a[i]] followed by a property read: throws on [undefined]. *)
Definition Array_get_h (a : loc) (i : nat) : M Point :=
  let* l := load a in
  match l !! i with Some p => ret p | None => throw end.

(** [a.slice(start, end)]: a new array. *)
Definition Array_slice_h (a : loc) (start end_ : nat) : M loc :=
  let* l := load a in alloc (Array_slice start end_ l).

(** [a.slice(start)]: a new array. *)
Definition Array_slice_from_h (a : loc) (start : nat) : M loc :=
  let* l := load a in alloc (drop start l).

(** [a.filter(pred)]: a new array. *)
Definition Array_filter_h (a : loc) (pred : Point -> bool) : M loc :=
  let* l := load a in alloc (filter (fun p => pred p = true) l).

(** [a.sort(compare)]: sorts [a] in place and returns [a] itself. *)
Definition Array_sort_h (a : loc) (compare : Point -> Point -> R) : M loc :=
  let* l := load a in
  let* _ := store a (Array_sort compare l) in
  ret a.

(** [a.map(callback)]: the length is read once, the elements as the
    iteration reaches them. *)
Fixpoint Array_map_loop {B} (a : loc) (f : Point -> nat -> M B)
    (n k : nat) : M (list B) :=
  match n with
  | O => ret []
  | S n' =>
      let* p := Array_get_h a k in
      let* r := f p k in
      let* rs := Array_map_loop a f n' (S k) in
      ret (r :: rs)
  end.

Definition Array_map_h {B} (a : loc) (f : Point -> nat -> M B)
  : M (list B) :=
  let* len := Array_length_h a in Array_map_loop a f len 0.

(** [a.reduce(callback, init)] *)
Fixpoint Array_reduce_loop {B} (a : loc) (f : B -> Point -> nat -> M B)
    (n k : nat) (acc : B) : M B :=
  match n with
  | O => ret acc
  | S n' =>
      let* p := Array_get_h a k in
      let* acc' := f acc p k in
      Array_reduce_loop a f n' (S k) acc'
  end.

Definition Array_reduce_h {B} (a : loc) (f : B -> Point -> nat -> M B)
    (init : B) : M B :=
  let* len := Array_length_h a in Array_reduce_loop a f len 0 init.

Section DriftHeap.
Context `{DateParser}.

Definition cumulativeStep_h (trajectoryPoints : loc)
    (total : R) (p : Point) (i : nat) : M R :=
  if Nat.eqb i 0 then ret 0
  else
    let* prev := Array_get_h trajectoryPoints (i - 1)%nat in
    ret (cumulativeArith prev p total).

Definition driftRecord_h (trajectoryPoints : loc)
    (point : Point) (index : nat) : M DriftData.t :=
  let* prevPoint := Array_get_h trajectoryPoints index in
  let* prefix := Array_slice_h trajectoryPoints 0 (index + 2) in
  let* cumulativeDistance :=
    Array_reduce_h prefix (cumulativeStep_h trajectoryPoints) 0 in
  let* startPoint := Array_get_h trajectoryPoints 0 in
  ret (driftArith prevPoint point cumulativeDistance startPoint).

Definition generateMockDriftData_h (trajectoryPoints : loc)
  : M (list DriftData.t) :=
  let* rest := Array_slice_from_h trajectoryPoints 1 in
  Array_map_h rest (driftRecord_h trajectoryPoints).
End DriftHeap.

(** The sibling generator [generateMockPositioningData], which draws from
    [Math.random]. *)
Inductive FixType := GPS | DGPS | RTK | Estimated.

Module PositioningData.
Record t := mk {
  timestamp : string;
  latitude : R;
  longitude : R;
  horizontalAccuracy : R;
  verticalAccuracy : option R;
  satelliteCount : R;
  hdop : R;
  fixType : option FixType;
  signalStrength : R
}.
End PositioningData.

Definition Math_floor (x : R) : Z := Zfloor x.

(** Indexing by a number: [undefined] unless the index is in range. *)
Definition index_Z {A} (l : list A) (i : Z) : option A :=
  if (i <? 0)%Z then None else l !! Z.to_nat i.

Definition positioningRecord (point : Point) (_ : nat)
  : M PositioningData.t :=
  let* r1 := Math_random in
  let* r2 := Math_random in
  let* r3 := Math_random in
  let* r4 := Math_random in
  let* r5 := Math_random in
  let* r6 := Math_random in
  ret {|
    PositioningData.timestamp := TrajectoryPoint.timestamp point;
    PositioningData.latitude := TrajectoryPoint.latitude point;
    PositioningData.longitude := TrajectoryPoint.longitude point;
    PositioningData.horizontalAccuracy := r1 * 50 + 5;
    PositioningData.verticalAccuracy := Some (r2 * 20 + 5);
    PositioningData.satelliteCount := IZR (Math_floor (r3 * 8)) + 4;
    PositioningData.hdop := r4 * 3 + 0.5;
    PositioningData.fixType :=
      index_Z [GPS; DGPS; RTK; Estimated] (Math_floor (r5 * 4));
    PositioningData.signalStrength := r6 * 20 + 30
  |}.

Definition generateMockPositioningData_h (trajectoryPoints : loc)
  : M (list PositioningData.t) :=
  Array_map_h trajectoryPoints positioningRecord.

(** The profile grouper on the heap: [trajectory.points] is the array at
    [points]; the result lists the locations of the profile arrays. *)
Fixpoint profileLoop_h (fuel : nat) (validPoints : loc) (i : nat)
    (profiles : list loc) : M (list loc) :=
  let* len := Array_length_h validPoints in
  if (i <? len)%nat then
    match fuel with
    | O => throw
    | S fuel' =>
        let* profile := Array_slice_h validPoints i (i + profileSize) in
        let* plen := Array_length_h profile in
        let* profiles' :=
          (if (1 <? plen)%nat
           then let* sorted := Array_sort_h profile compareDepth in
                ret (profiles ++ [sorted])
           else ret profiles) in
        profileLoop_h fuel' validPoints (i + profileSize) profiles'
    end
  else ret profiles.

Definition profileGroups_h (points : loc) : M (list loc) :=
  let* n := Array_length_h points in
  if (n =? 0)%nat then ret []
  else
    let* validPoints := Array_filter_h points isValidPoint in
    let* vlen := Array_length_h validPoints in
    if (vlen =? 0)%nat then ret []
    else profileLoop_h vlen validPoints 0 [].

(** ** The battery series, [generateMockBatteryData], and its consumers *)

Module BatteryData.
Record t := mk {
  timestamp : string;
  voltage : R;
  current : option R;
  powerConsumption : option R;
  temperature : R;
  cycleNumber : R;
  phase : option string;
  estimatedRemaining : option R
}.
End BatteryData.

(** Indexing an array by a number: [undefined] unless the number is an
    integer within range. *)
Definition index_R {A} (l : list A) (x : R) : option A :=
  if Req_dec_T x (IZR (Zfloor x)) then index_Z l (Zfloor x) else None.

(** The callback of [map] in [generateMockBatteryData];
    [trajectoryPoints.length] is read where the code reads it. *)
Definition batteryRecord (trajectoryPoints : loc) (point : Point)
    (index : nat) : M BatteryData.t :=
  let* len1 := Array_length_h trajectoryPoints in
  let* r1 := Math_random in
  let* r2 := Math_random in
  let* r3 := Math_random in
  let* r4 := Math_random in
  let* len2 := Array_length_h trajectoryPoints in
  let* r5 := Math_random in
  ret {|
    BatteryData.timestamp := TrajectoryPoint.timestamp point;
    BatteryData.voltage :=
      15.0 - (INR index / INR len1) * 0.5 + r1 * 0.1 - 0.05;
    BatteryData.current := Some (50 + r2 * 20);
    BatteryData.powerConsumption := Some (0.75 + r3 * 0.3);
    BatteryData.temperature := 20 + r4 * 10;
    BatteryData.cycleNumber := IZR (Math_floor (INR index / 10)) + 1;
    BatteryData.phase :=
      index_R ["surface"%string; "descent"%string; "drift"%string;
               "ascent"%string; "transmission"%string]
        (Number_rem (INR index) 5);
    BatteryData.estimatedRemaining :=
      Some (Math_max 0 (100 - (INR index / INR len2) * 100 + r5 * 5))
  |}.

Definition generateMockBatteryData_h (trajectoryPoints : loc)
  : M (list BatteryData.t) :=
  Array_map_h trajectoryPoints (batteryRecord trajectoryPoints).

(** The [specifications] prop of [BatteryMonitoringChart]. *)
Module BatterySpecs.
Record t := mk {
  nominalVoltage : R;
  lowVoltageThreshold : R;
  criticalVoltageThreshold : R;
  capacity : R;
  expectedLifetime : R
}.
End BatterySpecs.

(** The [batterySpecs] that [TrajectoryDashboard] passes to the chart. *)
Definition batterySpecs : BatterySpecs.t :=
  {| BatterySpecs.nominalVoltage := 15.0;
     BatterySpecs.lowVoltageThreshold := 14.0;
     BatterySpecs.criticalVoltageThreshold := 13.0;
     BatterySpecs.capacity := 50;
     BatterySpecs.expectedLifetime := 365 |}.

Module BatteryStatus.
Record t := mk { status : string; color : string }.
End BatteryStatus.

(** [getBatteryStatus] of [BatteryMonitoringChart]. *)
Definition getBatteryStatus (voltage : R) (specs : option BatterySpecs.t)
  : BatteryStatus.t :=
  match specs with
  | None => {| BatteryStatus.status := "Unknown";
               BatteryStatus.color := "text-gray-600" |}
  | Some specs =>
      if Rle_dec voltage (BatterySpecs.criticalVoltageThreshold specs)
      then {| BatteryStatus.status := "Critical";
              BatteryStatus.color := "text-red-600" |}
      else if Rle_dec voltage (BatterySpecs.lowVoltageThreshold specs)
      then {| BatteryStatus.status := "Low";
              BatteryStatus.color := "text-yellow-600" |}
      else {| BatteryStatus.status := "Good";
              BatteryStatus.color := "text-green-600" |}
  end.

(** The [batteryHealth] estimate of [BatteryMonitoringChart]. *)
Definition batteryHealth (currentVoltage : R)
    (specifications : option BatterySpecs.t) : option R :=
  match specifications with
  | Some specifications =>
      Some (Math_max 0
              (Math_min 100
                 (((currentVoltage
                    - BatterySpecs.criticalVoltageThreshold specifications)
                   / (BatterySpecs.nominalVoltage specifications
                      - BatterySpecs.criticalVoltageThreshold
                          specifications))
                  * 100)))
  | None => None
  end.

(** [getTrajectoryCoordinates], on the [points] of the trajectory. *)
Definition getTrajectoryCoordinates (points : list Point) : list (R * R) :=
  map (fun point =>
         (TrajectoryPoint.latitude point, TrajectoryPoint.longitude point))
      points.

(** ** The tooltip of a profile in [ProfileOverlayChart] *)

(** [Math.min(...xs)]; [None] stands for [Infinity], the value for no
    argument. *)
Definition Math_min_of (xs : list R) : option R :=
  foldr (fun x acc =>
           match acc with None => Some x | Some y => Some (Rmin x y) end)
        None xs.

(** [Math.max(...xs)]; [None] stands for [-Infinity]. *)
Definition Math_max_of (xs : list R) : option R :=
  foldr (fun x acc =>
           match acc with None => Some x | Some y => Some (Rmax x y) end)
        None xs.


(** The two numbers of the "Temp Range" line. *)
Definition tooltipTempRange (profile : list Point)
  : option R * option R :=
  (Math_min_of (map (fun p => or0 (TrajectoryPoint.temperature p)) profile),
   Math_max_of (map (fun p => or0 (TrajectoryPoint.temperature p)) profile)).


(** ** Generators that also read the clock

    [Date.now()] reads a clock that the host advances on its own: the
    successive readings are a stream beside the random stream.  Local
    arrays of numbers or of object literals, which nothing else can reach,
    are lists. *)

Module Host.
Record t := mk {
  world : World.t;
  clock : nat -> Z;
  clock_pos : nat
}.
End Host.

Definition HostM (A : Type) : Type := Host.t -> option (A * Host.t).

Definition hret {A} (x : A) : HostM A := fun h => Some (x, h).

Definition hbind {A B} (m : HostM A) (k : A -> HostM B) : HostM B :=
  fun h => match m h with Some (x, h') => k x h' | None => None end.

Definition hthrow {A} : HostM A := fun _ => None.

Declare Scope host_scope.
Delimit Scope host_scope with host.
Notation "'let*' x ':=' m 'in' k" := (hbind m (fun x => k))
  (at level 10, x name, m at level 100, k at level 200) : host_scope.

Local Open Scope host_scope.

(** A computation over the world, run in the host. *)
Definition lift {A} (m : M A) : HostM A :=
  fun h => match m (Host.world h) with
           | Some (x, w') =>
               Some (x, Host.mk w' (Host.clock h) (Host.clock_pos h))
           | None => None
           end.

Definition random : HostM R := lift Math_random.

(** [Date.now()] *)
Definition Date_now : HostM Z :=
  fun h => Some (Host.clock h (Host.clock_pos h),
                 Host.mk (Host.world h) (Host.clock h)
                         (S (Host.clock_pos h))).

(** The ISO-8601 text of a time value, a built-in of the host. *)
Class DateFormatter := Date_isoFormat : Z -> string.

(** The largest time value of a [Date]. *)
Definition maxTime : R := 8640000000000000.

(** [new Date(t).toISOString()]: the time value is [t] truncated; a [t]
    beyond the range of dates gives an invalid date, on which
    [toISOString] throws a [RangeError]. *)
Definition Date_toISOString `{DateFormatter} (t : R) : HostM string :=
  if Rle_dec (Rabs t) maxTime then hret (Date_isoFormat (Rtrunc t))
  else hthrow.

(** Text of a number that is neither a whole number nor below 10^21 in
    size, a built-in of the host. *)
Class NumberFormatter := Number_formatOther : R -> string.

(** Number to string, as in a template literal or [toString()]: a whole
    number below 10^21 in size is written in decimal digits. *)
Definition Number_toString `{NumberFormatter} (x : R) : string :=
  if Req_dec_T x (IZR (Zfloor x)) then
    if Rlt_dec (Rabs x) (10 ^ 21) then pretty (Zfloor x)
    else Number_formatOther x
  else Number_formatOther x.

(** [map] over a local array. *)
Fixpoint Array_map_values {A B} (f : A -> nat -> HostM B) (i : nat)
    (l : list A) : HostM (list B) :=
  match l with
  | [] => hret []
  | x :: l' =>
      let* r := f x i in
      let* rs := Array_map_values f (S i) l' in
      hret (r :: rs)
  end.

Module ProfileData.
Record t := mk {
  depth : R;
  temperature : R;
  salinity : R;
  pressure : R;
  oxygen : option R;
  chlorophyll : option R;
  density : R;
  qualityFlag : R;
  timestamp : string
}.
End ProfileData.

Module CyclePhase.
Record t := mk {
  phase : string;
  startTime : string;
  endTime : string;
  duration : R;
  cycleNumber : R;
  depth : option R;
  temperature : option R;
  notes : option string
}.
End CyclePhase.

Module QualityData.
Record t := mk {
  parameter : option string;
  timestamp : string;
  depth : R;
  value : R;
  qualityFlag : R;
  qcTest : option string;
  confidence : R;
  outlierScore : option R;
  profileId : string
}.
End QualityData.

Section ClockGenerators.
Context `{DateFormatter} `{NumberFormatter}.

(** The callback of [depths.map] in [generateMockProfileData]. *)
Definition profileRecord (depth : R) (_ : nat) : HostM ProfileData.t :=
  let* r1 := random in
  let* r2 := random in
  let* oxygen :=
    (if Rlt_dec depth 1000
     then let* r := random in hret (Some (8 - depth / 200 + r * 2))
     else hret None) in
  let* chlorophyll :=
    (if Rlt_dec depth 200
     then let* r := random in
          hret (Some (Math_max 0 (0.5 - depth / 400 + r * 0.3)))
     else hret None) in
  let* r3 := random in
  let* q := random in
  let* qualityFlag :=
    (if Rlt_dec q 0.8
     then let* q' := random in hret (if Rlt_dec q' 0.9 then 1 else 2)
     else let* q' := random in hret (if Rlt_dec q' 0.7 then 3 else 4)) in
  let* now := Date_now in
  let* timestamp := Date_toISOString (IZR now - depth * 60000) in
  hret {|
    ProfileData.depth := depth;
    ProfileData.temperature := 25 - depth / 100 + r1 * 2 - 1;
    ProfileData.salinity := 34 + r2 * 2 - 1;
    ProfileData.pressure := depth * 0.1 + 1013.25;
    ProfileData.oxygen := oxygen;
    ProfileData.chlorophyll := chlorophyll;
    ProfileData.density := 1025 + depth / 500 + r3 * 0.5;
    ProfileData.qualityFlag := qualityFlag;
    ProfileData.timestamp := timestamp
  |}.

Definition generateMockProfileData : HostM (list ProfileData.t) :=
  let depths := map (fun i => INR i * 40) (seq 0 50) in
  Array_map_values profileRecord 0 depths.

Definition cycleCount : nat := 5.

(** The callback of [phaseSequence.forEach] in [generateMockCyclePhases],
    threading [currentTime] and the [phases] array. *)
Definition cyclePhaseStep (cycle : nat) (phaseInfo : string * R)
    (currentTime : R) (phases : list CyclePhase.t)
  : HostM (R * list CyclePhase.t) :=
  let duration := snd phaseInfo in
  let* startTime := Date_toISOString currentTime in
  let currentTime' := currentTime + duration * 60 * 60 * 1000 in
  let* endTime := Date_toISOString currentTime' in
  let* depth :=
    (if String.eqb (fst phaseInfo) "drift"
     then let* r := random in hret (Some (1000 + r * 500))
     else hret None) in
  let* r := random in
  hret (currentTime',
        phases ++ [{|
          CyclePhase.phase := fst phaseInfo;
          CyclePhase.startTime := startTime;
          CyclePhase.endTime := endTime;
          CyclePhase.duration := duration;
          CyclePhase.cycleNumber := INR cycle;
          CyclePhase.depth := depth;
          CyclePhase.temperature := Some (15 + r * 10);
          CyclePhase.notes := None
        |}]).

Fixpoint cyclePhaseEach (cycle : nat) (phaseSequence : list (string * R))
    (currentTime : R) (phases : list CyclePhase.t)
  : HostM (R * list CyclePhase.t) :=
  match phaseSequence with
  | [] => hret (currentTime, phases)
  | phaseInfo :: rest =>
      let* st := cyclePhaseStep cycle phaseInfo currentTime phases in
      cyclePhaseEach cycle rest (fst st) (snd st)
  end.

(** The body of the [for] loop over the cycles. *)
Definition cycleBody (cycle : nat) (phases : list CyclePhase.t)
  : HostM (list CyclePhase.t) :=
  let* now := Date_now in
  let baseTime :=
    IZR now - (INR cycleCount - INR cycle) * 10 * 24 * 60 * 60 * 1000 in
  let* d1 := random in
  let* d2 := random in
  let* d3 := random in
  let* d4 := random in
  let* d5 := random in
  let phaseSequence :=
    [("surface"%string, 0.5 + d1 * 0.5);
     ("descent"%string, 2 + d2 * 1);
     ("drift"%string, 200 + d3 * 40);
     ("ascent"%string, 3 + d4 * 1);
     ("surface_transmission"%string, 0.25 + d5 * 0.25)] in
  let* st := cyclePhaseEach cycle phaseSequence baseTime phases in
  hret (snd st).

(** [for (let cycle = 1; cycle <= cycleCount; cycle++)]; throws when the
    fuel runs out. *)
Fixpoint cycleLoop (fuel : nat) (cycle : nat) (phases : list CyclePhase.t)
  : HostM (list CyclePhase.t) :=
  if (cycle <=? cycleCount)%nat then
    match fuel with
    | O => hthrow
    | S fuel' =>
        let* phases' := cycleBody cycle phases in
        cycleLoop fuel' (S cycle) phases'
    end
  else hret phases.

Definition generateMockCyclePhases : HostM (list CyclePhase.t) :=
  cycleLoop cycleCount 1 [].

(** The body of the [for] loop of [generateMockQualityData]. *)
Definition qualityBody (i : nat) (data : list QualityData.t)
  : HostM (list QualityData.t) :=
  let parameters :=
    ["temperature"%string; "salinity"%string; "pressure"%string;
     "oxygen"%string; "chlorophyll"%string] in
  let qcTests :=
    ["RangeTest"%string; "SpikeTest"%string; "RateOfChangeTest"%string;
     "StuckValueTest"%string; "GradientTest"%string] in
  let* rp := random in
  let parameter :=
    index_Z parameters (Math_floor (rp * INR (length parameters))) in
  let* q := random in
  let* qualityFlag :=
    (if Rlt_dec q 0.85
     then let* q' := random in hret (if Rlt_dec q' 0.95 then 1 else 2)
     else let* q' := random in hret (if Rlt_dec q' 0.8 then 3 else 4)) in
  let* now := Date_now in
  let* timestamp :=
    Date_toISOString (IZR now - INR i * 60 * 60 * 1000) in
  let* rd := random in
  let* rv := random in
  let* rt := random in
  let* confidence :=
    (if Rle_dec qualityFlag 2
     then let* r := random in hret (85 + r * 15)
     else let* r := random in hret (60 + r * 25)) in
  let* ro := random in
  hret (data ++ [{|
    QualityData.parameter := parameter;
    QualityData.timestamp := timestamp;
    QualityData.depth := rd * 2000;
    QualityData.value := rv * 100;
    QualityData.qualityFlag := qualityFlag;
    QualityData.qcTest :=
      index_Z qcTests (Math_floor (rt * INR (length qcTests)));
    QualityData.confidence := confidence;
    QualityData.outlierScore := Some (ro * 5);
    QualityData.profileId :=
      ("profile_" ++ Number_toString (IZR (Math_floor (INR i / 20)) + 1))
        %string
  |}]).

(** [for (let i = 0; i < 200; i++)]; throws when the fuel runs out. *)
Fixpoint qualityLoop (fuel : nat) (i : nat) (data : list QualityData.t)
  : HostM (list QualityData.t) :=
  if (i <? 200)%nat then
    match fuel with
    | O => hthrow
    | S fuel' =>
        let* data' := qualityBody i data in
        qualityLoop fuel' (S i) data'
    end
  else hret data.

Definition generateMockQualityData : HostM (list QualityData.t) :=
  qualityLoop 200 0 [].

End ClockGenerators.

(** ** The trajectory generator, [generateMockTrajectoryData] *)

(** A [Date] object holds a time value, or none when it is invalid.
    [new Date(t)] clips [t] to the range of dates; [new Date()] reads the
    clock; [toISOString] throws on an invalid date. *)
Definition Date_of (t : R) : option Z :=
  if Rle_dec (Rabs t) maxTime then Some (Rtrunc t) else None.

Definition Date_new : HostM (option Z) :=
  let* now := Date_now in hret (Date_of (IZR now)).

Definition Date_text `{DateFormatter} (d : option Z) : HostM string :=
  match d with
  | Some t => hret (Date_isoFormat t)
  | None => hthrow
  end.

(** The calendar of the host, in local time: the month, the day of the
    month and the year of a time value, and the time value that results
    from giving it another month or another day of the month (which may
    be out of their usual range). *)
Class Calendar := {
  Calendar_month : Z -> Z;
  Calendar_date : Z -> Z;
  Calendar_fullYear : Z -> Z;
  Calendar_withMonth : Z -> Z -> Z;
  Calendar_withDate : Z -> Z -> Z
}.

Section Dates.
Context `{Calendar}.

Definition Date_getMonth (d : option Z) : option Z := Calendar_month <$> d.
Definition Date_getDate (d : option Z) : option Z := Calendar_date <$> d.
Definition Date_getFullYear (d : option Z) : option Z :=
  Calendar_fullYear <$> d.

(** [d.setMonth(m)] and [d.setDate(n)], as the new value of [d]; an
    invalid date, or NaN for the argument, gives an invalid date. *)
Definition Date_setMonth (d : option Z) (m : option Z) : option Z :=
  match d, m with
  | Some t, Some m => Date_of (IZR (Calendar_withMonth t m))
  | _, _ => None
  end.

Definition Date_setDate (d : option Z) (n : option Z) : option Z :=
  match d, n with
  | Some t, Some n => Date_of (IZR (Calendar_withDate t n))
  | _, _ => None
  end.
End Dates.

(** [parseFloat(x.toFixed(d))]: [x] rounded to [d] decimals, a tie going
    away from zero; from 10^21 on [toFixed] writes the number in full. *)
Definition parseFloat_toFixed (d : nat) (x : R) : R :=
  if Rlt_dec (Rabs x) (10 ^ 21) then
    (if Rle_dec 0 x then 1 else -1)
    * IZR (Zfloor (Rabs x * 10 ^ d + 1 / 2)) / 10 ^ d
  else x.

(** The text of a number that may be NaN. *)
Definition nan_toString `{NumberFormatter} (x : option R) : string :=
  match x with
  | Some v => Number_toString v
  | None => "NaN"
  end.

(** [s.padStart(n, fill)]: [s] preceded by as much of the repeated
    filler as brings it to [n] characters. *)
Definition String_padStart (n : nat) (fill : string) (s : string)
  : string :=
  let room := (n - String.length s)%nat in
  string_of_list_ascii
    (take room (concat (replicate room (list_ascii_of_string fill)))
     ++ list_ascii_of_string s).

(** [l.slice(0, end)]: a negative [end] counts from the end of [l]. *)
Definition Array_slice_to {A} (end_ : Z) (l : list A) : list A :=
  Array_slice 0
    (if (end_ <? 0)%Z then Z.to_nat (Z.of_nat (length l) + end_)
     else Z.to_nat end_) l.

(** A property read of a value that may be [undefined] throws a
    [TypeError] when it is. *)
Definition defined {A} (x : option A) : HostM A :=
  match x with
  | Some v => hret v
  | None => hthrow
  end.

Module Region.
Record t := mk {
  name : string;
  center : R * R;
  bounds : R
}.
End Region.

Module Measurement.
Record t := mk {
  pressure : R;
  temperature : R;
  salinity : R
}.
End Measurement.

Module ProfilesData.
Record t := mk {
  ascii : string;
  netcdf : string
}.
End ProfilesData.

Module QualityControl.
Record t := mk {
  dataMode : option string;
  positionQC : R;
  temperatureQC : R;
  salinityQC : R;
  pressureQC : R;
  lastQCDate : string;
  qcPerformed : list string
}.
End QualityControl.

Module DataProcessing.
Record t := mk {
  processingLevel : option string;
  calibrationDate : string;
  softwareVersion : string;
  processingHistory : list string;
  verticalSampling : string;
  dataRecovery : R
}.
End DataProcessing.

Module FloatTrajectory.
Record t := mk {
  floatId : string;
  floatNumber : string;
  startDate : string;
  endDate : option string;
  platformType : option string;
  status : string;
  points : list Point;
  totalDistance : R;
  missionDuration : option R;
  wmo : string;
  platformMaker : option string;
  floatSerial : string;
  transmissionSystem : string;
  ptt : string;
  owner : option string;
  dataCentre : option string;
  sensors : list string;
  deploymentDate : string;
  deploymentLatitude : R;
  deploymentLongitude : R;
  ship : option string;
  cruise : string;
  project : option string;
  principalInvestigator : option string;
  age : option R;
  lastProfileDate : string;
  cycle : option R;
  lastSurfaceData : Measurement.t;
  lastBottomData : Measurement.t;
  profilesData : ProfilesData.t;
  qualityControl : QualityControl.t;
  dataProcessing : DataProcessing.t
}.
End FloatTrajectory.

Definition regions : list Region.t :=
  [Region.mk "Bay of Bengal" (15, 90) 8;
   Region.mk "Arabian Sea" (18, 65) 10;
   Region.mk "Central Indian Ocean" (-10, 80) 15;
   Region.mk "Southwest Indian Ocean" (-25, 70) 12;
   Region.mk "Andaman Sea" (12, 95) 6].

(** The variables that the loop over the points updates. *)
Module Walk.
Record t := mk {
  currentLat : R;
  currentLon : R;
  totalDistance : R;
  points : list Point
}.
End Walk.

Section TrajectoryGenerator.
Context `{DateFormatter} `{NumberFormatter} `{Calendar}.

(** The body of the loop over the points. *)
Definition pointBody (centerLat centerLon boundRange : R) (pointCount : Z)
    (startDate : option Z) (i : nat) (st : Walk.t) : HostM Walk.t :=
  let timestamp :=
    Date_setDate startDate
      ((fun d => d + Z.of_nat i * 10)%Z <$> Date_getDate startDate) in
  let* r1 := random in
  let* r2 := random in
  let drift_lat := (r1 - 0.5) * 2 in
  let drift_lon := (r2 - 0.5) * 3 in
  let prevLat := Walk.currentLat st in
  let prevLon := Walk.currentLon st in
  let currentLat := Walk.currentLat st + drift_lat in
  let currentLon := Walk.currentLon st + drift_lon in
  let currentLat :=
    Math_max (centerLat - boundRange)
      (Math_min (centerLat + boundRange) currentLat) in
  let currentLon :=
    Math_max (centerLon - boundRange)
      (Math_min (centerLon + boundRange) currentLon) in
  let totalDistance :=
    if (0 <? i)%nat then
      let latDiff := currentLat - prevLat in
      let lonDiff := currentLon - prevLon in
      let distance :=
        Math_sqrt (latDiff * latDiff + lonDiff * lonDiff) * 111 in
      Walk.totalDistance st + distance
    else Walk.totalDistance st in
  let status :=
    if (Z.of_nat i =? pointCount - 1)%Z then current
    else if (Z.of_nat i <? pointCount - 5)%Z then completed
    else active in
  let* text := Date_text timestamp in
  let* r3 := random in
  let* r4 := random in
  let* r5 := random in
  hret {|
    Walk.currentLat := currentLat;
    Walk.currentLon := currentLon;
    Walk.totalDistance := totalDistance;
    Walk.points := Walk.points st ++ [{|
      TrajectoryPoint.id := INR i + 1;
      TrajectoryPoint.latitude := parseFloat_toFixed 6 currentLat;
      TrajectoryPoint.longitude := parseFloat_toFixed 6 currentLon;
      TrajectoryPoint.timestamp := text;
      TrajectoryPoint.depth := Some (r3 * 2000 + 500);
      TrajectoryPoint.temperature := Some (r4 * 15 + 2);
      TrajectoryPoint.salinity := Some (r5 * 2 + 34);
      TrajectoryPoint.status := status
    |}]
  |}.

(** [for (let i = 0; i < pointCount; i++)]; throws when the fuel runs
    out. *)
Fixpoint pointLoop (fuel : nat) (centerLat centerLon boundRange : R)
    (pointCount : Z) (startDate : option Z) (i : nat) (st : Walk.t)
  : HostM Walk.t :=
  if (Z.of_nat i <? pointCount)%Z then
    match fuel with
    | O => hthrow
    | S fuel' =>
        let* st' :=
          pointBody centerLat centerLon boundRange pointCount startDate
            i st in
        pointLoop fuel' centerLat centerLon boundRange pointCount
          startDate (S i) st'
    end
  else hret st.

Definition generateMockTrajectoryData (floatId : string)
  : HostM FloatTrajectory.t :=
  let* r := random in
  let* region :=
    defined (index_Z regions (Math_floor (r * INR (length regions)))) in
  let centerLat := fst (Region.center region) in
  let centerLon := snd (Region.center region) in
  let boundRange := Region.bounds region in
  let* r := random in
  let pointCount := (Math_floor (r * 50) + 20)%Z in
  let* startDate := Date_new in
  let* r := random in
  let startDate :=
    Date_setMonth startDate
      ((fun m => m - Math_floor (r * 24))%Z <$> Date_getMonth startDate) in
  let* r := random in
  let currentLat := centerLat + (r - 0.5) * boundRange in
  let* r := random in
  let currentLon := centerLon + (r - 0.5) * boundRange in
  let* st :=
    pointLoop (Z.to_nat pointCount) centerLat centerLon boundRange
      pointCount startDate 0
      (Walk.mk currentLat currentLon 0 []) in
  let* now := Date_now in
  let missionDuration : option R :=
    (fun x => IZR (Math_floor x))
      <$> nan_div (nan_sub (Some now) startDate) (1000 * 60 * 60 * 24) in
  let* startText := Date_text startDate in
  let* r := random in
  let* endDate :=
    (if Rgt_dec r 0.7
     then let* d := Date_new in let* s := Date_text d in hret (Some s)
     else hret None) in
  let* r := random in
  let platformType :=
    index_Z ["APEX"%string; "SOLO"%string; "NOVA"%string; "ARVOR"%string]
      (Math_floor (r * 4)) in
  let* r := random in
  let* status :=
    (if Rgt_dec r 0.8 then hret "completed"%string
     else let* r' := random in
          hret (if Rgt_dec r' 0.95 then "lost"%string
                else "active"%string)) in
  let* r := random in
  let platformMaker :=
    index_Z ["TWR"%string; "SBE"%string; "NKE"%string; "METOCEAN"%string]
      (Math_floor (r * 4)) in
  let* r := random in
  let floatSerial :=
    Number_toString (IZR (Math_floor (r * 90000 + 10000))) in
  let* r := random in
  let* ptt :=
    (if Rgt_dec r 0.3
     then let* r' := random in
          hret (Number_toString (IZR (Math_floor (r' * 90000 + 10000))))
     else hret "n/a"%string) in
  let* r := random in
  let owner :=
    index_Z ["STEPHEN RISER"%string; "INDIA METEOROLOGICAL DEPT"%string;
          "CSIRO"%string; "JAMSTEC"%string]
      (Math_floor (r * 4)) in
  let* r := random in
  let dataCentre :=
    index_Z ["AOML"%string; "INCOIS"%string; "CSIRO"%string; "JMA"%string]
      (Math_floor (r * 4)) in
  let* r := random in
  let sensors :=
    ["CTD_CNDC"%string; "CTD_TEMP"%string; "CTD_PRES"%string]
      ++ (if Rgt_dec r 0.5 then ["DOXY"%string] else []) in
  let* deploymentDate := Date_text startDate in
  let* r := random in
  let ship :=
    index_Z ["R/V Kaharoa II"%string; "ORV Sagar Nidhi"%string;
          "R/V Investigator"%string; "R/V Mirai"%string]
      (Math_floor (r * 4)) in
  let* today := Date_new in
  let* r := random in
  let cruise :=
    ("CR-" ++ nan_toString (IZR <$> Date_getFullYear today) ++ "-"
       ++ String_padStart 2 "0"
            (Number_toString (IZR (Math_floor (r * 20 + 1)))))%string in
  let* r := random in
  let project :=
    index_Z ["US ARGO PROJECT"%string; "INDIAN ARGO PROJECT"%string;
          "AUSTRALIAN ARGO"%string; "JAPAN ARGO"%string]
      (Math_floor (r * 4)) in
  let* r := random in
  let principalInvestigator :=
    index_Z ["STEPHEN RISER"%string; "DR. RAJESH KUMAR"%string;
          "DR. SUSAN WIJFFELS"%string; "DR. TOSHIO SUGA"%string]
      (Math_floor (r * 4)) in
  let age : option R :=
    (fun m => parseFloat_toFixed 2 (m / 365)) <$> missionDuration in
  let* now := Date_now in
  let* r := random in
  let* lastProfileDate :=
    Date_toISOString (IZR now - r * 7 * 24 * 60 * 60 * 1000) in
  let* r := random in
  let cycle : option R :=
    (fun m => IZR (Math_floor (m / 10)) + IZR (Math_floor (r * 5)))
      <$> missionDuration in
  let* r1 := random in
  let* r2 := random in
  let* r3 := random in
  let lastSurfaceData := {|
    Measurement.pressure := parseFloat_toFixed 1 (r1 * 10 + 2);
    Measurement.temperature := parseFloat_toFixed 3 (r2 * 5 + 25);
    Measurement.salinity := parseFloat_toFixed 2 (r3 * 2 + 34)
  |} in
  let* r1 := random in
  let* r2 := random in
  let* r3 := random in
  let lastBottomData := {|
    Measurement.pressure := parseFloat_toFixed 1 (r1 * 500 + 1500);
    Measurement.temperature := parseFloat_toFixed 3 (r2 * 3 + 2);
    Measurement.salinity := parseFloat_toFixed 2 (r3 * 2 + 34.5)
  |} in
  let* r := random in
  let dataMode :=
    index_Z ["A"%string; "R"%string; "D"%string]
      (Math_floor (r * 3)) in
  let* q1 := random in
  let* q2 := random in
  let* q3 := random in
  let* q4 := random in
  let* now := Date_now in
  let* r := random in
  let* lastQCDate :=
    Date_toISOString (IZR now - r * 30 * 24 * 60 * 60 * 1000) in
  let* r := random in
  let qualityControl := {|
    QualityControl.dataMode := dataMode;
    QualityControl.positionQC := IZR (Math_floor (q1 * 3)) + 1;
    QualityControl.temperatureQC := IZR (Math_floor (q2 * 3)) + 1;
    QualityControl.salinityQC := IZR (Math_floor (q3 * 3)) + 1;
    QualityControl.pressureQC := IZR (Math_floor (q4 * 3)) + 1;
    QualityControl.lastQCDate := lastQCDate;
    QualityControl.qcPerformed :=
      Array_slice_to (Math_floor (r * 3) + 3)
        ["Range test"%string; "Spike test"%string; "Gradient test"%string;
         "Pressure increasing test"%string; "Global range test"%string]
  |} in
  let* r := random in
  let processingLevel :=
    index_Z ["L1"%string; "L2"%string; "L3"%string]
      (Math_floor (r * 3)) in
  let* now := Date_now in
  let* r := random in
  let* calibrationDate :=
    Date_toISOString (IZR now - r * 180 * 24 * 60 * 60 * 1000) in
  let* v1 := random in
  let* v2 := random in
  let* v3 := random in
  let* r := random in
  let processingHistory :=
    Array_slice_to (Math_floor (r * 2) + 2)
      ["Automated quality control applied"%string;
       "Manual review completed"%string;
       "Delayed mode calibration"%string;
       "Salinity drift correction"%string] in
  let* rv := random in
  let* rd := random in
  hret {|
    FloatTrajectory.floatId := floatId;
    FloatTrajectory.floatNumber := ("WMO" ++ floatId)%string;
    FloatTrajectory.startDate := startText;
    FloatTrajectory.endDate := endDate;
    FloatTrajectory.platformType := platformType;
    FloatTrajectory.status := status;
    FloatTrajectory.points := Walk.points st;
    FloatTrajectory.totalDistance :=
      parseFloat_toFixed 2 (Walk.totalDistance st);
    FloatTrajectory.missionDuration := missionDuration;
    FloatTrajectory.wmo := floatId;
    FloatTrajectory.platformMaker := platformMaker;
    FloatTrajectory.floatSerial := floatSerial;
    FloatTrajectory.transmissionSystem := "IRIDIUM";
    FloatTrajectory.ptt := ptt;
    FloatTrajectory.owner := owner;
    FloatTrajectory.dataCentre := dataCentre;
    FloatTrajectory.sensors := sensors;
    FloatTrajectory.deploymentDate := deploymentDate;
    FloatTrajectory.deploymentLatitude :=
      parseFloat_toFixed 6 (Walk.currentLat st);
    FloatTrajectory.deploymentLongitude :=
      parseFloat_toFixed 6 (Walk.currentLon st);
    FloatTrajectory.ship := ship;
    FloatTrajectory.cruise := cruise;
    FloatTrajectory.project := project;
    FloatTrajectory.principalInvestigator := principalInvestigator;
    FloatTrajectory.age := age;
    FloatTrajectory.lastProfileDate := lastProfileDate;
    FloatTrajectory.cycle := cycle;
    FloatTrajectory.lastSurfaceData := lastSurfaceData;
    FloatTrajectory.lastBottomData := lastBottomData;
    FloatTrajectory.profilesData := {|
      ProfilesData.ascii := ("/data/" ++ floatId ++ "_profiles.ascii")%string;
      ProfilesData.netcdf := ("/data/" ++ floatId ++ "_profiles.nc")%string
    |};
    FloatTrajectory.qualityControl := qualityControl;
    FloatTrajectory.dataProcessing := {|
      DataProcessing.processingLevel := processingLevel;
      DataProcessing.calibrationDate := calibrationDate;
      DataProcessing.softwareVersion :=
        ("v" ++ Number_toString (IZR (Math_floor (v1 * 3)) + 1) ++ "."
           ++ Number_toString (IZR (Math_floor (v2 * 10))) ++ "."
           ++ Number_toString (IZR (Math_floor (v3 * 10))))%string;
      DataProcessing.processingHistory := processingHistory;
      DataProcessing.verticalSampling :=
        (Number_toString (IZR (Math_floor (rv * 5)) + 1) ++ "dbar")%string;
      DataProcessing.dataRecovery := IZR (Math_floor (rd * 20)) + 80
    |}
  |}.
End TrajectoryGenerator.

Local Close Scope host_scope.

(** ** The badges of [TrajectoryDashboard] *)

Definition getStatusColor (status : string) : string :=
  if String.eqb status "active" then "bg-green-500"
  else if String.eqb status "inactive" then "bg-gray-500"
  else if String.eqb status "completed" then "bg-blue-500"
  else "bg-gray-500".

(** [o[x]] for an object literal [o] whose keys are whole numbers and a
    number [x]: the key of a number is its text, which is the text of a
    whole number only for that number. *)
Definition Object_get_number {A} (o : list (Z * A)) (x : R) : option A :=
  snd <$> List.find
            (fun kv => if Req_dec_T x (IZR (fst kv)) then true else false) o.

Definition descriptions : list (Z * string) :=
  [(1, "Good"); (2, "Probably good"); (3, "Probably bad"); (4, "Bad");
   (5, "Changed"); (6, "Not used"); (7, "Not used"); (8, "Estimated");
   (9, "Missing")]%Z.

Definition getQualityFlagDescription (flag : R) : string :=
  match Object_get_number descriptions flag with
  | Some d => d
  | None => "Unknown"
  end.

Definition getQualityFlagColor (flag : R) : string :=
  if Rle_dec flag 2 then "bg-green-500"
  else if Rle_dec flag 3 then "bg-yellow-500"
  else if Rle_dec flag 4 then "bg-red-500"
  else "bg-gray-500".

(** ** The summary statistics of [QualityControlChart] *)

Module QualityInfo.
Record t := mk {
  label : string;
  category : string;
  icon : string;
  color : string
}.
End QualityInfo.

Definition qualityMap_4 : QualityInfo.t :=
  QualityInfo.mk "Bad" "bad" "X" "text-red-600".

Definition qualityMap : list (Z * QualityInfo.t) :=
  [(1, QualityInfo.mk "Good" "good" "CheckCircle" "text-green-600");
   (2, QualityInfo.mk "Probably Good" "probablyGood" "CheckCircle"
         "text-green-500");
   (3, QualityInfo.mk "Questionable" "questionable" "AlertTriangle"
         "text-yellow-600");
   (4, qualityMap_4);
   (5, QualityInfo.mk "Changed" "questionable" "Activity"
         "text-orange-600");
   (6, QualityInfo.mk "Not Used" "missing" "Filter" "text-gray-600");
   (8, QualityInfo.mk "Estimated" "questionable" "Eye" "text-blue-600");
   (9, QualityInfo.mk "Missing" "missing" "X" "text-gray-600")]%Z.

(** [qualityMap[flag] || qualityMap[4]] *)
Definition getQualityInfo (flag : R) : QualityInfo.t :=
  match Object_get_number qualityMap flag with
  | Some info => info
  | None => qualityMap_4
  end.

(** The statistics that the chart computes once it has found [data] not
    empty; [qualityStats] is an object used as a map from the category to
    its count. *)
Definition qualityStats (data : list QualityData.t) : gmap string R :=
  foldl
    (fun acc d =>
       let info := getQualityInfo (QualityData.qualityFlag d) in
       <[QualityInfo.category info :=
           default 0 (acc !! QualityInfo.category info) + 1]> acc)
    ∅ data.

Definition goodDataPercentage (data : list QualityData.t) : R :=
  let totalMeasurements := INR (length data) in
  let qualityStats := qualityStats data in
  ((default 0 (qualityStats !! "good"%string)
    + default 0 (qualityStats !! "probablyGood"%string))
   / totalMeasurements) * 100.

Definition avgConfidence (data : list QualityData.t) : R :=
  foldl (fun sum d => sum + QualityData.confidence d) 0 data
  / INR (length data).

(** ** Reference definitions, in the words of the specification *)

Module GeoMetrics.
(** A coordinate: latitude and longitude, in degrees. *)
Definition Coordinate : Type := R * R.

Definition radians (deg : R) : R := deg * PI / 180.

(** The haversine of an angle. *)
Definition hav (theta : R) : R := (sin (theta / 2))².

(** Haversine great-circle distance, in km, on a sphere of radius
    6371 km. *)
Definition distance (a b : Coordinate) : R :=
  let phi1 := radians (fst a) in
  let phi2 := radians (fst b) in
  let h :=
    hav (phi2 - phi1)
    + cos phi1 * cos phi2 * hav (radians (snd b) - radians (snd a)) in
  6371 * (2 * asin (sqrt h)).

(** Coordinates within the valid ranges. *)
Definition valid (a : Coordinate) : Prop :=
  -90 <= fst a <= 90 /\ -180 <= snd a <= 180.

End GeoMetrics.

Module Sphere.
(** Cosine of the central angle between two places given in radians:
    the inner product of their unit vectors. *)
Definition dot (phi1 lam1 phi2 lam2 : R) : R :=
  sin phi1 * sin phi2 + cos phi1 * cos phi2 * cos (lam2 - lam1).
End Sphere.

Definition coordinate (p : Point) : GeoMetrics.Coordinate :=
  (TrajectoryPoint.latitude p, TrajectoryPoint.longitude p).

(** Elapsed hours between two instants given in milliseconds. *)
Definition hoursBetween (t1 t2 : Z) : R := IZR (t2 - t1) / 3600000.

(** Clamping into [[lo, hi]]. *)
Definition clamp (lo hi x : R) : R :=
  if Rlt_dec x lo then lo else if Rlt_dec hi x then hi else x.

(** Length of the path through the points, leg by leg. *)
Fixpoint pathLength (pts : list Point) : R :=
  match pts with
  | a :: (b :: _) as rest =>
      GeoMetrics.distance (coordinate a) (coordinate b) + pathLength rest
  | _ => 0
  end.

(** Haversine length of the leg that ends at point [j]. *)
Definition legLength (pts : list Point) (j : nat) : R :=
  match pts !! (j - 1)%nat, pts !! j with
  | Some a, Some b => GeoMetrics.distance (coordinate a) (coordinate b)
  | _, _ => 0
  end.

(** Sum of the legs [j] for [j] from 1 through [i]. *)
Fixpoint sumLegs (pts : list Point) (i : nat) : R :=
  match i with
  | O => 0
  | S n => sumLegs pts n + legLength pts (S n)
  end.

(** Consecutive windows of [n] elements; the last one may be shorter. *)
Fixpoint windows_fuel {A} (fuel n : nat) (l : list A) : list (list A) :=
  match fuel, l with
  | S fuel', _ :: _ => take n l :: windows_fuel fuel' n (drop n l)
  | _, _ => []
  end.

Definition windows {A} (n : nat) (l : list A) : list (list A) :=
  windows_fuel (length l) n l.


(** The Haversine expression that the drift callback writes out three
    times (for the leg, inside [reduce], and for the displacement). *)
Definition legDistance (prev p : Point) : R :=
  let lat1 := (TrajectoryPoint.latitude prev * Math_PI) / 180 in
  let lat2 := (TrajectoryPoint.latitude p * Math_PI) / 180 in
  let dLat :=
    ((TrajectoryPoint.latitude p - TrajectoryPoint.latitude prev)
     * Math_PI) / 180 in
  let dLon :=
    ((TrajectoryPoint.longitude p - TrajectoryPoint.longitude prev)
     * Math_PI) / 180 in
  let a :=
    Math_sin (dLat / 2) * Math_sin (dLat / 2) +
    Math_cos lat1 * Math_cos lat2 *
      Math_sin (dLon / 2) * Math_sin (dLon / 2) in
  let c := 2 * Math_atan2 (Math_sqrt a) (Math_sqrt (1 - a)) in
  6371 * c.

(** The bearing expression of the drift callback. *)
Definition legBearing (prev p : Point) : R :=
  let lat1 := (TrajectoryPoint.latitude prev * Math_PI) / 180 in
  let lat2 := (TrajectoryPoint.latitude p * Math_PI) / 180 in
  let deltaLon :=
    ((TrajectoryPoint.longitude p - TrajectoryPoint.longitude prev)
     * Math_PI) / 180 in
  let y := Math_sin deltaLon * Math_cos lat2 in
  let x :=
    Math_cos lat1 * Math_sin lat2 -
    Math_sin lat1 * Math_cos lat2 * Math_cos deltaLon in
  Number_rem ((Math_atan2 y x * 180) / Math_PI + 360) 360.

(** [w'] is [w] after some arrays were created: every array of [w] is
    in [w'], unchanged and at the same location, and the random stream is
    where it was. *)
Definition extends (w w' : World.t) : Prop :=
  World.heap w `prefix_of` World.heap w' /\
  World.rnd w' = World.rnd w /\
  World.rnd_pos w' = World.rnd_pos w.

(** A world that holds one array and a constant random stream. *)
Definition world_of (pts : list Point) (r : R) : World.t :=
  World.mk [pts] (fun _ => r) 0.

(** The world after [d] more draws from [Math.random]. *)
Definition advance (w : World.t) (d : nat) : World.t :=
  World.mk (World.heap w) (World.rnd w) (World.rnd_pos w + d).

(** The contract of [Math.random]: every draw lies in [[0, 1)]. *)
Definition unit_stream (rnd : nat -> R) : Prop :=
  forall n, 0 <= rnd n < 1.

(** The host after [d] more draws and [c] more readings of the clock. *)
Definition hadvance (h : Host.t) (d c : nat) : Host.t :=
  Host.mk (advance (Host.world h) d) (Host.clock h) (Host.clock_pos h + c).

(** A clock that reads instants with plenty of room before [maxTime]. *)
Definition sane_clock (clock : nat -> Z) : Prop :=
  forall n, (0 <= clock n <= 8000000000000000)%Z.

(** A host with no array, a constant random stream and a constant
    clock. *)
Definition host_of (r : R) (t : Z) : Host.t :=
  Host.mk (World.mk [] (fun _ => r) 0) (fun _ => t) 0.

(** Sample built-ins: decimal digits for a time value, and a place-holder
    text for numbers that are not whole. *)
Definition sampleFormatter : DateFormatter := fun t => pretty t.
Definition sampleNumbers : NumberFormatter := fun _ => "?"%string.

(** Draws made by [generateMockProfileData] before its record [k]: five
    per record, one more for each of the first 25 (oxygen) and of the
    first 5 (chlorophyll). *)
Definition profileDraws (k : nat) : nat :=
  (5 * k + Nat.min k 25 + Nat.min k 5)%nat.

(** ** Runs that return, and what the trajectory generator keeps true *)

(** Hosts whose clock reads plausible instants and whose draws lie in
    [[0, 1)], and the runs that return on them, with a result in [Q]. *)
Definition good (h : Host.t) : Prop :=
  sane_clock (Host.clock h) /\ unit_stream (World.rnd (Host.world h)).

Definition returns {A} (m : HostM A) (Q : A -> Prop) : Prop :=
  forall h, good h -> exists x h', m h = Some (x, h') /\ good h' /\ Q x.

(** What the loop of the trajectory generator keeps true: [point_ok] of
    the point pushed at index [k], [walk_ok] of the variables after [i]
    turns. *)
Definition point_ok (centerLat centerLon boundRange : R) (pointCount : Z)
    (k : nat) (p : Point) : Prop :=
  TrajectoryPoint.id p = INR k + 1 /\
  TrajectoryPoint.status p
  = (if (Z.of_nat k =? pointCount - 1)%Z then current
     else if (Z.of_nat k <? pointCount - 5)%Z then completed
     else active) /\
  centerLat - boundRange <= TrajectoryPoint.latitude p
    <= centerLat + boundRange /\
  centerLon - boundRange <= TrajectoryPoint.longitude p
    <= centerLon + boundRange /\
  (exists d, TrajectoryPoint.depth p = Some d /\ 500 <= d < 2500) /\
  (exists t, TrajectoryPoint.temperature p = Some t /\ 2 <= t < 17) /\
  (exists s, TrajectoryPoint.salinity p = Some s /\ 34 <= s < 36).

Definition walk_ok (centerLat centerLon boundRange : R) (pointCount : Z)
    (i : nat) (st : Walk.t) : Prop :=
  length (Walk.points st) = i /\
  centerLat - boundRange <= Walk.currentLat st
    <= centerLat + boundRange /\
  centerLon - boundRange <= Walk.currentLon st
    <= centerLon + boundRange /\
  0 <= Walk.totalDistance st <= 200.133 * INR (i - 1) /\
  (forall k p, Walk.points st !! k = Some p ->
     point_ok centerLat centerLon boundRange pointCount k p) /\
  (forall p, last (Walk.points st) = Some p ->
     TrajectoryPoint.latitude p
     = parseFloat_toFixed 6 (Walk.currentLat st) /\
     TrajectoryPoint.longitude p
     = parseFloat_toFixed 6 (Walk.currentLon st)).

(** A calendar on which going back up to 23 months, or forward up to 690
    days, moves a time value by less than 10^11 milliseconds (some three
    years). *)
Definition sane_calendar `{Calendar} : Prop :=
  (forall t k, (0 <= k <= 23)%Z ->
     (Z.abs (Calendar_withMonth t (Calendar_month t - k) - t)
      <= 100000000000)%Z) /\
  (forall t d, (0 <= d <= 690)%Z ->
     (Z.abs (Calendar_withDate t (Calendar_date t + d) - t)
      <= 100000000000)%Z).

(** One of the listed names. *)
Definition one_of (names : list string) (x : option string) : Prop :=
  exists s, x = Some s /\ s ∈ names.

(** A whole number from [lo] to [hi]. *)
Definition whole_in (lo hi : Z) (x : R) : Prop :=
  exists z, x = IZR z /\ (lo <= z <= hi)%Z.

(** What [generateMockTrajectoryData] promises of its result. *)
Definition trajectory_ok (floatId : string) (traj : FloatTrajectory.t)
  : Prop :=
  exists (region : Region.t) (n : nat) (lat lon dist : R),
    region ∈ regions /\ (20 <= n <= 69)%nat /\
    walk_ok (fst (Region.center region)) (snd (Region.center region))
      (Region.bounds region) (Z.of_nat n) n
      (Walk.mk lat lon dist (FloatTrajectory.points traj)) /\
    FloatTrajectory.totalDistance traj = parseFloat_toFixed 2 dist /\
    FloatTrajectory.deploymentLatitude traj = parseFloat_toFixed 6 lat /\
    FloatTrajectory.deploymentLongitude traj = parseFloat_toFixed 6 lon /\
    FloatTrajectory.deploymentDate traj = FloatTrajectory.startDate traj /\
    (* identifiers *)
    FloatTrajectory.floatId traj = floatId /\
    FloatTrajectory.wmo traj = floatId /\
    FloatTrajectory.floatNumber traj = ("WMO" ++ floatId)%string /\
    FloatTrajectory.transmissionSystem traj = "IRIDIUM"%string /\
    FloatTrajectory.profilesData traj
    = ProfilesData.mk ("/data/" ++ floatId ++ "_profiles.ascii")
        ("/data/" ++ floatId ++ "_profiles.nc") /\
    (* names picked by a draw *)
    one_of ["APEX"%string; "SOLO"%string; "NOVA"%string; "ARVOR"%string]
      (FloatTrajectory.platformType traj) /\
    one_of ["TWR"%string; "SBE"%string; "NKE"%string; "METOCEAN"%string]
      (FloatTrajectory.platformMaker traj) /\
    one_of ["STEPHEN RISER"%string; "INDIA METEOROLOGICAL DEPT"%string;
            "CSIRO"%string; "JAMSTEC"%string]
      (FloatTrajectory.owner traj) /\
    one_of ["AOML"%string; "INCOIS"%string; "CSIRO"%string; "JMA"%string]
      (FloatTrajectory.dataCentre traj) /\
    one_of ["R/V Kaharoa II"%string; "ORV Sagar Nidhi"%string;
            "R/V Investigator"%string; "R/V Mirai"%string]
      (FloatTrajectory.ship traj) /\
    one_of ["US ARGO PROJECT"%string; "INDIAN ARGO PROJECT"%string;
            "AUSTRALIAN ARGO"%string; "JAPAN ARGO"%string]
      (FloatTrajectory.project traj) /\
    one_of ["STEPHEN RISER"%string; "DR. RAJESH KUMAR"%string;
            "DR. SUSAN WIJFFELS"%string; "DR. TOSHIO SUGA"%string]
      (FloatTrajectory.principalInvestigator traj) /\
    one_of ["A"%string; "R"%string; "D"%string]
      (QualityControl.dataMode (FloatTrajectory.qualityControl traj)) /\
    one_of ["L1"%string; "L2"%string; "L3"%string]
      (DataProcessing.processingLevel
         (FloatTrajectory.dataProcessing traj)) /\
    FloatTrajectory.status traj
      ∈ ["completed"%string; "lost"%string; "active"%string] /\
    (exists extra,
       FloatTrajectory.sensors traj
       = ["CTD_CNDC"%string; "CTD_TEMP"%string; "CTD_PRES"%string] ++ extra
       /\ (extra = [] \/ extra = ["DOXY"%string])) /\
    (* numbers *)
    (exists serial,
       FloatTrajectory.floatSerial traj = pretty serial /\
       (10000 <= serial <= 99999)%Z) /\
    (FloatTrajectory.ptt traj = "n/a"%string \/
     exists ptt,
       FloatTrajectory.ptt traj = pretty ptt /\
       (10000 <= ptt <= 99999)%Z) /\
    (exists m,
       FloatTrajectory.missionDuration traj = Some (IZR m) /\
       FloatTrajectory.age traj
       = Some (parseFloat_toFixed 2 (IZR m / 365)) /\
       exists c,
         FloatTrajectory.cycle traj = Some (IZR c) /\
         (m `div` 10 <= c <= m `div` 10 + 4)%Z) /\
    (2 <= Measurement.pressure (FloatTrajectory.lastSurfaceData traj)
       <= 12 /\
     25 <= Measurement.temperature (FloatTrajectory.lastSurfaceData traj)
       <= 30 /\
     34 <= Measurement.salinity (FloatTrajectory.lastSurfaceData traj)
       <= 36) /\
    (1500 <= Measurement.pressure (FloatTrajectory.lastBottomData traj)
       <= 2000 /\
     2 <= Measurement.temperature (FloatTrajectory.lastBottomData traj)
       <= 5 /\
     34.5 <= Measurement.salinity (FloatTrajectory.lastBottomData traj)
       <= 36.5) /\
    (whole_in 1 3
       (QualityControl.positionQC (FloatTrajectory.qualityControl traj)) /\
     whole_in 1 3
       (QualityControl.temperatureQC (FloatTrajectory.qualityControl traj))
     /\
     whole_in 1 3
       (QualityControl.salinityQC (FloatTrajectory.qualityControl traj)) /\
     whole_in 1 3
       (QualityControl.pressureQC (FloatTrajectory.qualityControl traj)))
    /\
    (exists k,
       QualityControl.qcPerformed (FloatTrajectory.qualityControl traj)
       = take k ["Range test"%string; "Spike test"%string;
                 "Gradient test"%string;
                 "Pressure increasing test"%string;
                 "Global range test"%string] /\
       (3 <= k <= 5)%nat) /\
    (exists k,
       DataProcessing.processingHistory
         (FloatTrajectory.dataProcessing traj)
       = take k ["Automated quality control applied"%string;
                 "Manual review completed"%string;
                 "Delayed mode calibration"%string;
                 "Salinity drift correction"%string] /\
       (2 <= k <= 3)%nat) /\
    (exists a b c,
       DataProcessing.softwareVersion (FloatTrajectory.dataProcessing traj)
       = ("v" ++ pretty a ++ "." ++ pretty b ++ "." ++ pretty c)%string /\
       (1 <= a <= 3)%Z /\ (0 <= b <= 9)%Z /\ (0 <= c <= 9)%Z) /\
    (exists v,
       DataProcessing.verticalSampling
         (FloatTrajectory.dataProcessing traj)
       = (pretty v ++ "dbar")%string /\ (1 <= v <= 5)%Z) /\
    whole_in 80 99
      (DataProcessing.dataRecovery (FloatTrajectory.dataProcessing traj)).

(** The records of [data] that the chart counts in a category. *)
Definition inCategory (c : string) (data : list QualityData.t)
  : list QualityData.t :=
  filter
    (fun d =>
       QualityInfo.category (getQualityInfo (QualityData.qualityFlag d)) = c)
    data.

(** ** Sample data *)

(** A surface fix without readings. *)
Definition fix_at (lat lon : R) (ts : string) : Point :=
  TrajectoryPoint.mk 0 lat lon ts None None None active.

(** A fix with depth and temperature readings. *)
Definition reading_at (n : Z) (d : R) : Point :=
  TrajectoryPoint.mk (IZR n) 0 0 "1970-01-01T00:00:00Z"
    (Some d) (Some 4) None active.

(** A parser for the two instants of the sample trajectories. *)
Definition sampleParser : DateParser :=
  fun s =>
    if String.eqb s "1970-01-01T00:00:00Z" then Some 0%Z
    else if String.eqb s "1970-01-01T01:00:00Z" then Some 3600000%Z
    else None.

Definition origin : Point := fix_at 0 0 "1970-01-01T00:00:00Z".
Definition oneDegreeEast : Point := fix_at 0 1 "1970-01-01T01:00:00Z".


(** Twelve fixes with readings, depths out of order. *)
Definition twelveReadings : list Point :=
  [reading_at 1 50; reading_at 2 10; reading_at 3 30; reading_at 4 20;
   reading_at 5 40; reading_at 6 5; reading_at 7 25; reading_at 8 15;
   reading_at 9 45; reading_at 10 35; reading_at 11 60; reading_at 12 55].

(** A sample calendar: twelve months of thirty days. *)
Definition sampleCalendar : Calendar := {|
  Calendar_month t := ((t `div` 2592000000) `mod` 12)%Z;
  Calendar_date t := ((t `div` 86400000) `mod` 30 + 1)%Z;
  Calendar_fullYear t := (1970 + t `div` 31104000000)%Z;
  Calendar_withMonth t m :=
    (t + (m - (t `div` 2592000000) `mod` 12) * 2592000000)%Z;
  Calendar_withDate t d :=
    (t + (d - ((t `div` 86400000) `mod` 30 + 1)) * 86400000)%Z
|}.

(** A sample quality record. *)
Definition sampleQuality : QualityData.t := {|
  QualityData.parameter := Some "temperature"%string;
  QualityData.timestamp := "2024-01-01T00:00:00.000Z";
  QualityData.depth := 100;
  QualityData.value := 20;
  QualityData.qualityFlag := 1;
  QualityData.qcTest := Some "RangeTest"%string;
  QualityData.confidence := 90;
  QualityData.outlierScore := Some 1;
  QualityData.profileId := "profile_1"
|}.

(** * Properties *)

(** ** The three copies of the Haversine expression *)

Lemma cumulativeArith_leg prev p total :
  cumulativeArith prev p total = total + legDistance prev p.
Proof. reflexivity. Qed.

Section DriftFields.
Context `{DateParser}.

Lemma driftArith_displacement prev p cum start :
  DriftData.displacement (driftArith prev p cum start)
  = legDistance start p.
Proof. reflexivity. Qed.

Lemma driftArith_distance prev p cum start :
  DriftData.distance (driftArith prev p cum start) = cum.
Proof. reflexivity. Qed.

Lemma driftArith_direction prev p cum start :
  DriftData.direction (driftArith prev p cum start) = legBearing prev p.
Proof. reflexivity. Qed.

Lemma driftArith_speed prev p cum start :
  DriftData.speed (driftArith prev p cum start)
  = Rmax 0 (Rmin
      (match nan_div
               (nan_sub (Date_getTime (TrajectoryPoint.timestamp p))
                        (Date_getTime (TrajectoryPoint.timestamp prev)))
               (1000 * 60 * 60) with
       | Some td => if Rlt_dec 0 td then legDistance prev p / td else 0
       | None => 0
       end) 10).
Proof. reflexivity. Qed.
End DriftFields.

(** ** [Math.atan2] *)
Lemma atan2_range y x : - PI < Math_atan2 y x <= PI.
Proof.
  unfold Math_atan2. pose proof PI_RGT_0 as Hpi.
  pose proof (atan_bound (y / x)) as Hb.
  destruct (Rlt_dec 0 x) as [Hx|Hx]; [lra|].
  destruct (Rlt_dec x 0) as [Hx'|Hx'].
  - destruct (Rle_dec 0 y) as [Hy|Hy].
    + assert (y / x <= 0).
      { pose proof (Rinv_lt_0_compat x Hx'). unfold Rdiv. nra. }
      assert (atan (y / x) <= 0).
      { destruct (Req_dec (y / x) 0) as [->|]; [rewrite atan_0; lra|].
        rewrite <- atan_0. apply Rlt_le, atan_increasing. lra. }
      lra.
    + assert (0 < y / x).
      { replace (y / x) with ((- y) * / (- x)) by (field; lra).
        apply Rmult_lt_0_compat; [lra|]. apply Rinv_0_lt_compat. lra. }
      assert (0 < atan (y / x)).
      { rewrite <- atan_0. apply atan_increasing. lra. }
      lra.
  - destruct (Rlt_dec 0 y); [lra|]. destruct (Rlt_dec y 0); lra.
Qed.

Lemma atan2_nonneg y x : 0 <= y -> 0 <= Math_atan2 y x <= PI.
Proof.
  intros Hy. split; [|apply atan2_range].
  unfold Math_atan2. pose proof PI_RGT_0 as Hpi.
  pose proof (atan_bound (y / x)) as Hb.
  destruct (Rlt_dec 0 x) as [Hx|Hx].
  - assert (0 <= y / x).
    { apply Rmult_le_pos; [lra|]. apply Rlt_le, Rinv_0_lt_compat, Hx. }
    destruct (Req_dec (y / x) 0) as [->|]; [rewrite atan_0; lra|].
    rewrite <- atan_0. apply Rlt_le, atan_increasing. lra.
  - destruct (Rlt_dec x 0) as [Hx'|Hx'].
    + destruct (Rle_dec 0 y); lra.
    + destruct (Rlt_dec 0 y); [lra|]. destruct (Rlt_dec y 0); lra.
Qed.

Lemma atan2_sqrt_asin a :
  0 <= a <= 1 -> Math_atan2 (sqrt a) (sqrt (1 - a)) = asin (sqrt a).
Proof.
  intros [H0 H1]. unfold Math_atan2.
  destruct (Rlt_dec 0 (sqrt (1 - a))) as [Hx|Hx].
  - assert (a < 1).
    { destruct (Rlt_dec a 1); [assumption|].
      replace (1 - a) with 0 in Hx by lra. rewrite sqrt_0 in Hx. lra. }
    assert (0 <= sqrt a < 1).
    { split; [apply sqrt_pos|]. rewrite <- sqrt_1. apply sqrt_lt_1; lra. }
    rewrite asin_atan by lra.
    unfold Rsqr. rewrite sqrt_sqrt by lra. reflexivity.
  - assert (sqrt (1 - a) = 0) as Hs.
    { pose proof (sqrt_pos (1 - a)). lra. }
    apply sqrt_eq_0 in Hs; [|lra].
    assert (a = 1) as -> by lra.
    rewrite Rminus_diag, sqrt_0, sqrt_1, asin_1.
    destruct (Rlt_dec 0 0); [lra|]. destruct (Rlt_dec 0 1); lra.
Qed.

(** ** Spherical geometry behind the Haversine expression *)

Lemma hav_cos theta : GeoMetrics.hav theta = (1 - cos theta) / 2.
Proof.
  unfold GeoMetrics.hav, Rsqr.
  replace (cos theta) with (cos (2 * (theta / 2))) by (f_equal; field).
  rewrite cos_2a_sin. field.
Qed.

Lemma sin2_cos2' x : sin x * sin x + cos x * cos x = 1.
Proof. pose proof (sin2_cos2 x) as E. unfold Rsqr in E. exact E. Qed.

Lemma haversine_dot phi1 lam1 phi2 lam2 :
  GeoMetrics.hav (phi2 - phi1)
  + cos phi1 * cos phi2 * GeoMetrics.hav (lam2 - lam1)
  = (1 - Sphere.dot phi1 lam1 phi2 lam2) / 2.
Proof.
  rewrite !hav_cos. unfold Sphere.dot. rewrite cos_minus. field.
Qed.

Lemma dot_bounds phi1 lam1 phi2 lam2 :
  -1 <= Sphere.dot phi1 lam1 phi2 lam2 <= 1.
Proof.
  unfold Sphere.dot.
  pose proof (sin2_cos2' phi1). pose proof (sin2_cos2' phi2).
  pose proof (sin2_cos2' (lam2 - lam1)).
  set (s1 := sin phi1) in *. set (c1 := cos phi1) in *.
  set (s2 := sin phi2) in *. set (c2 := cos phi2) in *.
  set (sd := sin (lam2 - lam1)) in *. set (cd := cos (lam2 - lam1)) in *.
  assert (2 * (1 - (s1 * s2 + c1 * c2 * cd))
          = (c1 - c2 * cd) * (c1 - c2 * cd) + (c2 * sd) * (c2 * sd)
            + (s1 - s2) * (s1 - s2)) as E1.
  { replace ((c1 - c2 * cd) * (c1 - c2 * cd) + (c2 * sd) * (c2 * sd)
            + (s1 - s2) * (s1 - s2))
      with ((s1 * s1 + c1 * c1) + c2 * c2 * (sd * sd + cd * cd)
            + s2 * s2 - 2 * (s1 * s2 + c1 * c2 * cd)) by ring.
    rewrite H, H1. lra. }
  assert (2 * (1 + (s1 * s2 + c1 * c2 * cd))
          = (c1 + c2 * cd) * (c1 + c2 * cd) + (c2 * sd) * (c2 * sd)
            + (s1 + s2) * (s1 + s2)) as E2.
  { replace ((c1 + c2 * cd) * (c1 + c2 * cd) + (c2 * sd) * (c2 * sd)
            + (s1 + s2) * (s1 + s2))
      with ((s1 * s1 + c1 * c1) + c2 * c2 * (sd * sd + cd * cd)
            + s2 * s2 + 2 * (s1 * s2 + c1 * c2 * cd)) by ring.
    rewrite H, H1. lra. }
  pose proof (Rle_0_sqr (c1 - c2 * cd)) as Q1.
  pose proof (Rle_0_sqr (c1 + c2 * cd)) as Q2.
  pose proof (Rle_0_sqr (c2 * sd)) as Q3.
  pose proof (Rle_0_sqr (s1 - s2)) as Q4.
  pose proof (Rle_0_sqr (s1 + s2)) as Q5.
  unfold Rsqr in Q1, Q2, Q3, Q4, Q5.
  split; lra.
Qed.

Lemma haversine_bounds phi1 lam1 phi2 lam2 :
  0 <= GeoMetrics.hav (phi2 - phi1)
       + cos phi1 * cos phi2 * GeoMetrics.hav (lam2 - lam1) <= 1.
Proof.
  rewrite haversine_dot. pose proof (dot_bounds phi1 lam1 phi2 lam2). lra.
Qed.

(** The expression written in the code is the Haversine distance. *)
Lemma legDistance_haversine prev p :
  legDistance prev p = GeoMetrics.distance (coordinate prev) (coordinate p).
Proof.
  unfold legDistance, GeoMetrics.distance, coordinate; cbn [fst snd].
  unfold Math_sin, Math_cos, Math_sqrt, Math_PI.
  set (phi1 := GeoMetrics.radians (TrajectoryPoint.latitude prev)).
  set (phi2 := GeoMetrics.radians (TrajectoryPoint.latitude p)).
  set (lam1 := GeoMetrics.radians (TrajectoryPoint.longitude prev)).
  set (lam2 := GeoMetrics.radians (TrajectoryPoint.longitude p)).
  set (h := GeoMetrics.hav (phi2 - phi1)
            + cos phi1 * cos phi2 * GeoMetrics.hav (lam2 - lam1)).
  assert (sin ((TrajectoryPoint.latitude p - TrajectoryPoint.latitude prev)
               * PI / 180 / 2)
          * sin ((TrajectoryPoint.latitude p - TrajectoryPoint.latitude prev)
                 * PI / 180 / 2)
          + cos (TrajectoryPoint.latitude prev * PI / 180)
            * cos (TrajectoryPoint.latitude p * PI / 180)
            * sin ((TrajectoryPoint.longitude p
                    - TrajectoryPoint.longitude prev) * PI / 180 / 2)
            * sin ((TrajectoryPoint.longitude p
                    - TrajectoryPoint.longitude prev) * PI / 180 / 2) = h)
    as ->.
  { unfold h, GeoMetrics.hav, Rsqr, phi1, phi2, lam1, lam2,
      GeoMetrics.radians.
    replace ((TrajectoryPoint.latitude p - TrajectoryPoint.latitude prev)
             * PI / 180)
      with (TrajectoryPoint.latitude p * PI / 180
            - TrajectoryPoint.latitude prev * PI / 180) by field.
    replace ((TrajectoryPoint.longitude p - TrajectoryPoint.longitude prev)
             * PI / 180)
      with (TrajectoryPoint.longitude p * PI / 180
            - TrajectoryPoint.longitude prev * PI / 180) by field.
    ring. }
  rewrite atan2_sqrt_asin by apply haversine_bounds.
  reflexivity.
Qed.

Lemma asin_nonneg s : 0 <= s <= 1 -> 0 <= asin s <= PI / 2.
Proof.
  intros Hs. pose proof (asin_bound s) as Hb. split; [|lra].
  destruct (Rle_dec 0 (asin s)) as [|Hn]; [assumption|].
  assert (sin (asin s) < 0).
  { apply sin_lt_0_var; pose proof PI_RGT_0; lra. }
  rewrite sin_asin in *; lra.
Qed.

(** The Haversine distance is the radius times the central angle. *)
Lemma distance_acos a b :
  GeoMetrics.distance a b
  = 6371 * acos (Sphere.dot (GeoMetrics.radians (fst a))
                            (GeoMetrics.radians (snd a))
                            (GeoMetrics.radians (fst b))
                            (GeoMetrics.radians (snd b))).
Proof.
  unfold GeoMetrics.distance.
  set (phi1 := GeoMetrics.radians (fst a)).
  set (phi2 := GeoMetrics.radians (fst b)).
  set (lam1 := GeoMetrics.radians (snd a)).
  set (lam2 := GeoMetrics.radians (snd b)).
  cbv zeta.
  pose proof (haversine_bounds phi1 lam1 phi2 lam2) as Hb.
  pose proof (haversine_dot phi1 lam1 phi2 lam2) as Hd.
  set (h := GeoMetrics.hav (phi2 - phi1)
            + cos phi1 * cos phi2 * GeoMetrics.hav (lam2 - lam1)) in *.
  assert (0 <= sqrt h <= 1) as Hs.
  { split; [apply sqrt_pos|]. rewrite <- sqrt_1. apply sqrt_le_1; lra. }
  f_equal.
  assert (Sphere.dot phi1 lam1 phi2 lam2 = cos (2 * asin (sqrt h))) as ->.
  { rewrite cos_2a_sin, sin_asin by lra.
    pose proof (sqrt_sqrt h (proj1 Hb)). nra. }
  rewrite acos_cos; [reflexivity|].
  pose proof (asin_nonneg (sqrt h) Hs). lra.
Qed.

(** The Gram determinant of three unit vectors is a square. *)
Lemma gram_nonneg a1 a2 a3 b1 b2 b3 c1 c2 c3 :
  a1 * a1 + a2 * a2 + a3 * a3 = 1 ->
  b1 * b1 + b2 * b2 + b3 * b3 = 1 ->
  c1 * c1 + c2 * c2 + c3 * c3 = 1 ->
  let p := a1 * b1 + a2 * b2 + a3 * b3 in
  let q := b1 * c1 + b2 * c2 + b3 * c3 in
  let r := a1 * c1 + a2 * c2 + a3 * c3 in
  0 <= 1 + 2 * p * q * r - p * p - q * q - r * r.
Proof.
  intros Ha Hb Hc p q r.
  set (det := a1 * (b2 * c3 - b3 * c2) - a2 * (b1 * c3 - b3 * c1)
              + a3 * (b1 * c2 - b2 * c1)).
  assert (1 + 2 * p * q * r - p * p - q * q - r * r = det * det) as ->.
  { transitivity
      ((a1 * a1 + a2 * a2 + a3 * a3) * (b1 * b1 + b2 * b2 + b3 * b3)
         * (c1 * c1 + c2 * c2 + c3 * c3)
       + 2 * p * q * r
       - (c1 * c1 + c2 * c2 + c3 * c3) * (p * p)
       - (a1 * a1 + a2 * a2 + a3 * a3) * (q * q)
       - (b1 * b1 + b2 * b2 + b3 * b3) * (r * r)).
    - rewrite Ha, Hb, Hc. ring.
    - unfold p, q, r, det. ring. }
  apply Rle_0_sqr.
Qed.

(** Central angles obey the triangle inequality. *)
Lemma acos_triangle p q r :
  -1 <= p <= 1 -> -1 <= q <= 1 -> -1 <= r <= 1 ->
  0 <= 1 + 2 * p * q * r - p * p - q * q - r * r ->
  acos r <= acos p + acos q.
Proof.
  intros Hp Hq Hr Hg.
  pose proof (acos_bound p) as Bp. pose proof (acos_bound q) as Bq.
  pose proof (acos_bound r) as Br.
  destruct (Rle_dec PI (acos p + acos q)) as [|Hlt]; [lra|].
  apply cos_decr_0; try lra.
  rewrite cos_plus, !cos_acos, !sin_acos by lra.
  assert (0 <= 1 - p²) as Np by (unfold Rsqr; nra).
  assert (0 <= 1 - q²) as Nq by (unfold Rsqr; nra).
  rewrite <- sqrt_mult by assumption.
  destruct (Rle_dec (p * q - r) 0) as [|Hpos].
  { pose proof (sqrt_pos ((1 - p²) * (1 - q²))). lra. }
  assert (p * q - r <= sqrt ((1 - p²) * (1 - q²))); [|lra].
  rewrite <- (sqrt_Rsqr (p * q - r)) by lra.
  apply sqrt_le_1.
  - apply Rle_0_sqr.
  - apply Rmult_le_pos; assumption.
  - unfold Rsqr. nra.
Qed.

Lemma dot_vectors phi1 lam1 phi2 lam2 :
  Sphere.dot phi1 lam1 phi2 lam2
  = (cos phi1 * cos lam1) * (cos phi2 * cos lam2)
    + (cos phi1 * sin lam1) * (cos phi2 * sin lam2)
    + sin phi1 * sin phi2.
Proof. unfold Sphere.dot. rewrite cos_minus. ring. Qed.

Lemma unit_vector phi lam :
  (cos phi * cos lam) * (cos phi * cos lam)
  + (cos phi * sin lam) * (cos phi * sin lam) + sin phi * sin phi = 1.
Proof.
  pose proof (sin2_cos2' phi). pose proof (sin2_cos2' lam).
  replace ((cos phi * cos lam) * (cos phi * cos lam)
           + (cos phi * sin lam) * (cos phi * sin lam) + sin phi * sin phi)
    with (cos phi * cos phi * (sin lam * sin lam + cos lam * cos lam)
          + sin phi * sin phi) by ring.
  rewrite H0. lra.
Qed.

(** Triangle inequality of the Haversine distance. *)
Lemma distance_triangle a b c :
  GeoMetrics.distance a c
  <= GeoMetrics.distance a b + GeoMetrics.distance b c.
Proof.
  rewrite !distance_acos.
  set (pa := GeoMetrics.radians (fst a)). set (la := GeoMetrics.radians (snd a)).
  set (pb := GeoMetrics.radians (fst b)). set (lb := GeoMetrics.radians (snd b)).
  set (pc := GeoMetrics.radians (fst c)). set (lc := GeoMetrics.radians (snd c)).
  assert (acos (Sphere.dot pa la pc lc)
          <= acos (Sphere.dot pa la pb lb) + acos (Sphere.dot pb lb pc lc));
    [|lra].
  apply acos_triangle; try apply dot_bounds.
  rewrite !dot_vectors.
  apply (gram_nonneg (cos pa * cos la) (cos pa * sin la) (sin pa)
                     (cos pb * cos lb) (cos pb * sin lb) (sin pb)
                     (cos pc * cos lc) (cos pc * sin lc) (sin pc));
    apply unit_vector.
Qed.

Lemma distance_nonneg a b : 0 <= GeoMetrics.distance a b.
Proof.
  rewrite distance_acos.
  match goal with |- context [acos ?d] => pose proof (acos_bound d) end.
  lra.
Qed.



Lemma distance_refl a : GeoMetrics.distance a a = 0.
Proof.
  rewrite distance_acos. unfold Sphere.dot.
  rewrite Rminus_diag, cos_0, Rmult_1_r.
  rewrite sin2_cos2', acos_1. ring.
Qed.

(** ** The drift series, record by record *)

Lemma pathLength_cons2 a b rest :
  pathLength (a :: b :: rest)
  = GeoMetrics.distance (coordinate a) (coordinate b)
    + pathLength (b :: rest).
Proof. reflexivity. Qed.

Lemma pathLength_nonneg pts : 0 <= pathLength pts.
Proof.
  induction pts as [|a [|b rest] IH]; cbn [pathLength]; try lra.
  pose proof (distance_nonneg (coordinate a) (coordinate b)).
  cbn [pathLength] in IH. lra.
Qed.

(** Extending the path by one point adds one leg. *)
Lemma pathLength_snoc pts a b :
  pathLength (pts ++ [a; b])
  = pathLength (pts ++ [a])
    + GeoMetrics.distance (coordinate a) (coordinate b).
Proof.
  induction pts as [|x [|y rest] IH].
  - cbn. ring.
  - cbn. ring.
  - change ((x :: y :: rest) ++ [a; b])
      with (x :: y :: (rest ++ [a; b])).
    change ((x :: y :: rest) ++ [a]) with (x :: y :: (rest ++ [a])).
    rewrite !pathLength_cons2.
    change (y :: rest ++ [a; b]) with ((y :: rest) ++ [a; b]).
    change (y :: rest ++ [a]) with ((y :: rest) ++ [a]).
    rewrite IH. ring.
Qed.

Lemma cumulativeStep_0 pts total p :
  cumulativeStep pts total p 0 = Some 0.
Proof. reflexivity. Qed.

Lemma cumulativeStep_S pts total p i prev :
  pts !! i = Some prev ->
  cumulativeStep pts total p (S i) = Some (cumulativeArith prev p total).
Proof.
  intros Hprev. unfold cumulativeStep. cbn [Nat.eqb].
  replace (S i - 1)%nat with i by lia. rewrite Hprev. reflexivity.
Qed.

Lemma reduce_from_path (pts : list Point) :
  forall (l : list Point) (i : nat) (acc : R) (prev : Point),
    pts !! i = Some prev ->
    (forall j x, l !! j = Some x -> pts !! (S i + j)%nat = Some x) ->
    Array_reduce_from (cumulativeStep pts) (S i) acc l
    = Some (acc + pathLength (prev :: l)).
Proof.
  induction l as [|p l IH]; intros i acc prev Hprev Hl.
  - cbn. f_equal. ring.
  - cbn [Array_reduce_from]. rewrite (cumulativeStep_S _ _ _ _ _ Hprev).
    cbn [mbind option_bind].
    rewrite (IH (S i) _ p).
    + f_equal. rewrite cumulativeArith_leg, legDistance_haversine.
      rewrite pathLength_cons2. ring.
    + specialize (Hl 0%nat p eq_refl).
      replace (S i + 0)%nat with (S i) in Hl by lia. exact Hl.
    + intros j x Hj. specialize (Hl (S j) x Hj).
      replace (S (S i) + j)%nat with (S i + S j)%nat by lia. exact Hl.
Qed.

Lemma reduce_prefix (pts : list Point) (n : nat) :
  Array_reduce (cumulativeStep pts) 0 (Array_slice 0 n pts)
  = Some (pathLength (take n pts)).
Proof.
  unfold Array_reduce, Array_slice.
  rewrite Nat.sub_0_r, drop_0.
  destruct pts as [|p0 rest]; [destruct n; cbn; reflexivity|].
  destruct n as [|n]; [reflexivity|].
  cbn [take Array_reduce_from]. rewrite cumulativeStep_0.
  cbn [mbind option_bind].
  rewrite (reduce_from_path (p0 :: rest) (take n rest) 0 0 p0 eq_refl).
  - f_equal. ring.
  - intros j x Hj. cbn. apply lookup_take_Some in Hj. tauto.
Qed.

Section DriftSeries.
Context `{DateParser}.

Lemma driftRecord_eq (pts : list Point) prev start point k :
  pts !! k = Some prev -> pts !! 0%nat = Some start ->
  driftRecord pts point k
  = Some (driftArith prev point (pathLength (take (k + 2) pts)) start).
Proof.
  intros Hk H0. unfold driftRecord.
  rewrite Hk, reduce_prefix, H0. reflexivity.
Qed.

Lemma map_from_drift (pts : list Point) start :
  pts !! 0%nat = Some start ->
  forall (l : list Point) (i : nat),
    (forall j x, l !! j = Some x -> pts !! S (i + j) = Some x) ->
    exists recs,
      Array_map_from (driftRecord pts) i l = Some recs /\
      length recs = length l /\
      forall j r, recs !! j = Some r ->
        exists prev p,
          pts !! (i + j)%nat = Some prev /\
          pts !! S (i + j) = Some p /\
          r = driftArith prev p
                (pathLength (take (i + j + 2) pts)) start.
Proof.
  intros H0. induction l as [|p l IH]; intros i Hl.
  - exists []. cbn. split; [reflexivity|]. split; [reflexivity|].
    intros j r Hj. rewrite lookup_nil in Hj. discriminate.
  - assert (pts !! S i = Some p) as Hp.
    { specialize (Hl 0%nat p eq_refl).
      replace (i + 0)%nat with i in Hl by lia. exact Hl. }
    assert (is_Some (pts !! i)) as [prev Hprev].
    { apply lookup_lt_is_Some. apply lookup_lt_Some in Hp. lia. }
    destruct (IH (S i)) as (recs & Hrecs & Hlen & Hchar).
    { intros j x Hj. specialize (Hl (S j) x Hj).
      replace (S i + j)%nat with (i + S j)%nat by lia. exact Hl. }
    exists (driftArith prev p (pathLength (take (i + 2) pts)) start
            :: recs).
    cbn [Array_map_from].
    rewrite (driftRecord_eq pts prev start p i Hprev H0).
    cbn [mbind option_bind]. rewrite Hrecs. cbn [mbind option_bind].
    split; [reflexivity|]. split; [cbn; lia|].
    intros [|j] r Hj.
    + cbn in Hj. injection Hj as <-. exists prev, p.
      replace (i + 0)%nat with i by lia. auto.
    + cbn in Hj. destruct (Hchar j r Hj) as (prev' & p' & ? & ? & ?).
      exists prev', p'.
      replace (i + S j)%nat with (S i + j)%nat by lia. auto.
Qed.

(** What [generateMockDriftData] returns: it never throws, and its
    [k]-th record is computed from points [k], [k + 1] and [0]. *)
Lemma generateMockDriftData_char (pts : list Point) :
  exists recs,
    generateMockDriftData pts = Some recs /\
    length recs = (length pts - 1)%nat /\
    forall k r, recs !! k = Some r ->
      exists prev p start,
        pts !! k = Some prev /\ pts !! S k = Some p /\
        pts !! 0%nat = Some start /\
        r = driftArith prev p (pathLength (take (k + 2) pts)) start.
Proof.
  unfold generateMockDriftData, Array_map.
  destruct pts as [|start rest].
  - exists []. cbn. split; [reflexivity|]. split; [reflexivity|].
    intros k r Hk. rewrite lookup_nil in Hk. discriminate.
  - destruct (map_from_drift (start :: rest) start eq_refl rest 0)
      as (recs & Hrecs & Hlen & Hchar).
    { intros j x Hj. exact Hj. }
    exists recs. change (drop 1 (start :: rest)) with rest.
    rewrite Hrecs.
    split; [reflexivity|]. split; [cbn; lia|].
    intros k r Hk. destruct (Hchar k r Hk) as (prev & p & ? & ? & ?).
    exists prev, p, start. auto.
Qed.
End DriftSeries.

(** ** Path length and displacement *)

Lemma pathLength_take_S (pts : list Point) n a b :
  pts !! n = Some a -> pts !! S n = Some b ->
  pathLength (take (S (S n)) pts)
  = pathLength (take (S n) pts)
    + GeoMetrics.distance (coordinate a) (coordinate b).
Proof.
  intros Ha Hb.
  rewrite (take_S_r pts (S n) b Hb), (take_S_r pts n a Ha).
  rewrite <- app_assoc. cbn [app]. rewrite pathLength_snoc. reflexivity.
Qed.

Lemma displacement_le_path (pts : list Point) start :
  pts !! 0%nat = Some start ->
  forall n p, pts !! n = Some p ->
    GeoMetrics.distance (coordinate start) (coordinate p)
    <= pathLength (take (S n) pts).
Proof.
  intros H0. induction n as [|n IH]; intros p Hp.
  - rewrite H0 in Hp. injection Hp as <-. rewrite distance_refl.
    apply pathLength_nonneg.
  - assert (is_Some (pts !! n)) as [q Hq].
    { apply lookup_lt_is_Some. apply lookup_lt_Some in Hp. lia. }
    rewrite (pathLength_take_S pts n q p Hq Hp).
    specialize (IH q Hq).
    pose proof (distance_triangle (coordinate start) (coordinate q)
                  (coordinate p)).
    lra.
Qed.

Lemma pathLength_sumLegs (pts : list Point) :
  forall i, (i < length pts)%nat ->
    pathLength (take (S i) pts) = sumLegs pts i.
Proof.
  induction i as [|i IH]; intros Hi.
  - destruct pts as [|p pts]; reflexivity.
  - assert (is_Some (pts !! i)) as [a Ha]
        by (apply lookup_lt_is_Some; lia).
    assert (is_Some (pts !! S i)) as [b Hb]
        by (apply lookup_lt_is_Some; lia).
    rewrite (pathLength_take_S pts i a b Ha Hb), IH by lia.
    cbn [sumLegs]. unfold legLength.
    replace (S i - 1)%nat with i by lia. rewrite Ha, Hb. reflexivity.
Qed.

(** ** The remainder operator and the bearing *)

Lemma Number_rem_range x m :
  0 <= x -> 0 < m -> 0 <= Number_rem x m < m.
Proof.
  intros Hx Hm. unfold Number_rem, Rtrunc.
  assert (0 <= x / m) as Hq.
  { apply Rmult_le_pos; [assumption|]. apply Rlt_le, Rinv_0_lt_compat, Hm. }
  destruct (Rle_dec 0 (x / m)) as [_|]; [|contradiction].
  pose proof (Zfloor_bound (x / m)) as [Hlo Hhi].
  assert (x = m * (x / m)) as E by (field; lra).
  split.
  - assert (m * IZR (Zfloor (x / m)) <= m * (x / m)) by nra. lra.
  - assert (m * (x / m) < m * (IZR (Zfloor (x / m)) + 1)) by nra. lra.
Qed.

Lemma legBearing_range prev p : 0 <= legBearing prev p < 360.
Proof.
  unfold legBearing. cbv zeta. unfold Math_PI.
  match goal with |- context [Math_atan2 ?y ?x] =>
    pose proof (atan2_range y x) as Hr; set (t := Math_atan2 y x) in *
  end.
  apply Number_rem_range; [|lra].
  pose proof PI_RGT_0 as Hpi.
  assert (-180 <= t * 180 / PI); [|lra].
  apply Rmult_le_reg_r with PI; [assumption|].
  replace (t * 180 / PI * PI) with (t * 180) by (field; lra). lra.
Qed.

Lemma clamp_max_min x : clamp 0 10 x = Rmax 0 (Rmin x 10).
Proof.
  unfold clamp, Rmax, Rmin.
  destruct (Rlt_dec x 0), (Rlt_dec 10 x), (Rle_dec x 10);
    try lra; destruct (Rle_dec 0 _); lra.
Qed.

(** ** The drift series builder: count, order, distance, displacement *)

(** C2: on [n] points the builder returns, without throwing, exactly
    [max 0 (n - 1)] records; record [k] carries the timestamp and position
    of point [k + 1], and fewer than two points give no record. *)
Theorem drift_count_and_order `{DateParser} (pts : list Point) :
  exists recs,
    generateMockDriftData pts = Some recs /\
    Z.of_nat (length recs) = Z.max 0 (Z.of_nat (length pts) - 1) /\
    (forall i p, (1 <= i)%nat -> pts !! i = Some p ->
       exists r, recs !! (i - 1)%nat = Some r /\
         DriftData.timestamp r = TrajectoryPoint.timestamp p /\
         DriftData.latitude r = TrajectoryPoint.latitude p /\
         DriftData.longitude r = TrajectoryPoint.longitude p) /\
    ((length pts < 2)%nat -> recs = []).
Proof.
  destruct (generateMockDriftData_char pts) as (recs & Hgen & Hlen & Hchar).
  exists recs. split; [assumption|]. split; [lia|]. split.
  - intros i p Hi Hp.
    assert (is_Some (recs !! (i - 1)%nat)) as [r Hr].
    { apply lookup_lt_is_Some. apply lookup_lt_Some in Hp. lia. }
    exists r. split; [assumption|].
    destruct (Hchar _ _ Hr) as (prev & p' & start & _ & Hp' & _ & ->).
    replace (S (i - 1)) with i in Hp' by lia.
    rewrite Hp in Hp'. injection Hp' as <-. auto.
  - intros Hn. destruct recs; [reflexivity|]. cbn in Hlen. lia.
Qed.

Lemma drift_count_and_order_witness :
  exists recs,
    @generateMockDriftData sampleParser [origin] = Some recs /\
    recs = [].
Proof.
  destruct (@drift_count_and_order sampleParser [origin])
    as (recs & Hgen & _ & _ & Hshort).
  exists recs. split; [exact Hgen|]. apply Hshort. cbn. lia.
Defined.

(** In exact arithmetic, the [distance] of record [i] is the sum of the
    Haversine lengths of the legs [(j - 1, j)] for [j] from 1 through [i],
    and it never decreases from one record to the next.  In the doubles of
    the code a leg between antipodal points can be NaN, and so is every
    sum that contains it. *)
Theorem drift_cumulative_distance `{DateParser} (pts : list Point) :
  exists recs,
    generateMockDriftData pts = Some recs /\
    (forall i r, (1 <= i)%nat -> recs !! (i - 1)%nat = Some r ->
       DriftData.distance r = sumLegs pts i) /\
    (forall k r r', recs !! k = Some r -> recs !! S k = Some r' ->
       DriftData.distance r <= DriftData.distance r').
Proof.
  destruct (generateMockDriftData_char pts) as (recs & Hgen & Hlen & Hchar).
  exists recs. split; [assumption|]. split.
  - intros i r Hi Hr.
    destruct (Hchar _ _ Hr) as (prev & p & start & _ & Hp & _ & ->).
    rewrite driftArith_distance.
    replace (i - 1 + 2)%nat with (S i) by lia.
    apply pathLength_sumLegs. apply lookup_lt_Some in Hp. lia.
  - intros k r r' Hr Hr'.
    destruct (Hchar _ _ Hr) as (a & b & start & _ & Hb & _ & ->).
    destruct (Hchar _ _ Hr') as (b' & c & start' & Hb' & Hc & _ & ->).
    rewrite !driftArith_distance.
    replace (k + 2)%nat with (S (S k)) by lia.
    replace (S k + 2)%nat with (S (S (S k))) by lia.
    rewrite (pathLength_take_S pts (S k) b' c Hb' Hc).
    pose proof (distance_nonneg (coordinate b') (coordinate c)). lra.
Qed.

Lemma drift_cumulative_distance_witness :
  exists r,
    @generateMockDriftData sampleParser [origin; oneDegreeEast] = Some [r] /\
    DriftData.distance r = sumLegs [origin; oneDegreeEast] 1.
Proof.
  destruct (@drift_cumulative_distance sampleParser [origin; oneDegreeEast])
    as (recs & Hgen & Hsum & _).
  cbv [generateMockDriftData Array_map Array_map_from drop] in Hgen.
  destruct (driftRecord [origin; oneDegreeEast] oneDegreeEast 0)
    as [r|] eqn:E; [|discriminate].
  cbn [mbind option_bind] in Hgen. injection Hgen as <-.
  exists r. split.
  - cbv [generateMockDriftData Array_map Array_map_from drop].
    rewrite E. reflexivity.
  - apply (Hsum 1%nat r); [lia|reflexivity].
Defined.

(** In exact arithmetic, the straight-line displacement from the first
    point is in every record at most the cumulative path length: the
    triangle inequality of the sphere.  The doubles of the code round the
    two sides separately, so that there the displacement can exceed the
    path length by a rounding step. *)
Theorem drift_displacement_le_distance `{DateParser} (pts : list Point) :
  exists recs,
    generateMockDriftData pts = Some recs /\
    forall r, r ∈ recs ->
      DriftData.displacement r <= DriftData.distance r.
Proof.
  destruct (generateMockDriftData_char pts) as (recs & Hgen & Hlen & Hchar).
  exists recs. split; [assumption|].
  intros r Hin. apply list_elem_of_lookup in Hin as [k Hr].
  destruct (Hchar _ _ Hr) as (prev & p & start & _ & Hp & H0 & ->).
  rewrite driftArith_displacement, driftArith_distance.
  rewrite legDistance_haversine.
  replace (k + 2)%nat with (S (S k)) by lia.
  apply (displacement_le_path pts start H0 (S k) p Hp).
Qed.

Lemma drift_displacement_le_distance_witness :
  exists r,
    @generateMockDriftData sampleParser [origin; oneDegreeEast] = Some [r] /\
    DriftData.displacement r <= DriftData.distance r.
Proof.
  destruct (@drift_displacement_le_distance sampleParser
              [origin; oneDegreeEast]) as (recs & Hgen & Hle).
  cbv [generateMockDriftData Array_map Array_map_from drop] in Hgen.
  destruct (driftRecord [origin; oneDegreeEast] oneDegreeEast 0)
    as [r|] eqn:E; [|discriminate].
  cbn [mbind option_bind] in Hgen. injection Hgen as <-.
  exists r. split.
  - cbv [generateMockDriftData Array_map Array_map_from drop].
    rewrite E. reflexivity.
  - apply Hle. apply list_elem_of_singleton. reflexivity.
Defined.

(** ** Speed *)

Section Speed.
Context `{DateParser}.

Lemma speed_range prev p cum start :
  0 <= DriftData.speed (driftArith prev p cum start) <= 10.
Proof.
  rewrite driftArith_speed. split.
  - apply Rmax_l.
  - apply Rmax_lub; [lra|]. apply Rmin_r.
Qed.

Lemma speed_unparsed prev p cum start :
  Date_getTime (TrajectoryPoint.timestamp prev) = None \/
  Date_getTime (TrajectoryPoint.timestamp p) = None ->
  DriftData.speed (driftArith prev p cum start) = 0.
Proof.
  intros Hn. rewrite driftArith_speed.
  assert (nan_sub (Date_getTime (TrajectoryPoint.timestamp p))
                  (Date_getTime (TrajectoryPoint.timestamp prev)) = None)
    as ->.
  { destruct Hn as [-> | ->]; [|reflexivity].
    destruct (Date_getTime (TrajectoryPoint.timestamp p)); reflexivity. }
  cbn. rewrite Rmin_left by lra. apply Rmax_left. lra.
Qed.

Lemma speed_parsed prev p cum start t1 t2 :
  Date_getTime (TrajectoryPoint.timestamp prev) = Some t1 ->
  Date_getTime (TrajectoryPoint.timestamp p) = Some t2 ->
  DriftData.speed (driftArith prev p cum start)
  = if Z_lt_dec t1 t2
    then clamp 0 10 (GeoMetrics.distance (coordinate prev) (coordinate p)
                     / hoursBetween t1 t2)
    else 0.
Proof.
  intros H1 H2. rewrite driftArith_speed, H1, H2.
  cbn [nan_sub nan_div]. rewrite <- minus_IZR.
  assert ((1000 * 60 * 60 : R) = 3600000) as -> by lra.
  fold (hoursBetween t1 t2).
  assert (0 < hoursBetween t1 t2 <-> (t1 < t2)%Z) as Hpos.
  { unfold hoursBetween. split.
    - intros Hh. apply Z.lt_0_sub. apply lt_IZR.
      apply Rmult_lt_reg_r with (/ 3600000); lra.
    - intros Hlt. apply Z.lt_0_sub, IZR_lt in Hlt. lra. }
  destruct (Rlt_dec 0 (hoursBetween t1 t2)) as [Hh|Hh],
           (Z_lt_dec t1 t2) as [Hz|Hz]; try tauto.
  - rewrite legDistance_haversine, clamp_max_min. reflexivity.
  - rewrite Rmin_left by lra. apply Rmax_left. lra.
Qed.
End Speed.

(** In exact arithmetic, the speed of record [i] is the Haversine length
    of the leg [(i - 1, i)] divided by the elapsed hours and clamped into
    [0, 10]; when the timestamp of point [i] is not later than that of
    point [i - 1] the speed is 0, and so it is when a timestamp does not
    parse.  In the doubles of the code the length of a leg between
    antipodal points can be NaN, which [Math.min] and [Math.max] let
    through. *)
Theorem drift_speed `{DateParser} (pts : list Point) :
  exists recs,
    generateMockDriftData pts = Some recs /\
    forall i prev p r,
      (1 <= i)%nat ->
      pts !! (i - 1)%nat = Some prev -> pts !! i = Some p ->
      recs !! (i - 1)%nat = Some r ->
      (forall t1 t2,
         Date_getTime (TrajectoryPoint.timestamp prev) = Some t1 ->
         Date_getTime (TrajectoryPoint.timestamp p) = Some t2 ->
         ((t1 < t2)%Z ->
          DriftData.speed r
          = clamp 0 10
              (GeoMetrics.distance (coordinate prev) (coordinate p)
               / hoursBetween t1 t2)) /\
         ((t2 <= t1)%Z -> DriftData.speed r = 0)) /\
      (Date_getTime (TrajectoryPoint.timestamp prev) = None \/
       Date_getTime (TrajectoryPoint.timestamp p) = None ->
       DriftData.speed r = 0) /\
      0 <= DriftData.speed r <= 10.
Proof.
  destruct (generateMockDriftData_char pts) as (recs & Hgen & Hlen & Hchar).
  exists recs. split; [assumption|].
  intros i prev p r Hi Hprev Hp Hr.
  destruct (Hchar _ _ Hr) as (prev' & p' & start & Hprev' & Hp' & _ & ->).
  replace (S (i - 1)) with i in Hp' by lia.
  rewrite Hprev in Hprev'. injection Hprev' as <-.
  rewrite Hp in Hp'. injection Hp' as <-.
  split; [|split].
  - intros t1 t2 H1 H2. rewrite (speed_parsed _ _ _ _ _ _ H1 H2).
    destruct (Z_lt_dec t1 t2); split; intros; first [reflexivity | lia].
  - apply speed_unparsed.
  - apply speed_range.
Qed.

Lemma drift_speed_witness :
  exists r,
    @generateMockDriftData sampleParser [origin; oneDegreeEast] = Some [r] /\
    DriftData.speed r
    = clamp 0 10
        (GeoMetrics.distance (coordinate origin) (coordinate oneDegreeEast)
         / hoursBetween 0 3600000).
Proof.
  destruct (@drift_speed sampleParser [origin; oneDegreeEast])
    as (recs & Hgen & Hspeed).
  cbv [generateMockDriftData Array_map Array_map_from drop] in Hgen.
  destruct (driftRecord [origin; oneDegreeEast] oneDegreeEast 0)
    as [r|] eqn:E; [|discriminate].
  cbn [mbind option_bind] in Hgen. injection Hgen as <-.
  exists r. split.
  - cbv [generateMockDriftData Array_map Array_map_from drop].
    rewrite E. reflexivity.
  - destruct (Hspeed 1%nat origin oneDegreeEast r) as (Hp & _ & _);
      [lia|reflexivity|reflexivity|reflexivity|].
    destruct (Hp 0%Z 3600000%Z) as [Hlt _]; [reflexivity|reflexivity|].
    apply Hlt. lia.
Defined.

(** C7: the bearing computed for any two points lies in [0, 360), and so
    does the [direction] of every drift record. *)
Theorem drift_direction_range `{DateParser} :
  (forall a b : Point, 0 <= legBearing a b < 360) /\
  (forall pts : list Point,
     exists recs,
       generateMockDriftData pts = Some recs /\
       forall r, r ∈ recs -> 0 <= DriftData.direction r < 360).
Proof.
  split; [apply legBearing_range|].
  intros pts.
  destruct (generateMockDriftData_char pts) as (recs & Hgen & Hlen & Hchar).
  exists recs. split; [assumption|].
  intros r Hin. apply list_elem_of_lookup in Hin as [k Hr].
  destruct (Hchar _ _ Hr) as (prev & p & start & _ & _ & _ & ->).
  rewrite driftArith_direction. apply legBearing_range.
Qed.

Lemma drift_direction_range_witness :
  exists r,
    @generateMockDriftData sampleParser [origin; oneDegreeEast] = Some [r] /\
    0 <= DriftData.direction r < 360.
Proof.
  destruct (@drift_direction_range sampleParser) as [_ Hrecs].
  destruct (Hrecs [origin; oneDegreeEast]) as (recs & Hgen & Hdir).
  cbv [generateMockDriftData Array_map Array_map_from drop] in Hgen.
  destruct (driftRecord [origin; oneDegreeEast] oneDegreeEast 0)
    as [r|] eqn:E; [|discriminate].
  cbn [mbind option_bind] in Hgen. injection Hgen as <-.
  exists r. split.
  - cbv [generateMockDriftData Array_map Array_map_from drop].
    rewrite E. reflexivity.
  - apply Hdir. apply list_elem_of_singleton. reflexivity.
Defined.

(** ** A numeric enclosure of PI *)

Lemma PI_enclosure : 3.1415926 < PI < 3.1415927.
Proof.
  pose proof (PI_2_3_7_ineq 4) as [Hlo Hhi].
  unfold sum_f_R0, tg_alt, PI_2_3_7_tg, Ratan_seq in Hlo, Hhi.
  cbn [Nat.mul Nat.add pow INR] in Hlo, Hhi.
  split; lra.
Qed.

(** ** One degree of longitude along the equator *)

Lemma legDistance_equator_degree (p1 p2 : Point) :
  TrajectoryPoint.latitude p1 = 0 -> TrajectoryPoint.longitude p1 = 0 ->
  TrajectoryPoint.latitude p2 = 0 -> TrajectoryPoint.longitude p2 = 1 ->
  legDistance p1 p2 = 6371 * (PI / 180).
Proof.
  intros La1 Lo1 La2 Lo2.
  rewrite legDistance_haversine, distance_acos.
  unfold coordinate, Sphere.dot, GeoMetrics.radians; cbn [fst snd].
  rewrite La1, Lo1, La2, Lo2.
  replace (0 * PI / 180) with 0 by field.
  replace (1 * PI / 180 - 0) with (PI / 180) by field.
  rewrite sin_0, cos_0.
  replace (0 * 0 + 1 * 1 * cos (PI / 180)) with (cos (PI / 180)) by ring.
  rewrite acos_cos; [reflexivity|].
  pose proof PI_RGT_0. lra.
Qed.

Lemma legBearing_equator_east (p1 p2 : Point) :
  TrajectoryPoint.latitude p1 = 0 -> TrajectoryPoint.longitude p1 = 0 ->
  TrajectoryPoint.latitude p2 = 0 -> TrajectoryPoint.longitude p2 = 1 ->
  legBearing p1 p2 = 90.
Proof.
  intros La1 Lo1 La2 Lo2. unfold legBearing. cbv zeta.
  unfold Math_sin, Math_cos, Math_PI.
  rewrite La1, Lo1, La2, Lo2.
  replace (0 * PI / 180) with 0 by field.
  replace ((1 - 0) * PI / 180) with (PI / 180) by field.
  rewrite sin_0, cos_0.
  replace (1 * 0 - 0 * 1 * cos (PI / 180)) with 0 by ring.
  rewrite Rmult_1_r.
  pose proof PI_RGT_0 as Hpi.
  assert (0 < sin (PI / 180)) as Hs by (apply sin_gt_0; lra).
  assert (Math_atan2 (sin (PI / 180)) 0 = PI / 2) as ->.
  { unfold Math_atan2.
    destruct (Rlt_dec 0 0); [lra|]. destruct (Rlt_dec 0 0); [lra|].
    destruct (Rlt_dec 0 (sin (PI / 180))); [reflexivity|contradiction]. }
  replace (PI / 2 * 180 / PI + 360) with 450 by (field; lra).
  unfold Number_rem, Rtrunc.
  destruct (Rle_dec 0 (450 / 360)) as [_|Hn]; [|lra].
  rewrite (Zfloor_eq 1 (450 / 360)) by lra. lra.
Qed.

(** C8: two points on the equator, one degree of longitude and one hour
    apart: the record's distance is 111.19 km to two decimals, the raw
    quotient is the same number of km/h, the speed is clamped to exactly
    10, and the direction is due east. *)
Theorem scenario_one_degree_east `{DateParser} (p1 p2 : Point) (t : Z) :
  TrajectoryPoint.latitude p1 = 0 -> TrajectoryPoint.longitude p1 = 0 ->
  TrajectoryPoint.latitude p2 = 0 -> TrajectoryPoint.longitude p2 = 1 ->
  Date_getTime (TrajectoryPoint.timestamp p1) = Some t ->
  Date_getTime (TrajectoryPoint.timestamp p2) = Some (t + 3600000)%Z ->
  exists r,
    generateMockDriftData [p1; p2] = Some [r] /\
    111.19 - 0.005 <= DriftData.distance r < 111.19 + 0.005 /\
    111.19 - 0.005 <= legDistance p1 p2 / hoursBetween t (t + 3600000)
      < 111.19 + 0.005 /\
    DriftData.speed r = 10 /\
    DriftData.direction r = 90.
Proof.
  intros La1 Lo1 La2 Lo2 T1 T2.
  pose proof (legDistance_equator_degree p1 p2 La1 Lo1 La2 Lo2) as Hd.
  pose proof PI_enclosure as Hpi.
  assert (hoursBetween t (t + 3600000) = 1) as Hh.
  { unfold hoursBetween. replace (t + 3600000 - t)%Z with 3600000%Z by lia.
    lra. }
  exists (driftArith p1 p2 (pathLength [p1; p2]) p1).
  split; [|split; [|split; [|split]]].
  - unfold generateMockDriftData, Array_map. cbn [drop Array_map_from].
    rewrite (driftRecord_eq [p1; p2] p1 p1 p2 0 eq_refl eq_refl).
    reflexivity.
  - rewrite driftArith_distance. cbn [pathLength].
    rewrite <- legDistance_haversine, Hd. lra.
  - rewrite Hh, Hd. lra.
  - rewrite (speed_parsed p1 p2 _ p1 t (t + 3600000)%Z T1 T2).
    destruct (Z_lt_dec t (t + 3600000)) as [_|]; [|lia].
    rewrite Hh, <- legDistance_haversine, Hd. unfold clamp.
    destruct (Rlt_dec (6371 * (PI / 180) / 1) 0); [lra|].
    destruct (Rlt_dec 10 (6371 * (PI / 180) / 1)); lra.
  - rewrite driftArith_direction.
    apply legBearing_equator_east; assumption.
Qed.

Lemma scenario_one_degree_east_witness :
  exists r,
    @generateMockDriftData sampleParser [origin; oneDegreeEast] = Some [r] /\
    DriftData.speed r = 10 /\ DriftData.direction r = 90.
Proof.
  destruct (@scenario_one_degree_east sampleParser origin oneDegreeEast 0)
    as (r & Hgen & _ & _ & Hs & Hd);
    try reflexivity.
  exists r. auto.
Defined.

(** ** When the Haversine distance vanishes *)
















(** ** Sorting by depth *)

Lemma sort_insert_perm {A} (cmp : A -> A -> R) x l :
  Permutation (sort_insert cmp x l) (x :: l).
Proof.
  induction l as [|y l IH]; cbn [sort_insert]; [reflexivity|].
  destruct (Rlt_dec 0 (cmp x y)); [|reflexivity].
  rewrite IH. apply perm_swap.
Qed.

Lemma Array_sort_perm {A} (cmp : A -> A -> R) l :
  Permutation (Array_sort cmp l) l.
Proof.
  induction l as [|x l IH]; [reflexivity|].
  unfold Array_sort in *. cbn [foldr].
  rewrite sort_insert_perm. constructor. exact IH.
Qed.





(** ** The grouping loop *)

Lemma slice_window {A} (l : list A) i n :
  Array_slice i (i + n) l = take n (drop i l).
Proof. unfold Array_slice. f_equal. lia. Qed.

Lemma profileLoop_windows fuel :
  forall (validPoints : list Point) i acc,
    (length validPoints - i <= fuel)%nat ->
    profileLoop fuel validPoints i acc
    = Some (acc ++ map (Array_sort compareDepth)
                     (filter (fun w => (2 <= length w)%nat)
                        (windows_fuel fuel profileSize
                           (drop i validPoints)))).
Proof.
  induction fuel as [|fuel IH]; intros vp i acc Hfuel.
  - cbn [profileLoop].
    destruct (Nat.ltb_spec i (length vp)) as [Hlt|Hge]; [lia|].
    cbn. rewrite app_nil_r. reflexivity.
  - cbn [profileLoop].
    destruct (Nat.ltb_spec i (length vp)) as [Hlt|Hge].
    + rewrite IH by (unfold profileSize; lia).
      rewrite slice_window.
      destruct (drop i vp) as [|x rest] eqn:Hdrop.
      { apply (f_equal length) in Hdrop. rewrite length_drop in Hdrop.
        cbn in Hdrop. lia. }
      cbn [windows_fuel]. rewrite filter_cons.
      rewrite <- Hdrop, drop_drop.
      destruct (Nat.ltb_spec 1 (length (take profileSize (drop i vp))))
        as [Hbig|Hsmall].
      * rewrite decide_True by lia. cbn [map].
        rewrite <- app_assoc. reflexivity.
      * rewrite decide_False by lia. reflexivity.
    + rewrite drop_ge by lia. cbn. rewrite app_nil_r. reflexivity.
Qed.

(** The filter's callback holds of exactly the points that have both a
    temperature and a depth. *)
Lemma isValidPoint_true (p : Point) :
  isValidPoint p = true
  <-> is_Some (TrajectoryPoint.temperature p) /\
      is_Some (TrajectoryPoint.depth p).
Proof.
  unfold isValidPoint.
  rewrite andb_true_iff, !bool_decide_eq_true. reflexivity.
Qed.

Lemma filter_isValidPoint (pts : list Point) :
  filter (fun p => isValidPoint p = true) pts
  = filter (fun p => is_Some (TrajectoryPoint.temperature p) /\
                     is_Some (TrajectoryPoint.depth p)) pts.
Proof. apply list_filter_iff. intros p. apply isValidPoint_true. Qed.



Lemma filter_valid_all (pts : list Point) :
  Forall (fun p => isValidPoint p = true) pts ->
  filter (fun p => isValidPoint p = true) pts = pts.
Proof.
  induction 1 as [|p pts Hp _ IH]; [reflexivity|].
  rewrite filter_cons, decide_True by assumption. f_equal. exact IH.
Qed.

Lemma profileGroups_windows (pts : list Point) :
  profileGroups pts
  = Some (map (Array_sort compareDepth)
            (filter (fun w => (2 <= length w)%nat)
               (windows profileSize
                  (filter (fun p => isValidPoint p = true) pts)))).
Proof.
  unfold profileGroups.
  destruct (Nat.eqb_spec (length pts) 0) as [Hz|Hnz].
  - apply nil_length_inv in Hz. subst pts. reflexivity.
  - cbv zeta.
    set (vp := filter (fun p => isValidPoint p = true) pts).
    destruct (Nat.eqb_spec (length vp) 0) as [Hz|Hnz'].
    + apply nil_length_inv in Hz. rewrite Hz. reflexivity.
    + rewrite profileLoop_windows by lia.
      rewrite drop_0. reflexivity.
Qed.




(** ** Running the code on the heap *)

Lemma extends_refl w : extends w w.
Proof. unfold extends. auto. Qed.

Lemma extends_trans w1 w2 w3 : extends w1 w2 -> extends w2 w3 -> extends w1 w3.
Proof.
  intros (P1 & R1 & Q1) (P2 & R2 & Q2). unfold extends.
  split; [etransitivity; eassumption|]. split; congruence.
Qed.

Lemma extends_lookup w w' a (l : list Point) :
  extends w w' -> World.heap w !! a = Some l -> World.heap w' !! a = Some l.
Proof. intros (P & _) Hl. eapply prefix_lookup_Some; eassumption. Qed.

Lemma bind_Some {A B} (m : M A) (k : A -> M B) w x w' :
  m w = Some (x, w') -> bind m k w = k x w'.
Proof. unfold bind. intros ->. reflexivity. Qed.

Lemma bind_None {A B} (m : M A) (k : A -> M B) w :
  m w = None -> bind m k w = None.
Proof. unfold bind. intros ->. reflexivity. Qed.

Lemma run_load w a l :
  World.heap w !! a = Some l -> load a w = Some (l, w).
Proof. unfold load. intros ->. reflexivity. Qed.

Lemma run_length w a l :
  World.heap w !! a = Some l -> Array_length_h a w = Some (length l, w).
Proof.
  intros Hl. unfold Array_length_h.
  rewrite (bind_Some _ _ _ _ _ (run_load _ _ _ Hl)). reflexivity.
Qed.

Lemma run_get w a l i :
  World.heap w !! a = Some l ->
  Array_get_h a i w = (fun p => (p, w)) <$> l !! i.
Proof.
  intros Hl. unfold Array_get_h.
  rewrite (bind_Some _ _ _ _ _ (run_load _ _ _ Hl)).
  destruct (l !! i); reflexivity.
Qed.

Lemma run_alloc w l :
  exists w',
    alloc l w = Some (length (World.heap w), w') /\
    World.heap w' = World.heap w ++ [l] /\
    extends w w'.
Proof.
  eexists. split; [reflexivity|]. cbn. split; [reflexivity|].
  unfold extends; cbn. split; [apply prefix_app_r; reflexivity|]. auto.
Qed.

Lemma lookup_fresh (h : list (list Point)) l :
  (h ++ [l]) !! length h = Some l.
Proof. rewrite lookup_app_r, Nat.sub_diag by lia. reflexivity. Qed.

Lemma cumulativeStep_h_run w tp pts total p i :
  World.heap w !! tp = Some pts ->
  cumulativeStep_h tp total p i w
  = (fun r => (r, w)) <$> cumulativeStep pts total p i.
Proof.
  intros Hpts. unfold cumulativeStep_h, cumulativeStep.
  destruct (Nat.eqb i 0); [reflexivity|].
  unfold bind. rewrite (run_get _ _ _ _ Hpts).
  destruct (pts !! (i - 1)%nat); reflexivity.
Qed.

Lemma reduce_loop_run w tp pts a l :
  World.heap w !! tp = Some pts -> World.heap w !! a = Some l ->
  forall n k acc, (k + n = length l)%nat ->
    Array_reduce_loop a (cumulativeStep_h tp) n k acc w
    = (fun r => (r, w))
        <$> Array_reduce_from (cumulativeStep pts) k acc (drop k l).
Proof.
  intros Hpts Hl. induction n as [|n IH]; intros k acc Hk.
  - rewrite drop_ge by lia. reflexivity.
  - assert (is_Some (l !! k)) as [p Hp] by (apply lookup_lt_is_Some; lia).
    rewrite (drop_S l p k Hp). cbn [Array_reduce_loop Array_reduce_from].
    rewrite (bind_Some _ _ w p w)
      by (rewrite (run_get _ _ _ _ Hl), Hp; reflexivity).
    pose proof (cumulativeStep_h_run w tp pts acc p k Hpts) as Hstep.
    destruct (cumulativeStep pts acc p k) as [acc'|]; cycle 1.
    { rewrite (bind_None _ _ _ Hstep). reflexivity. }
    rewrite (bind_Some _ _ w acc' w) by exact Hstep.
    cbn [mbind option_bind]. apply IH. lia.
Qed.

Section DriftOnHeap.
Context `{DateParser}.

Lemma driftRecord_h_run w tp pts point index :
  World.heap w !! tp = Some pts ->
  match driftRecord pts point index with
  | Some r =>
      exists w', driftRecord_h tp point index w = Some (r, w') /\
                 extends w w'
  | None => driftRecord_h tp point index w = None
  end.
Proof.
  intros Hpts. unfold driftRecord, driftRecord_h.
  destruct (pts !! index) as [prevPoint|] eqn:Eprev; cycle 1.
  { apply bind_None. rewrite (run_get _ _ _ _ Hpts), Eprev. reflexivity. }
  rewrite (bind_Some _ _ w prevPoint w)
    by (rewrite (run_get _ _ _ _ Hpts), Eprev; reflexivity).
  cbn [mbind option_bind].
  destruct (run_alloc w (Array_slice 0 (index + 2) pts))
    as (w1 & Halloc & Hheap & Hext).
  rewrite (bind_Some _ _ w (length (World.heap w)) w1)
    by (unfold Array_slice_h;
        rewrite (bind_Some _ _ _ _ _ (run_load _ _ _ Hpts)); exact Halloc).
  assert (World.heap w1 !! tp = Some pts) as Hpts1
      by (eapply extends_lookup; eassumption).
  assert (World.heap w1 !! length (World.heap w)
          = Some (Array_slice 0 (index + 2) pts)) as Hnew
      by (rewrite Hheap; apply lookup_fresh).
  assert (Array_reduce_h (length (World.heap w)) (cumulativeStep_h tp) 0 w1
          = (fun r => (r, w1))
              <$> Array_reduce (cumulativeStep pts) 0
                    (Array_slice 0 (index + 2) pts)) as Hred.
  { unfold Array_reduce_h.
    rewrite (bind_Some _ _ _ _ _ (run_length _ _ _ Hnew)).
    rewrite (reduce_loop_run w1 tp pts _ _ Hpts1 Hnew) by lia.
    rewrite drop_0. reflexivity. }
  destruct (Array_reduce (cumulativeStep pts) 0
              (Array_slice 0 (index + 2) pts)) as [cum|]; cycle 1.
  { apply bind_None. exact Hred. }
  rewrite (bind_Some _ _ w1 cum w1) by exact Hred.
  cbn [mbind option_bind].
  destruct (pts !! 0%nat) as [startPoint|] eqn:Estart; cycle 1.
  { apply bind_None. rewrite (run_get _ _ _ _ Hpts1), Estart.
    reflexivity. }
  rewrite (bind_Some _ _ w1 startPoint w1)
    by (rewrite (run_get _ _ _ _ Hpts1), Estart; reflexivity).
  cbn. exists w1. split; [reflexivity|assumption].
Qed.

Lemma map_loop_run tp pts rest l :
  forall n k w,
    World.heap w !! tp = Some pts -> World.heap w !! rest = Some l ->
    (k + n = length l)%nat ->
    match Array_map_from (driftRecord pts) k (drop k l) with
    | Some recs =>
        exists w',
          Array_map_loop rest (driftRecord_h tp) n k w = Some (recs, w') /\
          extends w w'
    | None => Array_map_loop rest (driftRecord_h tp) n k w = None
    end.
Proof.
  induction n as [|n IH]; intros k w Hpts Hl Hk.
  - rewrite drop_ge by lia. cbn. eexists. split; [reflexivity|].
    apply extends_refl.
  - assert (is_Some (l !! k)) as [p Hp] by (apply lookup_lt_is_Some; lia).
    rewrite (drop_S l p k Hp). cbn [Array_map_loop Array_map_from].
    rewrite (bind_Some _ _ w p w)
      by (rewrite (run_get _ _ _ _ Hl), Hp; reflexivity).
    pose proof (driftRecord_h_run w tp pts p k Hpts) as Hrec.
    destruct (driftRecord pts p k) as [r|]; cycle 1.
    { apply bind_None. exact Hrec. }
    destruct Hrec as (w1 & Hrun & Hext).
    rewrite (bind_Some _ _ w r w1) by exact Hrun.
    cbn [mbind option_bind].
    pose proof (IH (S k) w1 (extends_lookup _ _ _ _ Hext Hpts)
                  (extends_lookup _ _ _ _ Hext Hl) ltac:(lia)) as Hrest.
    destruct (Array_map_from (driftRecord pts) (S k) (drop (S k) l))
      as [recs|]; cycle 1.
    { apply bind_None. exact Hrest. }
    destruct Hrest as (w2 & Hrun2 & Hext2).
    rewrite (bind_Some _ _ w1 recs w2) by exact Hrun2.
    cbn. exists w2. split; [reflexivity|].
    eapply extends_trans; eassumption.
Qed.

(** On the heap the builder returns what [generateMockDriftData] returns
    on the contents of the array, and only creates arrays. *)
Lemma generateMockDriftData_h_run w tp pts :
  World.heap w !! tp = Some pts ->
  exists recs w',
    generateMockDriftData_h tp w = Some (recs, w') /\
    generateMockDriftData pts = Some recs /\
    extends w w'.
Proof.
  intros Hpts.
  destruct (generateMockDriftData_char pts) as (recs & Hgen & _).
  pose proof Hgen as Hgen'.
  exists recs. unfold generateMockDriftData_h.
  destruct (run_alloc w (drop 1 pts)) as (w1 & Halloc & Hheap & Hext).
  rewrite (bind_Some _ _ w (length (World.heap w)) w1)
    by (unfold Array_slice_from_h;
        rewrite (bind_Some _ _ _ _ _ (run_load _ _ _ Hpts)); exact Halloc).
  assert (World.heap w1 !! tp = Some pts) as Hpts1
      by (eapply extends_lookup; eassumption).
  assert (World.heap w1 !! length (World.heap w) = Some (drop 1 pts))
    as Hnew by (rewrite Hheap; apply lookup_fresh).
  unfold Array_map_h.
  rewrite (bind_Some _ _ _ _ _ (run_length _ _ _ Hnew)).
  pose proof (map_loop_run tp pts _ _ (length (drop 1 pts)) 0 w1
                Hpts1 Hnew ltac:(lia)) as Hloop.
  rewrite drop_0 in Hloop.
  unfold generateMockDriftData, Array_map in Hgen. rewrite Hgen in Hloop.
  destruct Hloop as (w2 & Hrun & Hext2).
  exists w2. split; [exact Hrun|]. split; [exact Hgen'|].
  eapply extends_trans; eassumption.
Qed.
End DriftOnHeap.

(** ** The profile grouper on the heap *)

Lemma insert_fresh (h : list (list Point)) l l' :
  <[length h := l']> (h ++ [l]) = h ++ [l'].
Proof.
  rewrite insert_app_r_alt, Nat.sub_diag by lia. reflexivity.
Qed.

(** Slicing a window and sorting it in place leaves one new array. *)
Lemma slice_sort_run w a l i j :
  World.heap w !! a = Some l ->
  exists w',
    (let* profile := Array_slice_h a i j in
     Array_sort_h profile compareDepth) w
    = Some (length (World.heap w), w') /\
    World.heap w' = World.heap w
                    ++ [Array_sort compareDepth (Array_slice i j l)] /\
    extends w w'.
Proof.
  intros Hl.
  destruct (run_alloc w (Array_slice i j l)) as (w1 & Halloc & Hheap & Hext).
  rewrite (bind_Some _ _ w (length (World.heap w)) w1)
    by (unfold Array_slice_h;
        rewrite (bind_Some _ _ _ _ _ (run_load _ _ _ Hl)); exact Halloc).
  assert (World.heap w1 !! length (World.heap w)
          = Some (Array_slice i j l)) as Hnew
      by (rewrite Hheap; apply lookup_fresh).
  unfold Array_sort_h.
  rewrite (bind_Some _ _ _ _ _ (run_load _ _ _ Hnew)).
  unfold bind, store, ret.
  destruct (Nat.ltb_spec (length (World.heap w)) (length (World.heap w1)))
    as [_|Hge]; [|rewrite Hheap, length_app in Hge; cbn in Hge; lia].
  eexists. split; [reflexivity|]. cbn.
  rewrite Hheap, insert_fresh. split; [reflexivity|].
  destruct Hext as (_ & Hr & Hp).
  unfold extends; cbn. split; [apply prefix_app_r; reflexivity|]. auto.
Qed.

Lemma profileLoop_h_run fuel :
  forall validPoints vp i locs groups w,
    World.heap w !! validPoints = Some vp ->
    Forall2 (fun a g => World.heap w !! a = Some g) locs groups ->
    (length vp - i <= fuel)%nat ->
    exists locs' groups' w',
      profileLoop_h fuel validPoints i locs w = Some (locs', w') /\
      profileLoop fuel vp i groups = Some groups' /\
      Forall2 (fun a g => World.heap w' !! a = Some g) locs' groups' /\
      extends w w' /\
      (forall a, a ∈ locs' -> a ∈ locs \/ (length (World.heap w) <= a)%nat).
Proof.
  induction fuel as [|fuel IH]; intros vploc vp i locs groups w Hvp Hlocs Hf.
  - cbn [profileLoop_h profileLoop].
    rewrite (bind_Some _ _ _ _ _ (run_length _ _ _ Hvp)).
    destruct (Nat.ltb_spec i (length vp)) as [Hlt|Hge]; [lia|].
    exists locs, groups, w. split; [reflexivity|]. split; [reflexivity|].
    split; [assumption|]. split; [apply extends_refl|]. auto.
  - cbn [profileLoop_h profileLoop].
    rewrite (bind_Some _ _ _ _ _ (run_length _ _ _ Hvp)).
    destruct (Nat.ltb_spec i (length vp)) as [Hlt|Hge]; cycle 1.
    { exists locs, groups, w. split; [reflexivity|]. split; [reflexivity|].
      split; [assumption|]. split; [apply extends_refl|]. auto. }
    cbv zeta.
    set (profile := Array_slice i (i + profileSize) vp).
    destruct (run_alloc w profile) as (w1 & Halloc & Hheap & Hext).
    rewrite (bind_Some _ _ w (length (World.heap w)) w1)
      by (unfold Array_slice_h;
          rewrite (bind_Some _ _ _ _ _ (run_load _ _ _ Hvp)); exact Halloc).
    assert (World.heap w1 !! length (World.heap w) = Some profile) as Hnew
        by (rewrite Hheap; apply lookup_fresh).
    rewrite (bind_Some _ _ _ _ _ (run_length _ _ _ Hnew)).
    destruct (Nat.ltb_spec 1 (length profile)) as [Hbig|Hsmall].
    + destruct (slice_sort_run w vploc vp i (i + profileSize) Hvp)
        as (w2 & Hrun & Hheap2 & Hext2).
      assert (Array_sort_h (length (World.heap w)) compareDepth w1
              = Some (length (World.heap w), w2)) as Hsort.
      { rewrite (bind_Some _ _ w (length (World.heap w)) w1) in Hrun
          by (unfold Array_slice_h;
              rewrite (bind_Some _ _ _ _ _ (run_load _ _ _ Hvp));
              exact Halloc).
        exact Hrun. }
      rewrite (bind_Some _ _ w1 (locs ++ [length (World.heap w)]) w2)
        by (rewrite (bind_Some _ _ _ _ _ Hsort); reflexivity).
      destruct (IH vploc vp (i + profileSize)%nat
                  (locs ++ [length (World.heap w)])
                  (groups ++ [Array_sort compareDepth profile]) w2)
        as (locs' & groups' & w3 & Hloop & Hpure & Hall & Hext3 & Hfresh).
      * eapply extends_lookup; eassumption.
      * apply Forall2_app.
        -- eapply Forall2_impl; [exact Hlocs|].
           intros a g Ha. eapply extends_lookup; eassumption.
        -- constructor; [|constructor].
           rewrite Hheap2. apply lookup_fresh.
      * unfold profileSize. lia.
      * exists locs', groups', w3. split; [exact Hloop|].
        split; [exact Hpure|]. split; [exact Hall|].
        split; [eapply extends_trans; eassumption|].
        intros a Ha. destruct (Hfresh a Ha) as [Hin|Hge].
        -- apply elem_of_app in Hin as [Hin|Hin]; [auto|].
           apply list_elem_of_singleton in Hin. right. lia.
        -- right. destruct Hext2 as [Hpre _].
           apply prefix_length in Hpre. lia.
    + rewrite (bind_Some _ _ w1 locs w1) by reflexivity.
      destruct (IH vploc vp (i + profileSize)%nat locs groups w1)
        as (locs' & groups' & w3 & Hloop & Hpure & Hall & Hext3 & Hfresh).
      * eapply extends_lookup; eassumption.
      * eapply Forall2_impl; [exact Hlocs|].
        intros a g Ha. eapply extends_lookup; eassumption.
      * unfold profileSize. lia.
      * exists locs', groups', w3. split; [exact Hloop|].
        split; [exact Hpure|]. split; [exact Hall|].
        split; [eapply extends_trans; eassumption|].
        intros a Ha. destruct (Hfresh a Ha) as [Hin|Hge]; [auto|].
        right. destruct Hext as [Hpre _].
        apply prefix_length in Hpre. lia.
Qed.

(** On the heap the grouper returns the locations of new arrays that hold
    the groups of [profileGroups], and only creates arrays. *)
Lemma profileGroups_h_run w points pts :
  World.heap w !! points = Some pts ->
  exists locs groups w',
    profileGroups_h points w = Some (locs, w') /\
    profileGroups pts = Some groups /\
    Forall2 (fun a g => World.heap w' !! a = Some g) locs groups /\
    extends w w' /\
    Forall (fun a => (length (World.heap w) <= a)%nat) locs.
Proof.
  intros Hpts. unfold profileGroups_h, profileGroups.
  rewrite (bind_Some _ _ _ _ _ (run_length _ _ _ Hpts)).
  destruct (Nat.eqb (length pts) 0).
  { exists [], [], w. split; [reflexivity|]. split; [reflexivity|].
    split; [constructor|]. split; [apply extends_refl|constructor]. }
  cbv zeta. set (vp := filter (fun p => isValidPoint p = true) pts).
  destruct (run_alloc w vp) as (w1 & Halloc & Hheap & Hext).
  rewrite (bind_Some _ _ w (length (World.heap w)) w1)
    by (unfold Array_filter_h;
        rewrite (bind_Some _ _ _ _ _ (run_load _ _ _ Hpts)); exact Halloc).
  assert (World.heap w1 !! length (World.heap w) = Some vp) as Hnew
      by (rewrite Hheap; apply lookup_fresh).
  rewrite (bind_Some _ _ _ _ _ (run_length _ _ _ Hnew)).
  destruct (Nat.eqb (length vp) 0).
  { exists [], [], w1. split; [reflexivity|]. split; [reflexivity|].
    split; [constructor|]. split; [assumption|constructor]. }
  destruct (profileLoop_h_run (length vp) (length (World.heap w)) vp 0
              [] [] w1 Hnew ltac:(constructor) ltac:(lia))
    as (locs & groups & w2 & Hloop & Hpure & Hall & Hext2 & Hfresh).
  exists locs, groups, w2. split; [exact Hloop|]. split; [exact Hpure|].
  split; [exact Hall|]. split; [eapply extends_trans; eassumption|].
  apply Forall_forall. intros a Ha.
  destruct (Hfresh a Ha) as [Hin|Hge]; [inversion Hin|].
  destruct Hext as [Hpre _]. apply prefix_length in Hpre. lia.
Qed.

(** ** Frame and determinism *)

(** C9: neither computation changes its input: when it returns, the input
    array, like every array that existed before the call, holds the same
    points in the same order; the arrays that the grouper sorts in place
    are arrays created during the call. *)
Theorem input_not_mutated `{DateParser} (w : World.t) (a : nat)
    (pts : list Point) :
  World.heap w !! a = Some pts ->
  (exists recs w',
     generateMockDriftData_h a w = Some (recs, w') /\
     World.heap w' !! a = Some pts /\
     (forall b l, World.heap w !! b = Some l ->
                  World.heap w' !! b = Some l)) /\
  (exists locs w',
     profileGroups_h a w = Some (locs, w') /\
     World.heap w' !! a = Some pts /\
     (forall b l, World.heap w !! b = Some l ->
                  World.heap w' !! b = Some l) /\
     Forall (fun g => (length (World.heap w) <= g)%nat) locs).
Proof.
  intros Hpts. split.
  - destruct (generateMockDriftData_h_run w a pts Hpts)
      as (recs & w' & Hrun & _ & Hext).
    exists recs, w'. split; [exact Hrun|].
    split; [eapply extends_lookup; eassumption|].
    intros b l Hb. eapply extends_lookup; eassumption.
  - destruct (profileGroups_h_run w a pts Hpts)
      as (locs & groups & w' & Hrun & _ & _ & Hext & Hfresh).
    exists locs, w'. split; [exact Hrun|].
    split; [eapply extends_lookup; eassumption|].
    split; [|exact Hfresh].
    intros b l Hb. eapply extends_lookup; eassumption.
Qed.

Lemma input_not_mutated_witness :
  exists locs w',
    profileGroups_h 0 (world_of twelveReadings 0) = Some (locs, w') /\
    World.heap w' !! 0%nat = Some twelveReadings.
Proof.
  destruct (@input_not_mutated sampleParser
              (world_of twelveReadings 0) 0%nat twelveReadings eq_refl)
    as [_ (locs & w' & Hrun & Hsame & _)].
  exists locs, w'. auto.
Defined.

(** C10: the drift series builder draws nothing from [Math.random] and
    its result depends on the contents of its input only: two calls on
    arrays with equal contents, in any two worlds, return the same
    records.  The positioning generator does not have this property. *)
Theorem drift_deterministic `{DateParser} :
  (forall (w1 w2 : World.t) (a1 a2 : nat) (pts : list Point),
     World.heap w1 !! a1 = Some pts -> World.heap w2 !! a2 = Some pts ->
     exists recs w1' w2',
       generateMockDriftData_h a1 w1 = Some (recs, w1') /\
       generateMockDriftData_h a2 w2 = Some (recs, w2') /\
       World.rnd_pos w1' = World.rnd_pos w1 /\
       World.rnd_pos w2' = World.rnd_pos w2) /\
  (exists (r1 r2 : R) out1 out2 w1' w2',
     generateMockPositioningData_h 0 (world_of [origin] r1)
       = Some (out1, w1') /\
     generateMockPositioningData_h 0 (world_of [origin] r2)
       = Some (out2, w2') /\
     out1 <> out2).
Proof.
  split.
  - intros w1 w2 a1 a2 pts H1 H2.
    destruct (generateMockDriftData_h_run w1 a1 pts H1)
      as (recs1 & w1' & Hrun1 & Hpure1 & (_ & _ & Hpos1)).
    destruct (generateMockDriftData_h_run w2 a2 pts H2)
      as (recs2 & w2' & Hrun2 & Hpure2 & (_ & _ & Hpos2)).
    rewrite Hpure1 in Hpure2. injection Hpure2 as <-.
    exists recs1, w1', w2'. auto.
  - exists 0, (1 / 2). do 4 eexists.
    split; [reflexivity|]. split; [reflexivity|].
    intros E.
    apply (f_equal (fun l => PositioningData.horizontalAccuracy <$> head l))
      in E.
    cbn in E. injection E as E. lra.
Qed.

Lemma drift_deterministic_witness :
  exists recs w1' w2',
    @generateMockDriftData_h sampleParser 0
       (world_of [origin; oneDegreeEast] 0) = Some (recs, w1') /\
    @generateMockDriftData_h sampleParser 1
       (World.mk [[]; [origin; oneDegreeEast]] (fun _ => 1 / 2) 7)
    = Some (recs, w2').
Proof.
  destruct (@drift_deterministic sampleParser) as [Hdet _].
  destruct (Hdet (world_of [origin; oneDegreeEast] 0)
              (World.mk [[]; [origin; oneDegreeEast]] (fun _ => 1 / 2) 7)
              0%nat 1%nat [origin; oneDegreeEast] eq_refl eq_refl)
    as (recs & w1' & w2' & H1 & H2 & _).
  exists recs, w1', w2'. auto.
Defined.

(** ** The code on sample inputs *)

(** Settles the comparisons of concrete depths met while sorting. *)
Ltac compare_depths :=
  repeat match goal with
         | |- context [Rlt_dec ?a ?b] =>
             destruct (Rlt_dec a b) as [?Hlt | ?Hge];
             [ try (exfalso; cbn in *; lra) | try (exfalso; cbn in *; lra) ]
         end.

Example sort_two_readings :
  Array_sort compareDepth [reading_at 1 50; reading_at 2 10]
  = [reading_at 2 10; reading_at 1 50].
Proof.
  unfold Array_sort. cbn [foldr sort_insert].
  unfold compareDepth, reading_at, or0; cbn [TrajectoryPoint.depth default].
  compare_depths. reflexivity.
Qed.


Example drift_single_point :
  @generateMockDriftData sampleParser [origin] = Some [].
Proof. reflexivity. Qed.

Example profileGroups_lone_reading :
  profileGroups [origin; reading_at 1 50; oneDegreeEast] = Some [].
Proof. reflexivity. Qed.

(** Two fixes with the same timestamp: the second record has speed 0. *)
Example drift_duplicate_timestamp :
  exists r1 r2,
    @generateMockDriftData sampleParser
      [origin; oneDegreeEast; fix_at 0 2 "1970-01-01T01:00:00Z"]
    = Some [r1; r2] /\
    DriftData.speed r2 = 0.
Proof.
  set (third := fix_at 0 2 "1970-01-01T01:00:00Z").
  set (pts := [origin; oneDegreeEast; third]).
  exists (@driftArith sampleParser origin oneDegreeEast
            (pathLength (take 2 pts)) origin),
         (@driftArith sampleParser oneDegreeEast third
            (pathLength (take 3 pts)) origin).
  split.
  - unfold generateMockDriftData, Array_map.
    cbn [drop pts Array_map_from].
    rewrite (@driftRecord_eq sampleParser pts origin origin oneDegreeEast 0
               eq_refl eq_refl).
    rewrite (@driftRecord_eq sampleParser pts oneDegreeEast origin third 1
               eq_refl eq_refl).
    reflexivity.
  - rewrite (@speed_parsed sampleParser oneDegreeEast third _ origin
               3600000 3600000 eq_refl eq_refl).
    destruct (Z_lt_dec 3600000 3600000); [lia|reflexivity].
Qed.

(** * Further properties of the mock-data module *)

(** ** Numbers used as indices and counters *)

Lemma Zfloor_INR (k : nat) : Zfloor (INR k) = Z.of_nat k.
Proof. rewrite INR_IZR_INZ. apply ZfloorZ. Qed.

Lemma Zfloor_div_nat (k d : nat) :
  (0 < d)%nat -> Zfloor (INR k / INR d) = Z.of_nat (k / d).
Proof.
  intros Hd. apply Zfloor_eq.
  pose proof (Nat.div_mod_eq k d) as Hk.
  pose proof (Nat.mod_upper_bound k d ltac:(lia)) as Hr.
  assert (0 < INR d) as Hd' by (apply lt_0_INR; exact Hd).
  rewrite <- INR_IZR_INZ.
  assert (INR k = INR d * INR (k / d) + INR (k mod d)) as E.
  { rewrite <- mult_INR, <- plus_INR. f_equal. exact Hk. }
  assert (0 <= INR (k mod d) < INR d) as [H0 H1].
  { split; [apply pos_INR | apply lt_INR; exact Hr]. }
  assert (INR k / INR d = INR (k / d) + INR (k mod d) / INR d) as ->.
  { rewrite E. field. lra. }
  assert (0 <= INR (k mod d) / INR d < 1).
  { split.
    - apply Rmult_le_pos; [lra|]. apply Rlt_le, Rinv_0_lt_compat, Hd'.
    - apply Rmult_lt_reg_r with (INR d); [exact Hd'|].
      replace (INR (k mod d) / INR d * INR d) with (INR (k mod d))
        by (field; lra).
      lra. }
  lra.
Qed.

Lemma Number_rem_nat (k d : nat) :
  (0 < d)%nat -> Number_rem (INR k) (INR d) = INR (k mod d).
Proof.
  intros Hd. unfold Number_rem, Rtrunc.
  assert (0 < INR d) as Hd' by (apply lt_0_INR; exact Hd).
  assert (0 <= INR k / INR d) as Hq.
  { apply Rmult_le_pos; [apply pos_INR|].
    apply Rlt_le, Rinv_0_lt_compat, Hd'. }
  destruct (Rle_dec 0 (INR k / INR d)) as [_|]; [|contradiction].
  rewrite (Zfloor_div_nat k d Hd), <- INR_IZR_INZ.
  pose proof (Nat.div_mod_eq k d) as Hk.
  assert (INR k = INR d * INR (k / d) + INR (k mod d)) as E.
  { rewrite <- mult_INR, <- plus_INR. f_equal. exact Hk. }
  lra.
Qed.

Lemma index_R_nat {A} (l : list A) (j : nat) : index_R l (INR j) = l !! j.
Proof.
  unfold index_R, index_Z. rewrite Zfloor_INR, <- INR_IZR_INZ.
  destruct (Req_dec_T (INR j) (INR j)) as [_|]; [|contradiction].
  destruct (Z.ltb_spec (Z.of_nat j) 0) as [|_]; [lia|].
  rewrite Nat2Z.id. reflexivity.
Qed.

(** A draw in [[0, 1)] scaled to a whole number of [n] choices. *)
Lemma floor_scaled (r : R) (n : nat) :
  0 <= r < 1 -> (0 < n)%nat ->
  (0 <= Zfloor (r * INR n) <= Z.of_nat n - 1)%Z.
Proof.
  intros [H0 H1] Hnz. pose proof (pos_INR n) as Hn.
  pose proof (Zfloor_bound (r * INR n)) as [Hlo Hhi].
  split.
  - apply (Zfloor_lub 0%Z). nra.
  - assert (IZR (Zfloor (r * INR n)) < IZR (Z.of_nat n)) as Hlt.
    { rewrite <- INR_IZR_INZ.
      assert (0 < INR n) by (apply lt_0_INR; lia). nra. }
    apply lt_IZR in Hlt. lia.
Qed.

Lemma index_Z_floor_scaled {A} (l : list A) (r : R) :
  0 <= r < 1 -> l <> [] ->
  is_Some (index_Z l (Zfloor (r * INR (length l)))).
Proof.
  intros Hr Hl.
  assert (0 < length l)%nat as Hpos by (destruct l; [contradiction|cbn; lia]).
  pose proof (floor_scaled r (length l) Hr Hpos) as [H0 H1].
  unfold index_Z.
  destruct (Z.ltb_spec (Zfloor (r * INR (length l))) 0) as [|_]; [lia|].
  apply lookup_lt_is_Some. destruct l; [contradiction|]. cbn [length] in *.
  lia.
Qed.

(** ** Generators that draw a fixed number of random values per point *)

Lemma advance_0 w : advance w 0 = w.
Proof. destruct w. unfold advance; cbn. f_equal. lia. Qed.

Lemma advance_advance w a b : advance (advance w a) b = advance w (a + b).
Proof. unfold advance; cbn. f_equal. lia. Qed.

Lemma run_random w :
  Math_random w = Some (World.rnd w (World.rnd_pos w), advance w 1).
Proof. unfold Math_random, advance. do 3 f_equal. lia. Qed.

(** A [map] whose callback leaves the heap alone and makes [d] draws. *)
Lemma map_loop_draws {B} (a : nat) (l : list Point)
    (f : Point -> nat -> M B) (d : nat)
    (P : nat -> Point -> World.t -> B -> Prop) :
  (forall p k w, World.heap w !! a = Some l ->
     exists r, f p k w = Some (r, advance w d) /\ P k p w r) ->
  forall n k w,
    World.heap w !! a = Some l -> (k + n = length l)%nat ->
    exists rs,
      Array_map_loop a f n k w = Some (rs, advance w (d * n)) /\
      length rs = n /\
      forall j r, rs !! j = Some r ->
        exists p, l !! (k + j)%nat = Some p /\
                  P (k + j)%nat p (advance w (d * j)) r.
Proof.
  intros Hf. induction n as [|n IH]; intros k w Hl Hk.
  - exists []. cbn [Array_map_loop]. rewrite Nat.mul_0_r, advance_0.
    split; [reflexivity|]. split; [reflexivity|].
    intros j r Hj. rewrite lookup_nil in Hj. discriminate.
  - assert (is_Some (l !! k)) as [p Hp] by (apply lookup_lt_is_Some; lia).
    destruct (Hf p k w Hl) as (r & Hrun & HP).
    destruct (IH (S k) (advance w d) Hl ltac:(lia))
      as (rs & Hrest & Hlen & Hall).
    exists (r :: rs). cbn [Array_map_loop].
    rewrite (bind_Some _ _ w p w)
      by (rewrite (run_get _ _ _ _ Hl), Hp; reflexivity).
    rewrite (bind_Some _ _ w r (advance w d)) by exact Hrun.
    rewrite (bind_Some _ _ _ _ _ Hrest).
    unfold ret. rewrite advance_advance.
    replace (d + d * n)%nat with (d * S n)%nat by lia.
    split; [reflexivity|]. split; [cbn; lia|].
    intros [|j] r' Hj.
    + cbn in Hj. injection Hj as <-. exists p.
      rewrite Nat.add_0_r, Nat.mul_0_r, advance_0. auto.
    + cbn in Hj. destruct (Hall j r' Hj) as (p' & Hp' & HP').
      exists p'. rewrite advance_advance in HP'.
      replace (k + S j)%nat with (S k + j)%nat by lia.
      replace (d * S j)%nat with (d + d * j)%nat by lia. auto.
Qed.

Lemma map_h_draws {B} (a : nat) (l : list Point)
    (f : Point -> nat -> M B) (d : nat)
    (P : nat -> Point -> World.t -> B -> Prop) :
  (forall p k w, World.heap w !! a = Some l ->
     exists r, f p k w = Some (r, advance w d) /\ P k p w r) ->
  forall w,
    World.heap w !! a = Some l ->
    exists rs,
      Array_map_h a f w = Some (rs, advance w (d * length l)) /\
      length rs = length l /\
      forall j r, rs !! j = Some r ->
        exists p, l !! j = Some p /\ P j p (advance w (d * j)) r.
Proof.
  intros Hf w Hl. unfold Array_map_h.
  rewrite (bind_Some _ _ _ _ _ (run_length _ _ _ Hl)).
  exact (map_loop_draws a l f d P Hf (length l) 0 w Hl eq_refl).
Qed.

(** ** The positioning series *)

Lemma positioningRecord_run p k w :
  let rnd i := World.rnd w (World.rnd_pos w + i) in
  positioningRecord p k w
  = Some ({| PositioningData.timestamp := TrajectoryPoint.timestamp p;
             PositioningData.latitude := TrajectoryPoint.latitude p;
             PositioningData.longitude := TrajectoryPoint.longitude p;
             PositioningData.horizontalAccuracy := rnd 0%nat * 50 + 5;
             PositioningData.verticalAccuracy := Some (rnd 1%nat * 20 + 5);
             PositioningData.satelliteCount :=
               IZR (Math_floor (rnd 2%nat * 8)) + 4;
             PositioningData.hdop := rnd 3%nat * 3 + 0.5;
             PositioningData.fixType :=
               index_Z [GPS; DGPS; RTK; Estimated]
                 (Math_floor (rnd 4%nat * 4));
             PositioningData.signalStrength := rnd 5%nat * 20 + 30 |},
          advance w 6).
Proof.
  cbv zeta. unfold positioningRecord, bind, Math_random, ret, advance.
  cbn [World.heap World.rnd World.rnd_pos].
  replace (World.rnd_pos w + 0)%nat with (World.rnd_pos w) by lia.
  replace (World.rnd_pos w + 1)%nat with (S (World.rnd_pos w)) by lia.
  replace (World.rnd_pos w + 2)%nat with (S (S (World.rnd_pos w))) by lia.
  replace (World.rnd_pos w + 3)%nat
    with (S (S (S (World.rnd_pos w)))) by lia.
  replace (World.rnd_pos w + 4)%nat
    with (S (S (S (S (World.rnd_pos w))))) by lia.
  replace (World.rnd_pos w + 5)%nat
    with (S (S (S (S (S (World.rnd_pos w)))))) by lia.
  replace (World.rnd_pos w + 6)%nat
    with (S (S (S (S (S (S (World.rnd_pos w))))))) by lia.
  reflexivity.
Qed.

(** X1: the positioning generator returns one record per point, in
    order, with the point's timestamp and position; it makes exactly six
    draws per point and leaves every array as it was. *)
Theorem positioning_series (w : World.t) (a : nat) (pts : list Point) :
  World.heap w !! a = Some pts ->
  exists recs,
    generateMockPositioningData_h a w
    = Some (recs, advance w (6 * length pts)) /\
    length recs = length pts /\
    forall k p, pts !! k = Some p ->
      exists r, recs !! k = Some r /\
        PositioningData.timestamp r = TrajectoryPoint.timestamp p /\
        PositioningData.latitude r = TrajectoryPoint.latitude p /\
        PositioningData.longitude r = TrajectoryPoint.longitude p.
Proof.
  intros Hpts.
  destruct (map_h_draws a pts positioningRecord 6
              (fun _ p _ r =>
                 PositioningData.timestamp r = TrajectoryPoint.timestamp p /\
                 PositioningData.latitude r = TrajectoryPoint.latitude p /\
                 PositioningData.longitude r = TrajectoryPoint.longitude p))
    with (w := w) as (recs & Hrun & Hlen & Hall); [|exact Hpts|].
  { intros p k w' _. eexists. split; [apply positioningRecord_run|].
    cbn. auto. }
  exists recs. split; [exact Hrun|]. split; [exact Hlen|].
  intros k p Hp.
  assert (is_Some (recs !! k)) as [r Hr].
  { apply lookup_lt_is_Some. apply lookup_lt_Some in Hp. lia. }
  exists r. split; [exact Hr|].
  destruct (Hall k r Hr) as (p' & Hp' & HP).
  rewrite Hp in Hp'. injection Hp' as <-. exact HP.
Qed.

Lemma positioning_series_witness :
  exists recs,
    generateMockPositioningData_h 0 (world_of [origin; oneDegreeEast] 0)
    = Some (recs, advance (world_of [origin; oneDegreeEast] 0) 12) /\
    length recs = 2%nat.
Proof.
  destruct (positioning_series (world_of [origin; oneDegreeEast] 0) 0
              [origin; oneDegreeEast] eq_refl) as (recs & Hrun & Hlen & _).
  exists recs. split; [exact Hrun|exact Hlen].
Defined.

(** X2: when every draw lies in [0, 1), every positioning record has
    horizontal accuracy from 5 to 55, vertical accuracy from 5 to 25, a
    whole satellite count from 4 to 11, HDOP from 0.5 to 3.5, a fix type,
    and signal strength from 30 to 50.  The ends are included: in doubles
    the sum for a draw just below 1 can round to the upper end. *)
Theorem positioning_ranges (w : World.t) (a : nat) (pts : list Point) :
  unit_stream (World.rnd w) ->
  World.heap w !! a = Some pts ->
  exists recs w',
    generateMockPositioningData_h a w = Some (recs, w') /\
    forall r, r ∈ recs ->
      5 <= PositioningData.horizontalAccuracy r <= 55 /\
      (exists v, PositioningData.verticalAccuracy r = Some v /\
                 5 <= v <= 25) /\
      (exists n : Z, PositioningData.satelliteCount r = IZR n /\
                     (4 <= n <= 11)%Z) /\
      0.5 <= PositioningData.hdop r <= 3.5 /\
      is_Some (PositioningData.fixType r) /\
      30 <= PositioningData.signalStrength r <= 50.
Proof.
  intros Hunit Hpts.
  destruct (map_h_draws a pts positioningRecord 6
              (fun _ p w' r =>
                 World.rnd w' = World.rnd w ->
                 5 <= PositioningData.horizontalAccuracy r <= 55 /\
                 (exists v, PositioningData.verticalAccuracy r = Some v /\
                            5 <= v <= 25) /\
                 (exists n : Z, PositioningData.satelliteCount r = IZR n /\
                                (4 <= n <= 11)%Z) /\
                 0.5 <= PositioningData.hdop r <= 3.5 /\
                 is_Some (PositioningData.fixType r) /\
                 30 <= PositioningData.signalStrength r <= 50))
    with (w := w) as (recs & Hrun & Hlen & Hall); [|exact Hpts|].
  { intros p k w' _. eexists. split; [apply positioningRecord_run|].
    intros Hrnd. cbn. rewrite Hrnd.
    pose proof (Hunit (World.rnd_pos w' + 0)%nat).
    pose proof (Hunit (World.rnd_pos w' + 1)%nat).
    pose proof (Hunit (World.rnd_pos w' + 2)%nat) as H2.
    pose proof (Hunit (World.rnd_pos w' + 3)%nat).
    pose proof (Hunit (World.rnd_pos w' + 4)%nat) as H4.
    pose proof (Hunit (World.rnd_pos w' + 5)%nat).
    split; [lra|]. split; [eexists; split; [reflexivity|lra]|].
    split.
    { exists (Zfloor (World.rnd w (World.rnd_pos w' + 2) * 8) + 4)%Z.
      split; [unfold Math_floor; rewrite plus_IZR; reflexivity|].
      pose proof (floor_scaled _ 8 H2 ltac:(lia)) as Hf.
      replace (INR 8) with 8 in Hf by (cbn; lra). lia. }
    split; [lra|]. split; [|lra].
    pose proof (index_Z_floor_scaled [GPS; DGPS; RTK; Estimated] _ H4
                  ltac:(discriminate)) as Hi.
    replace (INR (length [GPS; DGPS; RTK; Estimated])) with 4 in Hi
      by (cbn; lra).
    exact Hi. }
  exists recs, (advance w (6 * length pts)). split; [exact Hrun|].
  intros r Hin. apply list_elem_of_lookup in Hin as [k Hr].
  destruct (Hall k r Hr) as (p & _ & HP). apply HP. reflexivity.
Qed.

Lemma unit_stream_const (r : R) : 0 <= r < 1 -> unit_stream (fun _ => r).
Proof. intros Hr n. exact Hr. Qed.

Lemma positioning_ranges_witness :
  exists recs w',
    generateMockPositioningData_h 0 (world_of [origin] (1 / 2))
    = Some (recs, w') /\
    forall r, r ∈ recs -> 5 <= PositioningData.horizontalAccuracy r <= 55.
Proof.
  destruct (positioning_ranges (world_of [origin] (1 / 2)) 0 [origin]
              (unit_stream_const (1 / 2) ltac:(lra)) eq_refl)
    as (recs & w' & Hrun & Hall).
  exists recs, w'. split; [exact Hrun|].
  intros r Hin. apply (Hall r Hin).
Defined.

(** ** The battery series *)

Lemma batteryRecord_run a l p k w :
  World.heap w !! a = Some l ->
  let rnd i := World.rnd w (World.rnd_pos w + i) in
  batteryRecord a p k w
  = Some ({| BatteryData.timestamp := TrajectoryPoint.timestamp p;
             BatteryData.voltage :=
               15.0 - (INR k / INR (length l)) * 0.5
               + rnd 0%nat * 0.1 - 0.05;
             BatteryData.current := Some (50 + rnd 1%nat * 20);
             BatteryData.powerConsumption := Some (0.75 + rnd 2%nat * 0.3);
             BatteryData.temperature := 20 + rnd 3%nat * 10;
             BatteryData.cycleNumber := IZR (Math_floor (INR k / 10)) + 1;
             BatteryData.phase :=
               index_R ["surface"%string; "descent"%string; "drift"%string;
                        "ascent"%string; "transmission"%string]
                 (Number_rem (INR k) 5);
             BatteryData.estimatedRemaining :=
               Some (Math_max 0 (100 - (INR k / INR (length l)) * 100
                                 + rnd 4%nat * 5)) |},
          advance w 5).
Proof.
  intros Hl. cbv zeta.
  unfold batteryRecord, Array_length_h, bind, load, Math_random, ret, advance.
  cbn [World.heap World.rnd World.rnd_pos]. rewrite Hl.
  cbn [World.heap World.rnd World.rnd_pos]. rewrite Hl.
  replace (World.rnd_pos w + 0)%nat with (World.rnd_pos w) by lia.
  replace (World.rnd_pos w + 1)%nat with (S (World.rnd_pos w)) by lia.
  replace (World.rnd_pos w + 2)%nat with (S (S (World.rnd_pos w))) by lia.
  replace (World.rnd_pos w + 3)%nat
    with (S (S (S (World.rnd_pos w)))) by lia.
  replace (World.rnd_pos w + 4)%nat
    with (S (S (S (S (World.rnd_pos w))))) by lia.
  replace (World.rnd_pos w + 5)%nat
    with (S (S (S (S (S (World.rnd_pos w)))))) by lia.
  reflexivity.
Qed.

Lemma cycleNumber_nat (k : nat) :
  IZR (Math_floor (INR k / 10)) + 1 = INR (k / 10 + 1).
Proof.
  unfold Math_floor. replace 10 with (INR 10) by (cbn; lra).
  rewrite Zfloor_div_nat by lia.
  rewrite <- INR_IZR_INZ, plus_INR. cbn [INR]. lra.
Qed.

Lemma phase_nat {A} (l : list A) (k : nat) :
  index_R l (Number_rem (INR k) 5) = l !! (k mod 5)%nat.
Proof.
  replace 5 with (INR 5) by (cbn; lra).
  rewrite Number_rem_nat by lia. apply index_R_nat.
Qed.

(** X3: the battery generator returns one record per point, in order,
    with the point's timestamp, cycle number [floor(k / 10) + 1] and the
    phase at position [k mod 5] of the five phases; it makes exactly five
    draws per point and leaves every array as it was; an empty trajectory
    gives no record (and no division by its length). *)
Theorem battery_series (w : World.t) (a : nat) (pts : list Point) :
  World.heap w !! a = Some pts ->
  exists recs,
    generateMockBatteryData_h a w
    = Some (recs, advance w (5 * length pts)) /\
    length recs = length pts /\
    forall k p, pts !! k = Some p ->
      exists r, recs !! k = Some r /\
        BatteryData.timestamp r = TrajectoryPoint.timestamp p /\
        BatteryData.cycleNumber r = INR (k / 10 + 1) /\
        BatteryData.phase r
        = ["surface"%string; "descent"%string; "drift"%string;
           "ascent"%string; "transmission"%string] !! (k mod 5)%nat /\
        is_Some (BatteryData.phase r).
Proof.
  intros Hpts.
  destruct (map_h_draws a pts (batteryRecord a) 5
              (fun k p _ r =>
                 BatteryData.timestamp r = TrajectoryPoint.timestamp p /\
                 BatteryData.cycleNumber r = INR (k / 10 + 1) /\
                 BatteryData.phase r
                 = ["surface"%string; "descent"%string; "drift"%string;
                    "ascent"%string; "transmission"%string]
                     !! (k mod 5)%nat))
    with (w := w) as (recs & Hrun & Hlen & Hall); [|exact Hpts|].
  { intros p k w' Hl. eexists.
    split; [apply (batteryRecord_run a pts p k w' Hl)|].
    cbn. split; [reflexivity|].
    split; [apply cycleNumber_nat|apply phase_nat]. }
  exists recs. split; [exact Hrun|]. split; [exact Hlen|].
  intros k p Hp.
  assert (is_Some (recs !! k)) as [r Hr].
  { apply lookup_lt_is_Some. apply lookup_lt_Some in Hp. lia. }
  exists r. split; [exact Hr|].
  destruct (Hall k r Hr) as (p' & Hp' & Hts & Hcy & Hph).
  rewrite Hp in Hp'. injection Hp' as <-.
  split; [exact Hts|]. split; [exact Hcy|]. split; [exact Hph|].
  rewrite Hph. apply lookup_lt_is_Some. cbn [length].
  pose proof (Nat.mod_upper_bound k 5). lia.
Qed.

Lemma battery_series_witness :
  exists recs,
    generateMockBatteryData_h 0 (world_of twelveReadings 0)
    = Some (recs, advance (world_of twelveReadings 0) 60) /\
    length recs = 12%nat.
Proof.
  destruct (battery_series (world_of twelveReadings 0) 0 twelveReadings
              eq_refl) as (recs & Hrun & Hlen & _).
  exists recs. split; [exact Hrun|exact Hlen].
Defined.

Lemma batteryRecord_bounds a l p k w :
  unit_stream (World.rnd w) ->
  World.heap w !! a = Some l -> (k < length l)%nat ->
  exists r,
    batteryRecord a p k w = Some (r, advance w 5) /\
    let decline := INR k / INR (length l) in
    (14.95 - 0.5 * decline <= BatteryData.voltage r
     < 15.05 - 0.5 * decline) /\
    14.45 < BatteryData.voltage r < 15.05 /\
    (exists c, BatteryData.current r = Some c /\ 50 <= c < 70) /\
    (exists q, BatteryData.powerConsumption r = Some q /\
               0.75 <= q < 1.05) /\
    20 <= BatteryData.temperature r < 30 /\
    (exists e, BatteryData.estimatedRemaining r = Some e /\
               100 - 100 * decline <= e < 105 - 100 * decline /\ 0 < e).
Proof.
  intros Hunit Hl Hk. eexists.
  split; [apply (batteryRecord_run a l p k w Hl)|]. cbn.
  pose proof (Hunit (World.rnd_pos w + 0)%nat).
  pose proof (Hunit (World.rnd_pos w + 1)%nat).
  pose proof (Hunit (World.rnd_pos w + 2)%nat).
  pose proof (Hunit (World.rnd_pos w + 3)%nat).
  pose proof (Hunit (World.rnd_pos w + 4)%nat).
  assert (0 <= INR k / INR (length l) < 1) as Hd.
  { assert (0 < INR (length l)) by (apply lt_0_INR; lia).
    pose proof (pos_INR k). apply lt_INR in Hk.
    split.
    - apply Rmult_le_pos; [lra|]. apply Rlt_le, Rinv_0_lt_compat; lra.
    - apply Rmult_lt_reg_r with (INR (length l)); [lra|].
      replace (INR k / INR (length l) * INR (length l)) with (INR k)
        by (field; lra).
      lra. }
  set (decline := INR k / INR (length l)) in *.
  split; [lra|]. split; [lra|].
  split; [eexists; split; [reflexivity|lra]|].
  split; [eexists; split; [reflexivity|lra]|].
  split; [lra|].
  eexists. split; [reflexivity|].
  unfold Math_max. rewrite Rmax_right by lra. lra.
Qed.

(** X4: when every draw lies in [0, 1), record [k] of [n] has voltage
    from 14.95 - 0.5 k / n to 15.05 - 0.5 k / n, hence above 14.45; current
    from 50 to 70, power from 0.75 to 1.05, temperature from 20 to 30, and
    an estimated remaining charge from 100 - 100 k / n to 105 - 100 k / n,
    which is positive: the clamp at 0 never takes effect.  The ends of the
    ranges are included, and the two ranges that depend on [k] are given
    to within a billionth, which is far more than the rounding of the few
    double operations involved. *)
Theorem battery_ranges (w : World.t) (a : nat) (pts : list Point) :
  unit_stream (World.rnd w) ->
  World.heap w !! a = Some pts ->
  exists recs w',
    generateMockBatteryData_h a w = Some (recs, w') /\
    forall k r, recs !! k = Some r ->
      let decline := INR k / INR (length pts) in
      (14.95 - 0.5 * decline - 1e-9 <= BatteryData.voltage r
       <= 15.05 - 0.5 * decline + 1e-9) /\
      14.45 < BatteryData.voltage r /\
      (exists c, BatteryData.current r = Some c /\ 50 <= c <= 70) /\
      (exists q, BatteryData.powerConsumption r = Some q /\
                 0.75 <= q <= 1.05) /\
      20 <= BatteryData.temperature r <= 30 /\
      (exists e, BatteryData.estimatedRemaining r = Some e /\
                 100 - 100 * decline - 1e-9 <= e
                 <= 105 - 100 * decline + 1e-9 /\
                 0 < e).
Proof.
  intros Hunit Hpts.
  destruct (map_h_draws a pts (batteryRecord a) 5
              (fun k p w' r => batteryRecord a p k w' = Some (r, advance w' 5)))
    with (w := w) as (recs & Hrun & Hlen & Hall); [|exact Hpts|].
  { intros p k w' Hl. eexists.
    split; apply (batteryRecord_run a pts p k w' Hl). }
  exists recs, (advance w (5 * length pts)). split; [exact Hrun|].
  intros k r Hr. destruct (Hall k r Hr) as (p & Hp & Hrec).
  apply lookup_lt_Some in Hp.
  destruct (batteryRecord_bounds a pts p k (advance w (5 * k)) Hunit Hpts Hp)
    as (r' & Hrec' & Hbounds).
  rewrite Hrec in Hrec'. injection Hrec' as <-.
  cbv zeta in Hbounds |- *.
  destruct Hbounds as (Hv & Hv' & (c & Hc & Hc') & (q & Hq & Hq') & Ht
                       & (e & He & He' & He'')).
  split; [lra|]. split; [lra|].
  split; [exists c; split; [exact Hc|lra]|].
  split; [exists q; split; [exact Hq|lra]|].
  split; [lra|].
  exists e. split; [exact He|]. lra.
Qed.

Lemma battery_ranges_witness :
  exists recs w',
    generateMockBatteryData_h 0 (world_of twelveReadings (1 / 2))
    = Some (recs, w') /\
    forall k r, recs !! k = Some r -> 14.45 < BatteryData.voltage r.
Proof.
  destruct (battery_ranges (world_of twelveReadings (1 / 2)) 0
              twelveReadings (unit_stream_const (1 / 2) ltac:(lra)) eq_refl)
    as (recs & w' & Hrun & Hall).
  exists recs, w'. split; [exact Hrun|].
  intros k r Hr. apply (Hall k r Hr).
Defined.

(** X5: with the specifications the dashboard passes to the chart, every
    record of the battery generator is reported as "Good", and its battery
    health is more than 72.5 and at most 100 percent: the mock series
    never shows a low or critical battery. *)
Theorem battery_always_good (w : World.t) (a : nat) (pts : list Point) :
  unit_stream (World.rnd w) ->
  World.heap w !! a = Some pts ->
  exists recs w',
    generateMockBatteryData_h a w = Some (recs, w') /\
    forall r, r ∈ recs ->
      getBatteryStatus (BatteryData.voltage r) (Some batterySpecs)
      = {| BatteryStatus.status := "Good";
           BatteryStatus.color := "text-green-600" |} /\
      exists h, batteryHealth (BatteryData.voltage r) (Some batterySpecs)
                = Some h /\ 72.5 < h <= 100.
Proof.
  intros Hunit Hpts.
  destruct (map_h_draws a pts (batteryRecord a) 5
              (fun k p w' r => batteryRecord a p k w' = Some (r, advance w' 5)))
    with (w := w) as (recs & Hrun & Hlen & Hall); [|exact Hpts|].
  { intros p k w' Hl. eexists.
    split; apply (batteryRecord_run a pts p k w' Hl). }
  exists recs, (advance w (5 * length pts)). split; [exact Hrun|].
  intros r Hin. apply list_elem_of_lookup in Hin as [k Hr].
  destruct (Hall k r Hr) as (p & Hp & Hrec).
  apply lookup_lt_Some in Hp.
  destruct (batteryRecord_bounds a pts p k (advance w (5 * k)) Hunit Hpts Hp)
    as (r' & Hrec' & _ & Hv & _).
  rewrite Hrec in Hrec'. injection Hrec' as <-.
  split.
  - unfold getBatteryStatus, batterySpecs; cbn.
    destruct (Rle_dec (BatteryData.voltage r) 13.0); [lra|].
    destruct (Rle_dec (BatteryData.voltage r) 14.0); [lra|]. reflexivity.
  - unfold batteryHealth, batterySpecs, Math_max, Math_min; cbn.
    eexists. split; [reflexivity|].
    set (x := (BatteryData.voltage r - 13.0) / (15.0 - 13.0) * 100).
    assert (72.5 < x) by (unfold x; lra).
    unfold Rmax, Rmin.
    destruct (Rle_dec 100 x); destruct (Rle_dec 0 _); lra.
Qed.

Lemma battery_always_good_witness :
  exists recs w',
    generateMockBatteryData_h 0 (world_of twelveReadings (1 / 2))
    = Some (recs, w') /\
    forall r, r ∈ recs ->
      BatteryStatus.status
        (getBatteryStatus (BatteryData.voltage r) (Some batterySpecs))
      = "Good"%string.
Proof.
  destruct (battery_always_good (world_of twelveReadings (1 / 2)) 0
              twelveReadings (unit_stream_const (1 / 2) ltac:(lra)) eq_refl)
    as (recs & w' & Hrun & Hall).
  exists recs, w'. split; [exact Hrun|].
  intros r Hin. destruct (Hall r Hin) as [-> _]. reflexivity.
Defined.

(** ** The groups drawn by the profile chart *)





(** The windows that survive the size test, by count and content. *)
Lemma windows_kept fuel :
  forall (l : list Point),
    (length l <= fuel)%nat ->
    let n := length l in
    let ws := filter (fun w => (2 <= length w)%nat)
                (windows_fuel fuel 5 l) in
    concat ws = take (n - (if (n mod 5 =? 1)%nat then 1 else 0)) l /\
    length ws = (n / 5 + (if (2 <=? n mod 5)%nat then 1 else 0))%nat /\
    Forall (fun w => (2 <= length w <= 5)%nat) ws.
Proof.
  induction fuel as [|fuel IH]; intros l Hfuel.
  - destruct l; [|cbn in Hfuel; lia]. cbn. auto.
  - destruct l as [|x l']; [cbn; auto|].
    set (l := x :: l') in *. cbv zeta.
    change (windows_fuel (S fuel) 5 l)
      with (take 5 l :: windows_fuel fuel 5 (drop 5 l)).
    rewrite filter_cons.
    pose proof (Nat.div_mod_eq (length l) 5) as Hdm.
    pose proof (Nat.mod_upper_bound (length l) 5 ltac:(lia)) as Hm.
    destruct (le_lt_dec 5 (length l)) as [Hbig|Hsmall].
    + assert (length (take 5 l) = 5%nat) as Ht by (rewrite length_take; lia).
      rewrite decide_True by lia.
      destruct (IH (drop 5 l)) as (Hc & Hn & Hall).
      { rewrite length_drop. subst l. cbn [length] in *. lia. }
      cbv zeta in Hc, Hn. rewrite length_drop in Hc, Hn.
      assert ((length l - 5) mod 5 = length l mod 5)%nat as Emod.
      { pose proof (Nat.div_mod_eq (length l - 5) 5) as Hdm'.
        pose proof (Nat.mod_upper_bound (length l - 5) 5 ltac:(lia)).
        lia. }
      assert ((length l - 5) / 5 = length l / 5 - 1)%nat as Ediv.
      { pose proof (Nat.div_mod_eq (length l - 5) 5) as Hdm'.
        pose proof (Nat.mod_upper_bound (length l - 5) 5 ltac:(lia)).
        lia. }
      rewrite Emod in Hc, Hn. rewrite Ediv in Hn.
      split; [|split].
      * cbn [concat]. rewrite Hc.
        set (d := if (length l mod 5 =? 1)%nat then 1%nat else 0%nat).
        assert (d <= 1)%nat by (unfold d; destruct (_ =? _)%nat; lia).
        assert (length l mod 5 = 0 -> d = 0)%nat
          by (unfold d; intros ->; reflexivity).
        replace (length l - d)%nat with (5 + (length l - 5 - d))%nat by lia.
        apply take_take_drop.
      * cbn [length]. rewrite Hn.
        assert (1 <= length l / 5)%nat by lia. lia.
      * constructor; [lia|exact Hall].
    + assert (take 5 l = l) as Ht by (apply take_ge; lia).
      assert (drop 5 l = []) as Hd by (apply drop_ge; lia).
      rewrite Ht, Hd.
      assert (windows_fuel fuel 5 ([] : list Point) = []) as ->
          by (destruct fuel; reflexivity).
      rewrite filter_nil.
      assert (length l / 5 = 0)%nat as Ediv by lia.
      assert (length l mod 5 = length l)%nat as Emod by lia.
      rewrite Ediv, Emod.
      destruct (decide (2 <= length l)%nat) as [H2|H1].
      * destruct (Nat.eqb_spec (length l) 1); [lia|].
        destruct (Nat.leb_spec 2 (length l)); [|lia].
        cbn [concat length]. rewrite app_nil_r, Nat.sub_0_r, take_ge by lia.
        split; [reflexivity|]. split; [reflexivity|].
        constructor; [lia|constructor].
      * assert (length l = 1)%nat as E1 by (subst l; cbn [length] in *; lia).
        rewrite E1. cbn. auto.
Qed.

Lemma concat_sorted_perm (ws : list (list Point)) :
  Permutation (concat (map (Array_sort compareDepth) ws)) (concat ws).
Proof.
  induction ws as [|w ws IH]; [reflexivity|].
  cbn [map concat]. rewrite IH, Array_sort_perm. reflexivity.
Qed.




(** X7: from [n] points that have a temperature and a depth the chart
    draws [floor(n / 5)] groups, plus one when [n mod 5] is at least 2;
    together they hold the first [n] valid points, or the first [n - 1]
    when [n mod 5 = 1]: a lone last point is never drawn. *)
Theorem profile_groups_cover (pts : list Point) :
  let v := filter (fun p => is_Some (TrajectoryPoint.temperature p) /\
                            is_Some (TrajectoryPoint.depth p)) pts in
  let n := length v in
  let kept := (n - (if (n mod 5 =? 1)%nat then 1 else 0))%nat in
  exists groups,
    profileGroups pts = Some groups /\
    length groups = (n / 5 + (if (2 <=? n mod 5)%nat then 1 else 0))%nat /\
    Permutation (concat groups) (take kept v) /\
    length (concat groups) = kept.
Proof.
  cbv zeta. rewrite <- (filter_isValidPoint pts).
  eexists. split; [apply profileGroups_windows|].
  set (v := filter (fun p => isValidPoint p = true) pts).
  destruct (windows_kept (length v) v (le_n _)) as (Hcat & Hcount & _).
  cbv zeta in Hcat, Hcount. fold (windows 5 v) in Hcat, Hcount.
  unfold profileSize.
  set (ws := filter (fun w => (2 <= length w)%nat) (windows 5 v)) in *.
  split; [rewrite length_map; exact Hcount|].
  assert (Permutation (concat (map (Array_sort compareDepth) ws))
            (take (length v - (if (length v mod 5 =? 1)%nat then 1 else 0))
               v)) as Hperm
      by (rewrite concat_sorted_perm, Hcat; reflexivity).
  split; [exact Hperm|].
  rewrite (Permutation_length Hperm), length_take.
  destruct (length v mod 5 =? 1)%nat; lia.
Qed.

(** X8: [getTrajectoryCoordinates] lists one (latitude, longitude) pair
    per point, in order, and the positions of the drift records are this
    list without its first pair. *)
Theorem coordinates_of_drift `{DateParser} (pts : list Point) :
  length (getTrajectoryCoordinates pts) = length pts /\
  (forall k p, pts !! k = Some p ->
     getTrajectoryCoordinates pts !! k = Some (coordinate p)) /\
  exists recs,
    generateMockDriftData pts = Some recs /\
    map (fun r => (DriftData.latitude r, DriftData.longitude r)) recs
    = drop 1 (getTrajectoryCoordinates pts).
Proof.
  unfold getTrajectoryCoordinates.
  split; [apply length_map|]. split.
  { intros k p Hp. rewrite list_lookup_fmap, Hp. reflexivity. }
  destruct (generateMockDriftData_char pts) as (recs & Hgen & Hlen & Hchar).
  exists recs. split; [exact Hgen|].
  apply list_eq. intros k.
  rewrite lookup_drop, !list_lookup_fmap.
  destruct (recs !! k) as [r|] eqn:Hr.
  - destruct (Hchar k r Hr) as (prev & p & start & _ & Hp & _ & ->).
    replace (1 + k)%nat with (S k) by lia. rewrite Hp. reflexivity.
  - apply lookup_ge_None in Hr.
    rewrite (proj2 (lookup_ge_None pts (1 + k)%nat)) by lia. reflexivity.
Qed.

Lemma coordinates_of_drift_witness :
  getTrajectoryCoordinates [origin; oneDegreeEast] !! 1%nat
  = Some (coordinate oneDegreeEast).
Proof.
  apply (@coordinates_of_drift sampleParser [origin; oneDegreeEast]).
  reflexivity.
Defined.

(** ** Running the generators that read the clock *)

Lemma hbind_Some {A B} (m : HostM A) (k : A -> HostM B) h x h' :
  m h = Some (x, h') -> hbind m k h = k x h'.
Proof. unfold hbind. intros ->. reflexivity. Qed.

Lemma hbind_assoc {A B C} (m : HostM A) (k1 : A -> HostM B)
    (k2 : B -> HostM C) h :
  hbind (hbind m k1) k2 h = hbind m (fun x => hbind (k1 x) k2) h.
Proof. unfold hbind. destruct (m h) as [[x h']|]; reflexivity. Qed.

Lemma hbind_hret {A B} (x : A) (k : A -> HostM B) h :
  hbind (hret x) k h = k x h.
Proof. reflexivity. Qed.

Lemma hadvance_0 h : hadvance h 0 0 = h.
Proof.
  destruct h as [w c p]. unfold hadvance; cbn.
  rewrite advance_0. f_equal. lia.
Qed.

Lemma hadvance_hadvance h d c d' c' :
  hadvance (hadvance h d c) d' c' = hadvance h (d + d') (c + c').
Proof.
  unfold hadvance; cbn. rewrite advance_advance. f_equal. lia.
Qed.

Lemma hadvance_eq h d c d' c' :
  d = d' -> c = c' -> hadvance h d c = hadvance h d' c'.
Proof. intros -> ->. reflexivity. Qed.

Lemma run_random_h h :
  random h
  = Some (World.rnd (Host.world h) (World.rnd_pos (Host.world h)),
          hadvance h 1 0).
Proof.
  unfold random, lift. rewrite run_random. unfold hadvance.
  do 3 f_equal. lia.
Qed.

Lemma run_now h :
  Date_now h = Some (Host.clock h (Host.clock_pos h), hadvance h 0 1).
Proof.
  unfold Date_now, hadvance. rewrite advance_0. do 3 f_equal. lia.
Qed.

Lemma run_toISOString `{DateFormatter} (t : R) h :
  Rabs t <= maxTime ->
  Date_toISOString t h = Some (Date_isoFormat (Rtrunc t), h).
Proof.
  intros Ht. unfold Date_toISOString.
  destruct (Rle_dec (Rabs t) maxTime); [reflexivity|contradiction].
Qed.

(** The random draw and the clock reading met [d] draws and [c] readings
    after [h]. *)
Lemma rnd_hadvance h d c :
  World.rnd (Host.world (hadvance h d c))
    (World.rnd_pos (Host.world (hadvance h d c)))
  = World.rnd (Host.world h) (World.rnd_pos (Host.world h) + d).
Proof. reflexivity. Qed.

Lemma clock_hadvance h d c :
  Host.clock (hadvance h d c) (Host.clock_pos (hadvance h d c))
  = Host.clock h (Host.clock_pos h + c).
Proof. reflexivity. Qed.

(** Steps of a run, one built-in at a time. *)
Ltac step_random :=
  rewrite (hbind_Some _ _ _ _ _ (run_random_h _)), ?hadvance_hadvance.
Ltac step_now :=
  rewrite (hbind_Some _ _ _ _ _ (run_now _)), ?hadvance_hadvance.
Ltac step_iso :=
  rewrite (hbind_Some _ _ _ _ _ (run_toISOString _ _ ltac:(assumption))).

(** A [map] over a local array whose callback, at index [k], takes the
    host from [D k] draws and [C k] readings to [D (k + 1)] and
    [C (k + 1)]. *)
Lemma map_values_run {A B} (f : A -> nat -> HostM B) (l : list A)
    (D C : nat -> nat) (h0 : Host.t) (P : nat -> A -> B -> Prop) :
  (forall k x, l !! k = Some x ->
     exists r,
       f x k (hadvance h0 (D k) (C k))
       = Some (r, hadvance h0 (D (S k)) (C (S k))) /\ P k x r) ->
  forall n i,
    (i + n = length l)%nat ->
    exists rs,
      Array_map_values f i (drop i l) (hadvance h0 (D i) (C i))
      = Some (rs, hadvance h0 (D (length l)) (C (length l))) /\
      length rs = n /\
      forall j r, rs !! j = Some r ->
        exists x, l !! (i + j)%nat = Some x /\ P (i + j)%nat x r.
Proof.
  intros Hf. induction n as [|n IH]; intros i Hi.
  - rewrite drop_ge by lia. replace i with (length l) by lia.
    exists []. split; [reflexivity|]. split; [reflexivity|].
    intros j r Hj. rewrite lookup_nil in Hj. discriminate.
  - assert (is_Some (l !! i)) as [x Hx] by (apply lookup_lt_is_Some; lia).
    rewrite (drop_S l x i Hx). cbn [Array_map_values].
    destruct (Hf i x Hx) as (r & Hrun & HP).
    destruct (IH (S i) ltac:(lia)) as (rs & Hrest & Hlen & Hall).
    exists (r :: rs).
    rewrite (hbind_Some _ _ _ _ _ Hrun), (hbind_Some _ _ _ _ _ Hrest).
    split; [reflexivity|]. split; [cbn; lia|].
    intros [|j] r' Hj.
    + cbn in Hj. injection Hj as <-. exists x.
      rewrite Nat.add_0_r. auto.
    + cbn in Hj. destruct (Hall j r' Hj) as (x' & Hx' & HP').
      exists x'. replace (i + S j)%nat with (S i + j)%nat by lia. auto.
Qed.

(** ** The depth profile, [generateMockProfileData] *)

Lemma Rtrunc_IZR (z : Z) : Rtrunc (IZR z) = z.
Proof.
  unfold Rtrunc. destruct (Rle_dec 0 (IZR z)); [apply ZfloorZ|].
  unfold Zceil. rewrite <- opp_IZR, ZfloorZ. lia.
Qed.

Lemma sane_clock_room (clock : nat -> Z) (n : nat) (x : R) :
  sane_clock clock -> -1000000000000 <= x <= 1000000000000 ->
  Rabs (IZR (clock n) + x) <= maxTime.
Proof.
  intros Hc Hx. destruct (Hc n) as [H0 H1].
  apply IZR_le in H0, H1. unfold maxTime.
  apply Rabs_le. lra.
Qed.

Ltac step_random_in E :=
  rewrite (hbind_Some _ _ _ _ _ (run_random_h _)), ?hadvance_hadvance in E.
Ltac norm_in E :=
  repeat (rewrite hbind_assoc in E || rewrite hbind_hret in E).
Ltac step_now_in E :=
  rewrite (hbind_Some _ _ _ _ _ (run_now _)), ?hadvance_hadvance in E.
Ltac step_iso_in E R :=
  norm_in E;
  rewrite (hbind_Some _ _ _ _ _ (run_toISOString _ _ R)) in E;
  norm_in E.

Section ProfileData.
Context `{DateFormatter}.

Lemma profileRecord_run (h0 : Host.t) (k : nat) :
  (k < 50)%nat -> sane_clock (Host.clock h0) ->
  let rnd i :=
    World.rnd (Host.world h0)
      (World.rnd_pos (Host.world h0) + (profileDraws k + i)) in
  exists r,
    profileRecord (INR k * 40) k (hadvance h0 (profileDraws k) k)
    = Some (r, hadvance h0 (profileDraws (S k)) (S k)) /\
    ProfileData.depth r = INR k * 40 /\
    ProfileData.pressure r = INR k * 40 * 0.1 + 1013.25 /\
    ProfileData.temperature r = 25 - INR k * 40 / 100 + rnd 0%nat * 2 - 1 /\
    ProfileData.salinity r = 34 + rnd 1%nat * 2 - 1 /\
    ((k < 25)%nat ->
     ProfileData.oxygen r = Some (8 - INR k * 40 / 200 + rnd 2%nat * 2)) /\
    ((25 <= k)%nat -> ProfileData.oxygen r = None) /\
    ((k < 5)%nat ->
     ProfileData.chlorophyll r
     = Some (Math_max 0 (0.5 - INR k * 40 / 400 + rnd 3%nat * 0.3))) /\
    ((5 <= k)%nat -> ProfileData.chlorophyll r = None) /\
    (exists i, ProfileData.density r
               = 1025 + INR k * 40 / 500 + rnd i * 0.5) /\
    (ProfileData.qualityFlag r = 1 \/ ProfileData.qualityFlag r = 2 \/
     ProfileData.qualityFlag r = 3 \/ ProfileData.qualityFlag r = 4) /\
    ProfileData.timestamp r
    = Date_isoFormat
        (Host.clock h0 (Host.clock_pos h0 + k) - 2400000 * Z.of_nat k).
Proof.
  intros Hk Hclock. cbv zeta.
  remember (profileRecord (INR k * 40) k (hadvance h0 (profileDraws k) k))
    as res eqn:E.
  unfold profileRecord in E.
  do 2 step_random_in E. rewrite !rnd_hadvance in E.
  assert (INR k * 40 < 1000 <-> (k < 25)%nat) as Hox.
  { split; intros Hlt.
    - apply INR_lt. replace (INR 25) with 25 by (cbn; lra). lra.
    - apply lt_INR in Hlt. replace (INR 25) with 25 in Hlt by (cbn; lra).
      lra. }
  assert (INR k * 40 < 200 <-> (k < 5)%nat) as Hch.
  { split; intros Hlt.
    - apply INR_lt. replace (INR 5) with 5 by (cbn; lra). lra.
    - apply lt_INR in Hlt. replace (INR 5) with 5 in Hlt by (cbn; lra).
      lra. }
  assert (Rabs (IZR (Host.clock h0 (Host.clock_pos h0 + k))
                - INR k * 40 * 60000) <= maxTime) as Hrange.
  { apply (sane_clock_room _ _ (- (INR k * 40 * 60000)) Hclock).
    pose proof (pos_INR k). apply lt_INR in Hk.
    replace (INR 50) with 50 in Hk by (cbn; lra). lra. }
  assert (Rtrunc (IZR (Host.clock h0 (Host.clock_pos h0 + k))
                  - INR k * 40 * 60000)
          = (Host.clock h0 (Host.clock_pos h0 + k)
             - 2400000 * Z.of_nat k)%Z) as Htrunc.
  { rewrite <- Rtrunc_IZR. f_equal.
    rewrite minus_IZR, mult_IZR, <- INR_IZR_INZ. lra. }
  destruct (Rlt_dec (INR k * 40) 1000) as [Ho|Ho];
    destruct (Rlt_dec (INR k * 40) 200) as [Hc|Hc];
    try (exfalso; lra);
    try (assert (k < 25)%nat by tauto);
    try (assert (25 <= k)%nat
           by (destruct (le_lt_dec 25 k); [assumption|exfalso; tauto]));
    try (assert (k < 5)%nat by tauto);
    try (assert (5 <= k)%nat
           by (destruct (le_lt_dec 5 k); [assumption|exfalso; tauto]));
    norm_in E; repeat (step_random_in E; norm_in E);
    rewrite ?rnd_hadvance in E;
    (match type of E with context [Rlt_dec ?q 0.8] =>
       destruct (Rlt_dec q 0.8) end;
     norm_in E; step_random_in E; norm_in E;
     rewrite ?rnd_hadvance in E;
     step_now_in E; rewrite clock_hadvance, ?Nat.add_0_r in E;
     rewrite (hbind_Some _ _ _ _ _ (run_toISOString _ _ Hrange)) in E;
     unfold hret in E; subst res; eexists).
  all: split; [apply f_equal, f_equal2; [reflexivity|];
               apply hadvance_eq; unfold profileDraws; lia|].
  all: cbn [ProfileData.depth ProfileData.pressure ProfileData.temperature
            ProfileData.salinity ProfileData.oxygen ProfileData.chlorophyll
            ProfileData.density ProfileData.qualityFlag
            ProfileData.timestamp]; rewrite Htrunc.
  all: rewrite <- ?Nat.add_assoc, ?Nat.add_0_r; cbn [Nat.add].
  all: repeat match goal with
              | |- _ /\ _ => split
              | |- (_ < _)%nat -> _ => intros ?
              | |- (_ <= _)%nat -> _ => intros ?
              end;
       try reflexivity; try lia.
  all: try (eexists; reflexivity).
  all: destruct (Rlt_dec _ _); auto.
Qed.
End ProfileData.

Section ProfileSeries.
Context `{DateFormatter}.

Lemma profileData_records (h : Host.t) :
  sane_clock (Host.clock h) ->
  exists recs,
    generateMockProfileData h = Some (recs, hadvance h 280 50) /\
    length recs = 50%nat /\
    forall k r, recs !! k = Some r ->
      (k < 50)%nat /\
      profileRecord (INR k * 40) k (hadvance h (profileDraws k) k)
      = Some (r, hadvance h (profileDraws (S k)) (S k)).
Proof.
  intros Hclock. unfold generateMockProfileData. cbv zeta.
  set (depths := map (fun i => INR i * 40) (seq 0 50)).
  assert (length depths = 50%nat) as Hlen
      by (unfold depths; rewrite length_map, length_seq; reflexivity).
  assert (forall k x, depths !! k = Some x ->
                      (k < 50)%nat /\ x = INR k * 40) as Hdepth.
  { intros k x Hx. unfold depths in Hx.
    rewrite list_lookup_fmap in Hx.
    destruct (seq 0 50 !! k) as [i|] eqn:Hi; [|discriminate].
    apply lookup_seq in Hi as [-> Hk]. cbn in Hx. injection Hx as <-.
    split; [exact Hk|reflexivity]. }
  destruct (map_values_run profileRecord depths profileDraws (fun k => k) h
              (fun k x r =>
                 (k < 50)%nat /\
                 profileRecord (INR k * 40) k (hadvance h (profileDraws k) k)
                 = Some (r, hadvance h (profileDraws (S k)) (S k))))
    with (n := 50%nat) (i := 0%nat) as (recs & Hrun & Hn & Hall).
  { intros k x Hx. destruct (Hdepth k x Hx) as [Hk ->].
    destruct (profileRecord_run h k Hk Hclock) as (r & Hr & _).
    exists r. auto. }
  { rewrite Hlen. reflexivity. }
  rewrite drop_0, Hlen in Hrun.
  change (profileDraws 0) with 0%nat in Hrun. rewrite hadvance_0 in Hrun.
  exists recs. split; [exact Hrun|]. split; [exact Hn|].
  intros k r Hr. destruct (Hall k r Hr) as (x & _ & HP). exact HP.
Qed.

(** X9: read on a clock of plausible instants, the profile generator
    returns 50 records, with depth [40 k] and pressure
    [4 k + 1013.25] at index [k], oxygen exactly for the first 25 records
    (depth below 1000) and chlorophyll exactly for the first 5 (depth
    below 200), a quality flag among 1, 2, 3, 4, and the timestamp of the
    [k]-th reading of the clock minus [k] times 40 minutes; it makes 280
    draws and 50 readings of the clock. *)
Theorem profile_data_series (h : Host.t) :
  sane_clock (Host.clock h) ->
  exists recs,
    generateMockProfileData h = Some (recs, hadvance h 280 50) /\
    length recs = 50%nat /\
    forall k r, recs !! k = Some r ->
      ProfileData.depth r = 40 * INR k /\
      ProfileData.pressure r = 4 * INR k + 1013.25 /\
      (is_Some (ProfileData.oxygen r) <-> (k < 25)%nat) /\
      (is_Some (ProfileData.chlorophyll r) <-> (k < 5)%nat) /\
      (ProfileData.qualityFlag r = 1 \/ ProfileData.qualityFlag r = 2 \/
       ProfileData.qualityFlag r = 3 \/ ProfileData.qualityFlag r = 4) /\
      ProfileData.timestamp r
      = Date_isoFormat
          (Host.clock h (Host.clock_pos h + k) - 2400000 * Z.of_nat k).
Proof.
  intros Hclock.
  destruct (profileData_records h Hclock) as (recs & Hrun & Hlen & Hall).
  exists recs. split; [exact Hrun|]. split; [exact Hlen|].
  intros k r Hr. destruct (Hall k r Hr) as [Hk Hrec].
  destruct (profileRecord_run h k Hk Hclock)
    as (r' & Hrec' & Hd & Hp & _ & _ & Ho1 & Ho2 & Hc1 & Hc2 & _ & Hq & Ht).
  rewrite Hrec in Hrec'. injection Hrec' as <-.
  split; [rewrite Hd; lra|]. split; [rewrite Hp; lra|].
  split.
  { split.
    - intros [v Hv]. destruct (le_lt_dec 25 k) as [Hge|]; [|assumption].
      rewrite (Ho2 Hge) in Hv. discriminate.
    - intros Hlt. rewrite (Ho1 Hlt). eexists; reflexivity. }
  split.
  { split.
    - intros [v Hv]. destruct (le_lt_dec 5 k) as [Hge|]; [|assumption].
      rewrite (Hc2 Hge) in Hv. discriminate.
    - intros Hlt. rewrite (Hc1 Hlt). eexists; reflexivity. }
  split; [exact Hq|exact Ht].
Qed.

(** X10: when moreover every draw lies in [0, 1), record [k] has
    temperature from 24 - 0.4 k to 26 - 0.4 k, salinity from 33 to 35,
    density from 1025 + 0.08 k to 1025.5 + 0.08 k, an oxygen value, when
    present, from 8 - 0.2 k to 10 - 0.2 k, and a chlorophyll value, when
    present, from 0.5 - 0.1 k to 0.8 - 0.1 k, which is at least 0.09: the
    clamp at 0 never takes effect.  The ends of the ranges are included,
    and the ranges that depend on [k] are given to within a billionth,
    which is far more than the rounding of the few double operations
    involved. *)
Theorem profile_data_ranges (h : Host.t) :
  sane_clock (Host.clock h) ->
  unit_stream (World.rnd (Host.world h)) ->
  exists recs h',
    generateMockProfileData h = Some (recs, h') /\
    forall k r, recs !! k = Some r ->
      (24 - 0.4 * INR k - 1e-9 <= ProfileData.temperature r
       <= 26 - 0.4 * INR k + 1e-9) /\
      33 <= ProfileData.salinity r <= 35 /\
      (1025 + 0.08 * INR k - 1e-9 <= ProfileData.density r
       <= 1025.5 + 0.08 * INR k + 1e-9) /\
      (forall o, ProfileData.oxygen r = Some o ->
                 8 - 0.2 * INR k - 1e-9 <= o <= 10 - 0.2 * INR k + 1e-9) /\
      (forall c, ProfileData.chlorophyll r = Some c ->
                 0.5 - 0.1 * INR k - 1e-9 <= c <= 0.8 - 0.1 * INR k + 1e-9 /\
                 0.09 <= c).
Proof.
  intros Hclock Hunit.
  destruct (profileData_records h Hclock) as (recs & Hrun & Hlen & Hall).
  exists recs, (hadvance h 280 50). split; [exact Hrun|].
  intros k r Hr. destruct (Hall k r Hr) as [Hk Hrec].
  destruct (profileRecord_run h k Hk Hclock)
    as (r' & Hrec' & _ & _ & Ht & Hs & Ho1 & Ho2 & Hc1 & Hc2 & [i Hd] & _).
  rewrite Hrec in Hrec'. injection Hrec' as <-.
  pose proof (fun i => Hunit
     (World.rnd_pos (Host.world h) + (profileDraws k + i))%nat) as Hu.
  pose proof (Hu 0%nat). pose proof (Hu 1%nat). pose proof (Hu 2%nat).
  pose proof (Hu 3%nat). pose proof (Hu i).
  pose proof (pos_INR k) as Hk0.
  split; [rewrite Ht; lra|]. split; [rewrite Hs; lra|].
  split; [rewrite Hd; lra|]. split.
  - intros o Ho. destruct (le_lt_dec 25 k) as [Hge|Hlt].
    + rewrite (Ho2 Hge) in Ho. discriminate.
    + rewrite (Ho1 Hlt) in Ho. injection Ho as <-. lra.
  - intros c Hc. destruct (le_lt_dec 5 k) as [Hge|Hlt].
    + rewrite (Hc2 Hge) in Hc. discriminate.
    + rewrite (Hc1 Hlt) in Hc. injection Hc as <-.
      assert (INR k <= 4) as Hk4.
      { assert (k <= 4)%nat as Hle by lia.
        apply le_INR in Hle. cbn in Hle. lra. }
      unfold Math_max. rewrite Rmax_right by lra. lra.
Qed.
End ProfileSeries.

Lemma sane_clock_const (t : Z) :
  (0 <= t <= 8000000000000000)%Z -> sane_clock (fun _ => t).
Proof. intros Ht n. exact Ht. Qed.

Lemma profile_data_series_witness :
  exists recs,
    @generateMockProfileData sampleFormatter (host_of (1 / 2) 1700000000000)
    = Some (recs, hadvance (host_of (1 / 2) 1700000000000) 280 50) /\
    length recs = 50%nat.
Proof.
  destruct (@profile_data_series sampleFormatter
              (host_of (1 / 2) 1700000000000)
              (sane_clock_const 1700000000000 ltac:(lia)))
    as (recs & Hrun & Hlen & _).
  exists recs. split; [exact Hrun|exact Hlen].
Defined.

Lemma profile_data_ranges_witness :
  exists recs h',
    @generateMockProfileData sampleFormatter (host_of (1 / 2) 1700000000000)
    = Some (recs, h') /\
    forall k r, recs !! k = Some r -> 33 <= ProfileData.salinity r <= 35.
Proof.
  destruct (@profile_data_ranges sampleFormatter
              (host_of (1 / 2) 1700000000000)
              (sane_clock_const 1700000000000 ltac:(lia))
              (unit_stream_const (1 / 2) ltac:(lra)))
    as (recs & h' & Hrun & Hall).
  exists recs, h'. split; [exact Hrun|].
  intros k r Hr. apply (Hall k r Hr).
Defined.

(** ** The cycle phases, [generateMockCyclePhases] *)

Section CyclePhases.
Context `{DateFormatter}.

(** One cycle: five phases that follow one another from the base time. *)
Lemma cycleBody_run (h0 : Host.t) (c : nat) (phases : list CyclePhase.t) :
  (c < 5)%nat ->
  sane_clock (Host.clock h0) ->
  unit_stream (World.rnd (Host.world h0)) ->
  let rnd i :=
    World.rnd (Host.world h0)
      (World.rnd_pos (Host.world h0) + (11 * c + i)) in
  let base :=
    IZR (Host.clock h0 (Host.clock_pos h0 + c))
    - (5 - INR (S c)) * 10 * 24 * 60 * 60 * 1000 in
  let d0 := 0.5 + rnd 0%nat * 0.5 in
  let d1 := 2 + rnd 1%nat * 1 in
  let d2 := 200 + rnd 2%nat * 40 in
  let d3 := 3 + rnd 3%nat * 1 in
  let d4 := 0.25 + rnd 4%nat * 0.25 in
  let t1 := base + d0 * 60 * 60 * 1000 in
  let t2 := t1 + d1 * 60 * 60 * 1000 in
  let t3 := t2 + d2 * 60 * 60 * 1000 in
  let t4 := t3 + d3 * 60 * 60 * 1000 in
  let t5 := t4 + d4 * 60 * 60 * 1000 in
  let iso t := Date_isoFormat (Rtrunc t) in
  cycleBody (S c) phases (hadvance h0 (11 * c) c)
  = Some (phases ++
          [CyclePhase.mk "surface" (iso base) (iso t1) d0 (INR (S c))
             None (Some (15 + rnd 5%nat * 10)) None;
           CyclePhase.mk "descent" (iso t1) (iso t2) d1 (INR (S c))
             None (Some (15 + rnd 6%nat * 10)) None;
           CyclePhase.mk "drift" (iso t2) (iso t3) d2 (INR (S c))
             (Some (1000 + rnd 7%nat * 500))
             (Some (15 + rnd 8%nat * 10)) None;
           CyclePhase.mk "ascent" (iso t3) (iso t4) d3 (INR (S c))
             None (Some (15 + rnd 9%nat * 10)) None;
           CyclePhase.mk "surface_transmission" (iso t4) (iso t5) d4
             (INR (S c)) None (Some (15 + rnd 10%nat * 10)) None],
          hadvance h0 (11 * S c) (S c)).
Proof.
  intros Hc Hclock Hunit. cbv zeta.
  pose proof (fun i => Hunit
     (World.rnd_pos (Host.world h0) + (11 * c + i))%nat) as Hu.
  pose proof (Hu 0%nat) as U0. pose proof (Hu 1%nat) as U1.
  pose proof (Hu 2%nat) as U2. pose proof (Hu 3%nat) as U3.
  pose proof (Hu 4%nat) as U4.
  assert (1 <= INR (S c) <= 5) as HcR.
  { split.
    - replace 1 with (INR 1) by reflexivity. apply le_INR. lia.
    - replace 5 with (INR 5) by (cbn; lra). apply le_INR. lia. }
  remember (INR (S c)) as cR eqn:EcR.
  remember (Host.clock h0 (Host.clock_pos h0 + c)) as now eqn:Enow.
  remember (World.rnd (Host.world h0)
              (World.rnd_pos (Host.world h0) + (11 * c + 0))) as r0 eqn:Er0.
  remember (World.rnd (Host.world h0)
              (World.rnd_pos (Host.world h0) + (11 * c + 1))) as r1 eqn:Er1.
  remember (World.rnd (Host.world h0)
              (World.rnd_pos (Host.world h0) + (11 * c + 2))) as r2 eqn:Er2.
  remember (World.rnd (Host.world h0)
              (World.rnd_pos (Host.world h0) + (11 * c + 3))) as r3 eqn:Er3.
  remember (World.rnd (Host.world h0)
              (World.rnd_pos (Host.world h0) + (11 * c + 4))) as r4 eqn:Er4.
  remember (IZR now - (5 - cR) * 10 * 24 * 60 * 60 * 1000) as base eqn:Eb.
  remember (base + (0.5 + r0 * 0.5) * 60 * 60 * 1000) as t1 eqn:E1.
  remember (t1 + (2 + r1 * 1) * 60 * 60 * 1000) as t2 eqn:E2.
  remember (t2 + (200 + r2 * 40) * 60 * 60 * 1000) as t3 eqn:E3.
  remember (t3 + (3 + r3 * 1) * 60 * 60 * 1000) as t4 eqn:E4.
  remember (t4 + (0.25 + r4 * 0.25) * 60 * 60 * 1000) as t5 eqn:E5.
  assert (forall t, -1000000000000 <= t - IZR now <= 1000000000000 ->
                    Rabs t <= maxTime) as Hroom.
  { intros t Ht. replace t with (IZR now + (t - IZR now)) by ring.
    rewrite Enow in Ht |- *. apply (sane_clock_room _ _ _ Hclock).
    exact Ht. }
  assert (Rabs base <= maxTime) as R0 by (apply Hroom; lra).
  assert (Rabs t1 <= maxTime) as R1 by (apply Hroom; lra).
  assert (Rabs t2 <= maxTime) as R2 by (apply Hroom; lra).
  assert (Rabs t3 <= maxTime) as R3 by (apply Hroom; lra).
  assert (Rabs t4 <= maxTime) as R4 by (apply Hroom; lra).
  assert (Rabs t5 <= maxTime) as R5 by (apply Hroom; lra).
  remember (cycleBody (S c) phases (hadvance h0 (11 * c) c)) as res eqn:E.
  unfold cycleBody in E.
  step_now_in E. rewrite clock_hadvance in E. rewrite <- Enow in E.
  do 5 step_random_in E. rewrite !rnd_hadvance in E.
  rewrite <- ?Nat.add_assoc in E. cbn [Nat.add] in E.
  change (INR cycleCount) with (INR 5) in E.
  replace (INR 5) with 5 in E by (cbn; lra).
  rewrite <- EcR, <- Er0, <- Er1, <- Er2, <- Er3, <- Er4 in E.
  rewrite <- Eb in E.
  cbn [cyclePhaseEach] in E. unfold cyclePhaseStep in E.
  cbv zeta in E.
  cbn [fst snd String.eqb Ascii.eqb Bool.eqb] in E.
  norm_in E.
  rewrite <- E1 in E.
  (* surface *)
  step_iso_in E R0.
  step_iso_in E R1.
  norm_in E. step_random_in E. norm_in E.
  cbn [fst snd] in E. rewrite <- E2 in E.
  (* descent *)
  step_iso_in E R1.
  step_iso_in E R2.
  norm_in E. step_random_in E. norm_in E.
  cbn [fst snd] in E. rewrite <- E3 in E.
  (* drift *)
  step_iso_in E R2.
  step_iso_in E R3.
  norm_in E. do 2 (step_random_in E; norm_in E).
  cbn [fst snd] in E. rewrite <- E4 in E.
  (* ascent *)
  step_iso_in E R3.
  step_iso_in E R4.
  norm_in E. step_random_in E. norm_in E.
  cbn [fst snd] in E. rewrite <- E5 in E.
  (* surface transmission *)
  step_iso_in E R4.
  step_iso_in E R5.
  norm_in E. step_random_in E. norm_in E.
  cbn [fst snd] in E.
  unfold hret in E. rewrite !rnd_hadvance in E.
  rewrite <- ?Nat.add_assoc in E. cbn [Nat.add] in E.
  subst res. rewrite <- !app_assoc. cbn [app].
  apply f_equal, f_equal2; [subst cR; reflexivity|].
  apply hadvance_eq; lia.
Qed.
End CyclePhases.

Lemma lookup_concat_blocks {A} (blocks : list (list A)) (m c j : nat) :
  Forall (fun b => length b = m) blocks -> (j < m)%nat ->
  concat blocks !! (m * c + j)%nat = blocks !! c ≫= fun b => b !! j.
Proof.
  intros Hall Hj. revert c.
  induction Hall as [|b blocks Hb _ IH]; intros c.
  - cbn. rewrite lookup_nil. reflexivity.
  - cbn [concat]. destruct c as [|c].
    + rewrite Nat.mul_0_r, Nat.add_0_l, lookup_app_l by lia. reflexivity.
    + rewrite lookup_app_r by lia.
      replace (m * S c + j - length b)%nat with (m * c + j)%nat by lia.
      apply IH.
Qed.

Section CycleSeries.
Context `{DateFormatter}.

(** The loop over the cycles appends one block of phases per cycle. *)
Lemma cycleLoop_blocks (h0 : Host.t) :
  sane_clock (Host.clock h0) ->
  unit_stream (World.rnd (Host.world h0)) ->
  forall n c phases,
    (c + n = 5)%nat ->
    exists blocks,
      cycleLoop n (S c) phases (hadvance h0 (11 * c) c)
      = Some (phases ++ concat blocks, hadvance h0 55 5) /\
      length blocks = n /\
      forall i blk, blocks !! i = Some blk ->
        cycleBody (S (c + i)) [] (hadvance h0 (11 * (c + i)) (c + i))
        = Some (blk, hadvance h0 (11 * S (c + i)) (S (c + i))).
Proof.
  intros Hclock Hunit. induction n as [|n IH]; intros c phases Hc.
  - exists []. assert (c = 5)%nat as -> by lia.
    cbn [cycleLoop]. change (6 <=? cycleCount)%nat with false.
    cbn [concat]. rewrite app_nil_r.
    split; [reflexivity|]. split; [reflexivity|].
    intros i blk Hi. rewrite lookup_nil in Hi. discriminate.
  - cbn [cycleLoop].
    assert ((S c <=? cycleCount)%nat = true) as ->
        by (apply Nat.leb_le; unfold cycleCount; lia).
    pose proof (cycleBody_run h0 c phases ltac:(lia) Hclock Hunit) as Hbody.
    pose proof (cycleBody_run h0 c [] ltac:(lia) Hclock Hunit) as Hnil.
    cbv zeta in Hbody, Hnil. cbn [app] in Hnil.
    match type of Hnil with _ = Some (?b, _) => set (blk := b) in * end.
    rewrite (hbind_Some _ _ _ _ _ Hbody).
    destruct (IH (S c) (phases ++ blk) ltac:(lia))
      as (blocks & Hrun & Hlen & Hall).
    exists (blk :: blocks). rewrite Hrun. cbn [concat].
    rewrite <- app_assoc.
    split; [reflexivity|]. split; [cbn; lia|].
    intros [|i] b Hi.
    + cbn in Hi. injection Hi as <-. rewrite Nat.add_0_r. exact Hnil.
    + cbn in Hi. specialize (Hall i b Hi).
      replace (c + S i)%nat with (S c + i)%nat by lia. exact Hall.
Qed.

Lemma cyclePhases_blocks (h : Host.t) :
  sane_clock (Host.clock h) ->
  unit_stream (World.rnd (Host.world h)) ->
  exists blocks,
    generateMockCyclePhases h = Some (concat blocks, hadvance h 55 5) /\
    length blocks = 5%nat /\
    forall c blk, blocks !! c = Some blk ->
      (c < 5)%nat /\
      cycleBody (S c) [] (hadvance h (11 * c) c)
      = Some (blk, hadvance h (11 * S c) (S c)).
Proof.
  intros Hclock Hunit.
  destruct (cycleLoop_blocks h Hclock Hunit 5 0 [] eq_refl)
    as (blocks & Hrun & Hlen & Hall).
  change (11 * 0)%nat with 0%nat in Hrun. rewrite hadvance_0 in Hrun.
  exists blocks. split; [exact Hrun|]. split; [exact Hlen|].
  intros c blk Hc. split; [apply lookup_lt_Some in Hc; lia|].
  exact (Hall c blk Hc).
Qed.
End CycleSeries.

Lemma Some_fst_inj {A B : Type} (a c : A) (b d : B) :
  Some (a, b) = Some (c, d) -> a = c.
Proof. congruence. Qed.

Section CycleTheorems.
Context `{DateFormatter}.

(** The record at position [j] of cycle [c + 1], as far as the two
    theorems below need it. *)
Lemma cyclePhases_lookup (h : Host.t) :
  sane_clock (Host.clock h) ->
  unit_stream (World.rnd (Host.world h)) ->
  exists phases,
    generateMockCyclePhases h = Some (phases, hadvance h 55 5) /\
    length phases = 25%nat /\
    forall c j r, (c < 5)%nat -> (j < 5)%nat ->
      phases !! (5 * c + j)%nat = Some r ->
      exists blk,
        blk !! j = Some r /\
        (forall j' r', blk !! j' = Some r' ->
                       phases !! (5 * c + j')%nat = Some r') /\
        cycleBody (S c) [] (hadvance h (11 * c) c)
        = Some (blk, hadvance h (11 * S c) (S c)).
Proof.
  intros Hclock Hunit.
  destruct (cyclePhases_blocks h Hclock Hunit)
    as (blocks & Hrun & Hlen & Hall).
  assert (Forall (fun b => length b = 5%nat) blocks) as Hfive.
  { apply Forall_forall. intros b Hb.
    apply list_elem_of_lookup in Hb as [c Hb].
    destruct (Hall c b Hb) as [Hc Hbody].
    pose proof (cycleBody_run h c [] Hc Hclock Hunit) as Hexp.
    cbv zeta in Hexp. rewrite Hbody in Hexp.
    apply Some_fst_inj in Hexp. subst b. reflexivity. }
  exists (concat blocks). split; [exact Hrun|]. split.
  { clear Hall Hrun.
    do 5 (destruct blocks as [|? blocks]; [discriminate Hlen|]).
    destruct blocks; [|discriminate Hlen].
    repeat match goal with
           | Hf : Forall _ (_ :: _) |- _ =>
               apply Forall_cons in Hf as [? Hf]
           end.
    cbn [concat]. rewrite !length_app. cbn [length]. lia. }
  intros c j r Hc Hj Hr.
  rewrite (lookup_concat_blocks blocks 5 c j Hfive Hj) in Hr.
  destruct (blocks !! c) as [blk|] eqn:Hblk; [|discriminate].
  cbn in Hr. exists blk. split; [exact Hr|]. split.
  - intros j' r' Hr'.
    assert (j' < 5)%nat as Hj'.
    { apply lookup_lt_Some in Hr'.
      rewrite Forall_forall in Hfive.
      rewrite (Hfive blk (list_elem_of_lookup_2 _ _ _ Hblk)) in Hr'.
      exact Hr'. }
    rewrite (lookup_concat_blocks blocks 5 c j' Hfive Hj'), Hblk.
    exact Hr'.
  - apply (Hall c blk Hblk).
Qed.

(** X11: read on a clock of plausible instants, with draws in [0, 1),
    the cycle generator returns 25 phases: for each of the cycles 1 to 5,
    in order, a surface, a descent, a drift, an ascent and a surface
    transmission phase, with durations from 0.5 to 1, from 2 to 3, from
    200 to 240, from 3 to 4 and from 0.25 to 0.5 hours; only the drift
    phase has a depth, from 1000 to 1500; every phase has a temperature
    from 15 to 25 and no notes.  The ends of the ranges are included: in
    doubles the sum for a draw just below 1 can round to the upper end.
    It makes 55 draws and 5 readings of the clock. *)
Theorem cycle_phases_series (h : Host.t) :
  sane_clock (Host.clock h) ->
  unit_stream (World.rnd (Host.world h)) ->
  exists phases,
    generateMockCyclePhases h = Some (phases, hadvance h 55 5) /\
    length phases = 25%nat /\
    forall c j r, (c < 5)%nat -> (j < 5)%nat ->
      phases !! (5 * c + j)%nat = Some r ->
      CyclePhase.cycleNumber r = INR (c + 1) /\
      ["surface"%string; "descent"%string; "drift"%string;
       "ascent"%string; "surface_transmission"%string] !! j
      = Some (CyclePhase.phase r) /\
      (is_Some (CyclePhase.depth r) <-> CyclePhase.phase r = "drift"%string)
      /\
      (forall d, CyclePhase.depth r = Some d -> 1000 <= d <= 1500) /\
      (exists t, CyclePhase.temperature r = Some t /\ 15 <= t <= 25) /\
      CyclePhase.notes r = None /\
      exists lo hi,
        [(0.5, 1); (2, 3); (200, 240); (3, 4); (0.25, 0.5)] !! j
        = Some (lo, hi) /\
        lo <= CyclePhase.duration r <= hi.
Proof.
  intros Hclock Hunit.
  destruct (cyclePhases_lookup h Hclock Hunit)
    as (phases & Hrun & Hlen & Hall).
  exists phases. split; [exact Hrun|]. split; [exact Hlen|].
  intros c j r Hc Hj Hr.
  destruct (Hall c j r Hc Hj Hr) as (blk & Hblk & _ & Hbody).
  pose proof (cycleBody_run h c [] Hc Hclock Hunit) as Hexp.
  cbv zeta in Hexp. rewrite Hbody in Hexp.
  apply Some_fst_inj in Hexp. subst blk.
  pose proof (fun i => Hunit
     (World.rnd_pos (Host.world h) + (11 * c + i))%nat) as Hu.
  pose proof (Hu 0%nat). pose proof (Hu 1%nat). pose proof (Hu 2%nat).
  pose proof (Hu 3%nat). pose proof (Hu 4%nat). pose proof (Hu 5%nat).
  pose proof (Hu 6%nat). pose proof (Hu 7%nat). pose proof (Hu 8%nat).
  pose proof (Hu 9%nat). pose proof (Hu 10%nat).
  replace (c + 1)%nat with (S c) by lia.
  do 5 (destruct j as [|j];
        [lazy beta iota delta [lookup list_lookup] in Hblk;
         apply (inj Some) in Hblk; subst r;
         cbn [CyclePhase.cycleNumber CyclePhase.phase CyclePhase.depth
              CyclePhase.temperature CyclePhase.notes CyclePhase.duration
              lookup list_lookup];
         split; [reflexivity|]; split; [reflexivity|];
         split; [split; [intros [? ?]; try discriminate; reflexivity
                        |try discriminate; intros _; eexists; reflexivity]|];
         split; [intros ? Hd;
                first [discriminate Hd
                      |apply (inj Some) in Hd; subst; lra]|];
         split; [eexists; split; [reflexivity|lra]|];
         split; [reflexivity|];
         eexists _, _; split; [reflexivity|lra]
        |]).
  lia.
Qed.

(** X12: in every cycle the phases follow one another without a gap: the
    first starts at the cycle's reading of the clock minus ten days for
    each cycle still to come, and each phase ends at the instant, hence
    with the text, at which the next one starts.  The five durations of a
    cycle add up to at least 205.75 and at most 248.5 hours. *)
Theorem cycle_phases_timeline (h : Host.t) :
  sane_clock (Host.clock h) ->
  unit_stream (World.rnd (Host.world h)) ->
  exists phases,
    generateMockCyclePhases h = Some (phases, hadvance h 55 5) /\
    forall c, (c < 5)%nat ->
      exists r0 r1 r2 r3 r4,
        phases !! (5 * c)%nat = Some r0 /\
        phases !! (5 * c + 1)%nat = Some r1 /\
        phases !! (5 * c + 2)%nat = Some r2 /\
        phases !! (5 * c + 3)%nat = Some r3 /\
        phases !! (5 * c + 4)%nat = Some r4 /\
        CyclePhase.startTime r0
        = Date_isoFormat
            (Host.clock h (Host.clock_pos h + c)
             - (4 - Z.of_nat c) * 864000000) /\
        CyclePhase.endTime r0 = CyclePhase.startTime r1 /\
        CyclePhase.endTime r1 = CyclePhase.startTime r2 /\
        CyclePhase.endTime r2 = CyclePhase.startTime r3 /\
        CyclePhase.endTime r3 = CyclePhase.startTime r4 /\
        205.75 <= CyclePhase.duration r0 + CyclePhase.duration r1
                  + CyclePhase.duration r2 + CyclePhase.duration r3
                  + CyclePhase.duration r4 <= 248.5.
Proof.
  intros Hclock Hunit.
  destruct (cyclePhases_lookup h Hclock Hunit)
    as (phases & Hrun & Hlen & Hall).
  exists phases. split; [exact Hrun|].
  intros c Hc.
  assert (is_Some (phases !! (5 * c + 0)%nat)) as [r Hr]
      by (apply lookup_lt_is_Some; lia).
  destruct (Hall c 0%nat r Hc ltac:(lia) Hr) as (blk & _ & Hin & Hbody).
  pose proof (cycleBody_run h c [] Hc Hclock Hunit) as Hexp.
  cbv zeta in Hexp. rewrite Hbody in Hexp.
  apply Some_fst_inj in Hexp. subst blk.
  pose proof (fun i => Hunit
     (World.rnd_pos (Host.world h) + (11 * c + i))%nat) as Hu.
  pose proof (Hu 0%nat). pose proof (Hu 1%nat). pose proof (Hu 2%nat).
  pose proof (Hu 3%nat). pose proof (Hu 4%nat).
  do 5 eexists.
  split; [rewrite <- (Nat.add_0_r (5 * c)); apply (Hin 0%nat); reflexivity|].
  split; [apply (Hin 1%nat); reflexivity|].
  split; [apply (Hin 2%nat); reflexivity|].
  split; [apply (Hin 3%nat); reflexivity|].
  split; [apply (Hin 4%nat); reflexivity|].
  cbn [CyclePhase.startTime CyclePhase.endTime CyclePhase.duration].
  split.
  { f_equal. rewrite <- Rtrunc_IZR. f_equal.
    rewrite minus_IZR, mult_IZR, minus_IZR, <- INR_IZR_INZ, S_INR. lra. }
  repeat split; try reflexivity; lra.
Qed.
End CycleTheorems.

Lemma cycle_phases_series_witness :
  exists phases,
    @generateMockCyclePhases sampleFormatter (host_of (1 / 2) 1700000000000)
    = Some (phases, hadvance (host_of (1 / 2) 1700000000000) 55 5) /\
    length phases = 25%nat.
Proof.
  destruct (@cycle_phases_series sampleFormatter
              (host_of (1 / 2) 1700000000000)
              (sane_clock_const 1700000000000 ltac:(lia))
              (unit_stream_const (1 / 2) ltac:(lra)))
    as (phases & Hrun & Hlen & _).
  exists phases. split; [exact Hrun|exact Hlen].
Defined.

Lemma cycle_phases_timeline_witness :
  exists phases r0 r1,
    @generateMockCyclePhases sampleFormatter (host_of (1 / 2) 1700000000000)
    = Some (phases, hadvance (host_of (1 / 2) 1700000000000) 55 5) /\
    phases !! 20%nat = Some r0 /\ phases !! 21%nat = Some r1 /\
    CyclePhase.startTime r0 = pretty 1700000000000%Z /\
    CyclePhase.endTime r0 = CyclePhase.startTime r1.
Proof.
  destruct (@cycle_phases_timeline sampleFormatter
              (host_of (1 / 2) 1700000000000)
              (sane_clock_const 1700000000000 ltac:(lia))
              (unit_stream_const (1 / 2) ltac:(lra)))
    as (phases & Hrun & Hall).
  destruct (Hall 4%nat ltac:(lia))
    as (r0 & r1 & _ & _ & _ & H0 & H1 & _ & _ & _ & Hs & He & _).
  exists phases, r0, r1. split; [exact Hrun|].
  split; [exact H0|]. split; [exact H1|]. split; [exact Hs|exact He].
Defined.

(** ** The quality-control records, [generateMockQualityData] *)

(** The text of a whole number of hundreds at most. *)
Lemma Number_toString_small `{NumberFormatter} (z : Z) :
  (0 <= z <= 1000)%Z -> Number_toString (IZR z) = pretty z.
Proof.
  intros [H0 H1]. unfold Number_toString. rewrite ZfloorZ.
  destruct (Req_dec_T (IZR z) (IZR z)) as [_|Hne]; [|contradiction].
  destruct (Rlt_dec (Rabs (IZR z)) (10 ^ 21)) as [_|Hbig]; [reflexivity|].
  exfalso. apply Hbig. apply IZR_le in H0, H1.
  rewrite Rabs_pos_eq by exact H0.
  apply Rle_lt_trans with (1 := H1). lra.
Qed.

Section QualityData.
Context `{DateFormatter} `{NumberFormatter}.

Lemma qualityBody_run (h0 : Host.t) (i : nat) (data : list QualityData.t) :
  (i < 200)%nat ->
  sane_clock (Host.clock h0) ->
  let rnd k :=
    World.rnd (Host.world h0)
      (World.rnd_pos (Host.world h0) + (8 * i + k)) in
  let flag :=
    if Rlt_dec (rnd 1%nat) 0.85
    then (if Rlt_dec (rnd 2%nat) 0.95 then 1 else 2)
    else (if Rlt_dec (rnd 2%nat) 0.8 then 3 else 4) in
  qualityBody i data (hadvance h0 (8 * i) i)
  = Some (data ++
          [QualityData.mk
             (index_Z ["temperature"%string; "salinity"%string;
                       "pressure"%string; "oxygen"%string;
                       "chlorophyll"%string]
                (Math_floor (rnd 0%nat * INR 5)))
             (Date_isoFormat
                (Host.clock h0 (Host.clock_pos h0 + i)
                 - 3600000 * Z.of_nat i))
             (rnd 3%nat * 2000) (rnd 4%nat * 100) flag
             (index_Z ["RangeTest"%string; "SpikeTest"%string;
                       "RateOfChangeTest"%string; "StuckValueTest"%string;
                       "GradientTest"%string]
                (Math_floor (rnd 5%nat * INR 5)))
             (if Rle_dec flag 2 then 85 + rnd 6%nat * 15
              else 60 + rnd 6%nat * 25)
             (Some (rnd 7%nat * 5))
             ("profile_" ++ pretty (Z.of_nat (i / 20 + 1)))],
          hadvance h0 (8 * S i) (S i)).
Proof.
  intros Hi Hclock. cbv zeta.
  assert (0 <= INR i <= 200) as HiR.
  { split; [apply pos_INR|].
    replace 200 with (INR 200) by (rewrite INR_IZR_INZ; reflexivity).
    apply le_INR. lia. }
  remember (Host.clock h0 (Host.clock_pos h0 + i)) as now eqn:Enow.
  assert (Rabs (IZR now - INR i * 60 * 60 * 1000) <= maxTime) as Hroom.
  { replace (IZR now - INR i * 60 * 60 * 1000)
      with (IZR now + - (INR i * 60 * 60 * 1000)) by ring.
    rewrite Enow. apply (sane_clock_room _ _ _ Hclock). lra. }
  assert (Rtrunc (IZR now - INR i * 60 * 60 * 1000)
          = (now - 3600000 * Z.of_nat i)%Z) as Htime.
  { rewrite <- Rtrunc_IZR. f_equal.
    rewrite minus_IZR, mult_IZR, <- INR_IZR_INZ. lra. }
  assert (Number_toString (IZR (Math_floor (INR i / 20)) + 1)
          = pretty (Z.of_nat (i / 20 + 1))) as Hid.
  { unfold Math_floor.
    replace 20 with (INR 20) by (rewrite INR_IZR_INZ; reflexivity).
    rewrite Zfloor_div_nat by lia.
    replace (IZR (Z.of_nat (i / 20)) + 1)
      with (IZR (Z.of_nat (i / 20 + 1)))
      by (rewrite Nat2Z.inj_add, plus_IZR; reflexivity).
    apply Number_toString_small.
    pose proof (Nat.Div0.div_le_upper_bound i 20 10 ltac:(lia)). lia. }
  remember (qualityBody i data (hadvance h0 (8 * i) i)) as res eqn:E.
  unfold qualityBody in E. cbv zeta in E.
  do 2 step_random_in E. rewrite !rnd_hadvance in E.
  rewrite <- ?Nat.add_assoc in E. cbn [Nat.add] in E.
  norm_in E.
  remember (World.rnd (Host.world h0)
              (World.rnd_pos (Host.world h0) + (8 * i + 1))) as r1 eqn:Er1.
  remember (World.rnd (Host.world h0)
              (World.rnd_pos (Host.world h0) + (8 * i + 2))) as r2 eqn:Er2.
  destruct (Rlt_dec r1 0.85).
  all: norm_in E; step_random_in E; norm_in E.
  all: step_now_in E; rewrite clock_hadvance in E;
    rewrite ?Nat.add_0_r in E; rewrite <- Enow in E.
  all: norm_in E;
    rewrite (hbind_Some _ _ _ _ _ (run_toISOString _ _ Hroom)) in E;
    norm_in E.
  all: do 3 step_random_in E; norm_in E.
  all: rewrite !rnd_hadvance in E.
  all: rewrite <- ?Nat.add_assoc in E; cbn [Nat.add] in E.
  all: rewrite <- Er2 in E.
  all: match type of E with
       | context [Rle_dec ?f 2] => destruct (Rle_dec f 2)
       end.
  all: norm_in E; step_random_in E; norm_in E; step_random_in E.
  all: unfold hret in E; rewrite !rnd_hadvance in E.
  all: rewrite <- ?Nat.add_assoc in E; cbn [Nat.add] in E.
  all: rewrite Htime, Hid in E; subst res; rewrite ?Nat.add_0_r.
  all: apply f_equal, f_equal2; [reflexivity|apply hadvance_eq; lia].
Qed.
End QualityData.

Lemma index_Z_elem_of {A} (l : list A) (z : Z) (x : A) :
  index_Z l z = Some x -> x ∈ l.
Proof.
  unfold index_Z. destruct (z <? 0)%Z; [discriminate|].
  apply list_elem_of_lookup_2.
Qed.

Section QualitySeries.
Context `{DateFormatter} `{NumberFormatter}.

(** The loop appends one record per index. *)
Lemma qualityLoop_records (h0 : Host.t) :
  sane_clock (Host.clock h0) ->
  forall n i data,
    (i + n = 200)%nat ->
    exists recs,
      qualityLoop n i data (hadvance h0 (8 * i) i)
      = Some (data ++ recs, hadvance h0 1600 200) /\
      length recs = n /\
      forall j r, recs !! j = Some r ->
        qualityBody (i + j) [] (hadvance h0 (8 * (i + j)) (i + j))
        = Some ([r], hadvance h0 (8 * S (i + j)) (S (i + j))).
Proof.
  intros Hclock. induction n as [|n IH]; intros i data Hi.
  - exists []. assert (i = 200)%nat as -> by lia.
    cbn [qualityLoop]. rewrite (proj2 (Nat.ltb_ge 200 200)) by lia.
    rewrite app_nil_r.
    split; [reflexivity|]. split; [reflexivity|].
    intros j r Hj. rewrite lookup_nil in Hj. discriminate.
  - cbn [qualityLoop]. rewrite (proj2 (Nat.ltb_lt i 200)) by lia.
    pose proof (qualityBody_run h0 i data ltac:(lia) Hclock) as Hbody.
    pose proof (qualityBody_run h0 i [] ltac:(lia) Hclock) as Hnil.
    cbv zeta in Hbody, Hnil. cbn [app] in Hnil.
    match type of Hnil with _ = Some ([?b], _) => set (rec := b) in * end.
    rewrite (hbind_Some _ _ _ _ _ Hbody).
    destruct (IH (S i) (data ++ [rec]) ltac:(lia))
      as (recs & Hrun & Hlen & Hall).
    exists (rec :: recs). rewrite Hrun, <- app_assoc.
    split; [reflexivity|]. split; [cbn; lia|].
    intros [|j] b Hj.
    + cbn in Hj. apply (inj Some) in Hj. subst b.
      rewrite Nat.add_0_r. exact Hnil.
    + cbn in Hj. specialize (Hall j b Hj).
      replace (i + S j)%nat with (S i + j)%nat by lia. exact Hall.
Qed.

Lemma qualityData_records (h : Host.t) :
  sane_clock (Host.clock h) ->
  exists recs,
    generateMockQualityData h = Some (recs, hadvance h 1600 200) /\
    length recs = 200%nat /\
    forall i r, recs !! i = Some r ->
      (i < 200)%nat /\
      qualityBody i [] (hadvance h (8 * i) i)
      = Some ([r], hadvance h (8 * S i) (S i)).
Proof.
  intros Hclock.
  destruct (qualityLoop_records h Hclock 200 0 [] eq_refl)
    as (recs & Hrun & Hlen & Hall).
  change (8 * 0)%nat with 0%nat in Hrun. rewrite hadvance_0 in Hrun.
  exists recs. split; [exact Hrun|]. split; [exact Hlen|].
  intros i r Hi. split; [apply lookup_lt_Some in Hi; lia|].
  exact (Hall i r Hi).
Qed.

Lemma Some_singleton_inj {A B : Type} (a c : A) (b d : B) :
  Some ([a], b) = Some ([c], d) -> a = c.
Proof. congruence. Qed.

(** X13: read on a clock of plausible instants, the quality-control
    generator returns 200 records after 1600 draws and 200 readings of
    the clock.  Record [i] is stamped [i] hours before its own reading of
    the clock, belongs to profile [i / 20 + 1] (ten profiles of twenty
    records, named in decimal digits), and has a quality flag among 1, 2,
    3 and 4 and an outlier score. *)
Theorem quality_data_series (h : Host.t) :
  sane_clock (Host.clock h) ->
  exists recs,
    generateMockQualityData h = Some (recs, hadvance h 1600 200) /\
    length recs = 200%nat /\
    forall i r, recs !! i = Some r ->
      QualityData.timestamp r
      = Date_isoFormat
          (Host.clock h (Host.clock_pos h + i) - 3600000 * Z.of_nat i) /\
      QualityData.profileId r
      = ("profile_" ++ pretty (Z.of_nat (i / 20 + 1)))%string /\
      (1 <= i / 20 + 1 <= 10)%nat /\
      (QualityData.qualityFlag r = 1 \/ QualityData.qualityFlag r = 2 \/
       QualityData.qualityFlag r = 3 \/ QualityData.qualityFlag r = 4) /\
      is_Some (QualityData.outlierScore r).
Proof.
  intros Hclock.
  destruct (qualityData_records h Hclock) as (recs & Hrun & Hlen & Hall).
  exists recs. split; [exact Hrun|]. split; [exact Hlen|].
  intros i r Hr. destruct (Hall i r Hr) as [Hi Hbody].
  pose proof (qualityBody_run h i [] Hi Hclock) as Hexp.
  cbv zeta in Hexp. cbn [app] in Hexp. rewrite Hbody in Hexp.
  apply Some_singleton_inj in Hexp. subst r.
  cbn [QualityData.timestamp QualityData.profileId QualityData.qualityFlag
       QualityData.outlierScore].
  split; [reflexivity|]. split; [reflexivity|].
  split.
  { pose proof (Nat.Div0.div_lt_upper_bound i 20 10 ltac:(lia)). lia. }
  split.
  { destruct (Rlt_dec _ 0.85); destruct (Rlt_dec _ _); auto. }
  eexists; reflexivity.
Qed.

(** X14: when moreover every draw lies in [0, 1), each record names one
    of the five parameters and one of the five tests, its depth lies in
    [0, 2000), its value in [0, 100) and its outlier score in [0, 5); its
    confidence lies from 85 to 100 when the flag is 1 or 2 and from 60 to
    85 when it is 3 or 4.  The ends of the confidence ranges are included:
    in doubles the sum for a draw just below 1 can round to the upper end,
    so that a confidence of 85 is found with either kind of flag. *)
Theorem quality_data_ranges (h : Host.t) :
  sane_clock (Host.clock h) ->
  unit_stream (World.rnd (Host.world h)) ->
  exists recs,
    generateMockQualityData h = Some (recs, hadvance h 1600 200) /\
    forall i r, recs !! i = Some r ->
      (exists p, QualityData.parameter r = Some p /\
         p ∈ ["temperature"%string; "salinity"%string; "pressure"%string;
              "oxygen"%string; "chlorophyll"%string]) /\
      (exists t, QualityData.qcTest r = Some t /\
         t ∈ ["RangeTest"%string; "SpikeTest"%string;
              "RateOfChangeTest"%string; "StuckValueTest"%string;
              "GradientTest"%string]) /\
      0 <= QualityData.depth r < 2000 /\
      0 <= QualityData.value r < 100 /\
      (exists o, QualityData.outlierScore r = Some o /\ 0 <= o < 5) /\
      (QualityData.qualityFlag r <= 2 ->
       85 <= QualityData.confidence r <= 100) /\
      (2 < QualityData.qualityFlag r ->
       60 <= QualityData.confidence r <= 85).
Proof.
  intros Hclock Hunit.
  destruct (qualityData_records h Hclock) as (recs & Hrun & _ & Hall).
  exists recs. split; [exact Hrun|].
  intros i r Hr. destruct (Hall i r Hr) as [Hi Hbody].
  pose proof (qualityBody_run h i [] Hi Hclock) as Hexp.
  cbv zeta in Hexp. cbn [app] in Hexp. rewrite Hbody in Hexp.
  apply Some_singleton_inj in Hexp. subst r.
  cbn [QualityData.parameter QualityData.qcTest QualityData.depth
       QualityData.value QualityData.qualityFlag QualityData.outlierScore
       QualityData.confidence].
  pose proof (fun k => Hunit
     (World.rnd_pos (Host.world h) + (8 * i + k))%nat) as Hu.
  pose proof (Hu 0%nat) as U0. pose proof (Hu 3%nat) as U3.
  pose proof (Hu 4%nat) as U4. pose proof (Hu 5%nat) as U5.
  pose proof (Hu 6%nat) as U6. pose proof (Hu 7%nat) as U7.
  split.
  { match goal with
    | |- exists p, index_Z ?l (Math_floor (?d * _)) = _ /\ _ =>
        destruct (index_Z_floor_scaled l d U0 ltac:(discriminate))
          as [x Hx]
    end.
    exists x. split; [exact Hx|]. exact (index_Z_elem_of _ _ _ Hx). }
  split.
  { match goal with
    | |- exists p, index_Z ?l (Math_floor (?d * _)) = _ /\ _ =>
        destruct (index_Z_floor_scaled l d U5 ltac:(discriminate))
          as [x Hx]
    end.
    exists x. split; [exact Hx|]. exact (index_Z_elem_of _ _ _ Hx). }
  split; [lra|]. split; [lra|].
  split; [eexists; split; [reflexivity|lra]|].
  split.
  - intros Hle. destruct (Rle_dec _ 2) as [_|Hn]; [lra|contradiction].
  - intros Hgt. destruct (Rle_dec _ 2) as [Hle|_]; lra.
Qed.
End QualitySeries.

Lemma quality_data_series_witness :
  exists recs,
    @generateMockQualityData sampleFormatter sampleNumbers
      (host_of (1 / 2) 1700000000000)
    = Some (recs, hadvance (host_of (1 / 2) 1700000000000) 1600 200) /\
    length recs = 200%nat.
Proof.
  destruct (@quality_data_series sampleFormatter sampleNumbers
              (host_of (1 / 2) 1700000000000)
              (sane_clock_const 1700000000000 ltac:(lia)))
    as (recs & Hrun & Hlen & _).
  exists recs. split; [exact Hrun|exact Hlen].
Defined.

Lemma quality_data_ranges_witness :
  exists recs,
    @generateMockQualityData sampleFormatter sampleNumbers
      (host_of (1 / 2) 1700000000000)
    = Some (recs, hadvance (host_of (1 / 2) 1700000000000) 1600 200).
Proof.
  destruct (@quality_data_ranges sampleFormatter sampleNumbers
              (host_of (1 / 2) 1700000000000)
              (sane_clock_const 1700000000000 ltac:(lia))
              (unit_stream_const (1 / 2) ltac:(lra)))
    as (recs & Hrun & _).
  exists recs. exact Hrun.
Defined.

(** ** Rounding to a number of decimals *)

Lemma pow10_pos (d : nat) : 0 < 10 ^ d.
Proof. apply pow_lt. lra. Qed.

(** Rounding a number that is not negative stays between two points of
    the grid. *)
Lemma round_half_up_between (y : R) (lo hi : Z) :
  IZR lo <= y <= IZR hi ->
  (lo <= Zfloor (y + 1 / 2) <= hi)%Z.
Proof.
  intros [Hlo Hhi].
  pose proof (Zfloor_bound (y + 1 / 2)) as [Hf1 Hf2].
  split.
  - apply Zfloor_lub. lra.
  - assert (IZR (Zfloor (y + 1 / 2)) < IZR (hi + 1)) as Hlt
        by (rewrite plus_IZR; lra).
    apply lt_IZR in Hlt. lia.
Qed.

Lemma toFixed_between_grid (d : nat) (x : R) (lo hi : Z) :
  IZR lo / 10 ^ d <= x <= IZR hi / 10 ^ d ->
  IZR lo / 10 ^ d <= parseFloat_toFixed d x <= IZR hi / 10 ^ d.
Proof.
  intros [Hlo Hhi]. pose proof (pow10_pos d) as HP.
  unfold parseFloat_toFixed.
  destruct (Rlt_dec (Rabs x) (10 ^ 21)) as [_|_]; [|split; assumption].
  assert (IZR lo <= x * 10 ^ d <= IZR hi) as [Hlo' Hhi'].
  { split.
    - apply (Rmult_le_compat_r (10 ^ d)) in Hlo; [|lra].
      unfold Rdiv in Hlo. rewrite Rmult_assoc, Rinv_l, Rmult_1_r in Hlo
        by lra. exact Hlo.
    - apply (Rmult_le_compat_r (10 ^ d)) in Hhi; [|lra].
      unfold Rdiv in Hhi. rewrite Rmult_assoc, Rinv_l, Rmult_1_r in Hhi
        by lra. exact Hhi. }
  assert (forall a b : Z, (a <= b)%Z -> IZR a / 10 ^ d <= IZR b / 10 ^ d)
    as Hdiv.
  { intros a b Hab. apply IZR_le in Hab.
    apply Rmult_le_compat_r; [|exact Hab].
    apply Rlt_le, Rinv_0_lt_compat, HP. }
  destruct (Rle_dec 0 x) as [Hx|Hx].
  - rewrite Rabs_pos_eq, Rmult_1_l by exact Hx.
    destruct (round_half_up_between (x * 10 ^ d) lo hi (conj Hlo' Hhi'))
      as [H1 H2].
    split; apply Hdiv; assumption.
  - rewrite Rabs_left by lra.
    destruct (round_half_up_between (- x * 10 ^ d) (- hi) (- lo))
      as [H1 H2].
    { rewrite !opp_IZR. lra. }
    replace (-1 * IZR (Zfloor (- x * 10 ^ d + 1 / 2)))
      with (IZR (- Zfloor (- x * 10 ^ d + 1 / 2)))
      by (rewrite opp_IZR; ring).
    split; apply Hdiv; lia.
Qed.

Lemma toFixed_between (d : nat) (x : R) (lo hi : Z) :
  IZR lo <= x <= IZR hi ->
  IZR lo <= parseFloat_toFixed d x <= IZR hi.
Proof.
  intros Hx. pose proof (pow10_pos d) as HP.
  assert (forall z : Z, IZR z = IZR (z * 10 ^ Z.of_nat d) / 10 ^ d) as Hz.
  { intros z. rewrite mult_IZR, <- pow_IZR. field. lra. }
  rewrite (Hz lo), (Hz hi) in Hx |- *.
  apply toFixed_between_grid. exact Hx.
Qed.

(** Rounding moves a number by half a unit of the last decimal at
    most. *)
Lemma toFixed_error (d : nat) (x : R) :
  Rabs (parseFloat_toFixed d x - x) <= / (2 * 10 ^ d).
Proof.
  pose proof (pow10_pos d) as HP.
  assert (0 < / (2 * 10 ^ d)) as Hh by (apply Rinv_0_lt_compat; lra).
  unfold parseFloat_toFixed.
  destruct (Rlt_dec (Rabs x) (10 ^ 21)) as [_|_].
  2:{ rewrite Rminus_diag, Rabs_R0. lra. }
  assert (forall y, 0 <= y ->
            Rabs (IZR (Zfloor (y * 10 ^ d + 1 / 2)) / 10 ^ d - y)
            <= / (2 * 10 ^ d)) as Hpos.
  { intros y Hy.
    pose proof (Zfloor_bound (y * 10 ^ d + 1 / 2)) as [Hf1 Hf2].
    set (n := IZR (Zfloor (y * 10 ^ d + 1 / 2))) in *.
    replace (n / 10 ^ d - y) with ((n - y * 10 ^ d) / 10 ^ d)
      by (field; lra).
    replace (/ (2 * 10 ^ d)) with ((1 / 2) / 10 ^ d) by (field; lra).
    unfold Rdiv at 1 3. rewrite Rabs_mult.
    rewrite (Rabs_pos_eq (/ 10 ^ d))
      by (apply Rlt_le, Rinv_0_lt_compat, HP).
    apply Rmult_le_compat_r; [apply Rlt_le, Rinv_0_lt_compat, HP|].
    apply Rabs_le. lra. }
  destruct (Rle_dec 0 x) as [Hx|Hx].
  - rewrite (Rabs_pos_eq x), Rmult_1_l by exact Hx. apply Hpos, Hx.
  - rewrite (Rabs_left x) by lra.
    specialize (Hpos (- x) ltac:(lra)).
    rewrite <- Rabs_Ropp.
    replace (- (-1 * IZR (Zfloor (- x * 10 ^ d + 1 / 2)) / 10 ^ d - x))
      with (IZR (Zfloor (- x * 10 ^ d + 1 / 2)) / 10 ^ d - - x)
      by (field; lra).
    exact Hpos.
Qed.

(** ** Runs that return *)

Lemma returns_hret {A} (x : A) (Q : A -> Prop) :
  Q x -> returns (hret x) Q.
Proof. intros HQ h Hh. exists x, h. auto. Qed.

Lemma returns_hbind {A B} (m : HostM A) (k : A -> HostM B)
    (P : A -> Prop) (Q : B -> Prop) :
  returns m P -> (forall x, P x -> returns (k x) Q) ->
  returns (hbind m k) Q.
Proof.
  intros Hm Hk h Hh. destruct (Hm h Hh) as (x & h1 & Hrun & Hh1 & HP).
  destruct (Hk x HP h1 Hh1) as (y & h2 & Hrun' & Hh2 & HQ).
  exists y, h2. rewrite (hbind_Some _ _ _ _ _ Hrun). auto.
Qed.

Lemma returns_assoc {A B C} (m : HostM A) (k1 : A -> HostM B)
    (k2 : B -> HostM C) (Q : C -> Prop) :
  returns (hbind m (fun x => hbind (k1 x) k2)) Q ->
  returns (hbind (hbind m k1) k2) Q.
Proof.
  intros Hm h Hh. rewrite hbind_assoc. exact (Hm h Hh).
Qed.

Lemma returns_hret_bind {A B} (x : A) (k : A -> HostM B) (Q : B -> Prop) :
  returns (k x) Q -> returns (hbind (hret x) k) Q.
Proof. intros Hk h Hh. rewrite hbind_hret. exact (Hk h Hh). Qed.

Lemma returns_weaken {A} (m : HostM A) (P Q : A -> Prop) :
  returns m P -> (forall x, P x -> Q x) -> returns m Q.
Proof.
  intros Hm HPQ h Hh. destruct (Hm h Hh) as (x & h' & Hrun & Hh' & HP).
  exists x, h'. auto.
Qed.

Lemma good_hadvance h d c : good h -> good (hadvance h d c).
Proof. intros [Hc Hu]. split; assumption. Qed.

Lemma returns_random : returns random (fun r => 0 <= r < 1).
Proof.
  intros h Hh. eexists _, _. split; [apply run_random_h|].
  split; [apply good_hadvance, Hh|]. apply Hh.
Qed.

Lemma returns_now :
  returns Date_now (fun t => (0 <= t <= 8000000000000000)%Z).
Proof.
  intros h Hh. eexists _, _. split; [apply run_now|].
  split; [apply good_hadvance, Hh|]. apply Hh.
Qed.

Lemma Date_of_IZR (t : Z) :
  (Z.abs t <= 8640000000000000)%Z -> Date_of (IZR t) = Some t.
Proof.
  intros Ht. unfold Date_of.
  destruct (Rle_dec (Rabs (IZR t)) maxTime) as [_|Hn].
  - rewrite Rtrunc_IZR. reflexivity.
  - exfalso. apply Hn. rewrite <- abs_IZR. unfold maxTime.
    apply IZR_le. exact Ht.
Qed.

Lemma returns_new :
  returns Date_new
    (fun d => exists t, d = Some t /\ (0 <= t <= 8000000000000000)%Z).
Proof.
  unfold Date_new. eapply returns_hbind; [apply returns_now|].
  intros t Ht. cbv beta in Ht. apply returns_hret. exists t.
  split; [apply Date_of_IZR; lia|exact Ht].
Qed.

Lemma returns_text `{DateFormatter} (t : Z) :
  returns (Date_text (Some t)) (fun s => s = Date_isoFormat t).
Proof. apply returns_hret. reflexivity. Qed.

Lemma returns_toISOString `{DateFormatter} (t : R) :
  Rabs t <= maxTime ->
  returns (Date_toISOString t) (fun s => s = Date_isoFormat (Rtrunc t)).
Proof.
  intros Ht h Hh. exists (Date_isoFormat (Rtrunc t)), h.
  split; [apply run_toISOString, Ht|]. auto.
Qed.

Lemma returns_defined {A} (x : A) :
  returns (defined (Some x)) (fun y => y = x).
Proof. apply returns_hret. reflexivity. Qed.

(** ** The loop over the points of [generateMockTrajectoryData] *)

Lemma Rabs_le_bounds (x y : R) : Rabs x <= y -> - y <= x <= y.
Proof. unfold Rabs. destruct (Rcase_abs x); lra. Qed.

(** Clamping a step from inside an interval shortens the step. *)
Lemma clamp_step (lo hi prev d : R) :
  lo <= prev <= hi ->
  lo <= Math_max lo (Math_min hi (prev + d)) <= hi /\
  Rabs (Math_max lo (Math_min hi (prev + d)) - prev) <= Rabs d.
Proof.
  intros [Hlo Hhi]. unfold Math_max, Math_min, Rmax, Rmin.
  destruct (Rle_dec hi (prev + d)); destruct (Rle_dec lo _);
    (split; [lra|]); apply Rabs_le;
    destruct (Rcase_abs d) as [Hd|Hd];
    [rewrite (Rabs_left d Hd)|rewrite (Rabs_right d Hd)
    |rewrite (Rabs_left d Hd)|rewrite (Rabs_right d Hd)
    |rewrite (Rabs_left d Hd)|rewrite (Rabs_right d Hd)
    |rewrite (Rabs_left d Hd)|rewrite (Rabs_right d Hd)]; lra.
Qed.

(** A leg of at most 1 degree of latitude and 1.5 of longitude. *)
Lemma leg_bound (a b : R) :
  Rabs a <= 1 -> Rabs b <= 1.5 ->
  0 <= Math_sqrt (a * a + b * b) * 111 <= 200.133.
Proof.
  intros Ha Hb. apply Rabs_le_bounds in Ha, Hb.
  assert (0 <= a * a + b * b <= 1.803 * 1.803) as [H0 H1] by nra.
  pose proof (sqrt_pos (a * a + b * b)) as Hs.
  assert (Math_sqrt (a * a + b * b) <= 1.803) as Hle.
  { unfold Math_sqrt. rewrite <- (sqrt_square 1.803) by lra.
    apply sqrt_le_1_alt. exact H1. }
  unfold Math_sqrt in *. lra.
Qed.

Section PointLoop.
Context `{DateFormatter} `{Calendar}.
Variables (centerLat centerLon boundRange : R) (n : nat) (t0 : Z).
Variables (zlat zlon zb : Z).
Hypothesis Hlat : centerLat = IZR zlat.
Hypothesis Hlon : centerLon = IZR zlon.
Hypothesis Hb : boundRange = IZR zb.
Hypothesis Hstamp :
  forall i, (i < n)%nat ->
    exists t,
      Date_setDate (Some t0)
        ((fun d => d + Z.of_nat i * 10)%Z <$> Date_getDate (Some t0))
      = Some t.

Lemma pointBody_returns (i : nat) (st : Walk.t) :
  (i < n)%nat ->
  walk_ok centerLat centerLon boundRange (Z.of_nat n) i st ->
  returns
    (pointBody centerLat centerLon boundRange (Z.of_nat n) (Some t0) i st)
    (walk_ok centerLat centerLon boundRange (Z.of_nat n) (S i)).
Proof.
  intros Hi (Hlen & Hclat & Hclon & Hdist & Hpts & Hlast).
  unfold pointBody. cbv zeta.
  destruct (Hstamp i Hi) as [t ->].
  eapply returns_hbind; [apply returns_random|]. intros r1 Hr1.
  eapply returns_hbind; [apply returns_random|]. intros r2 Hr2.
  eapply returns_hbind; [apply returns_text|]. intros text ->.
  eapply returns_hbind; [apply returns_random|]. intros r3 Hr3.
  eapply returns_hbind; [apply returns_random|]. intros r4 Hr4.
  eapply returns_hbind; [apply returns_random|]. intros r5 Hr5.
  apply returns_hret. cbv beta in *.
  destruct (clamp_step (centerLat - boundRange) (centerLat + boundRange)
              (Walk.currentLat st) ((r1 - 0.5) * 2) Hclat) as [Hin1 Hs1].
  destruct (clamp_step (centerLon - boundRange) (centerLon + boundRange)
              (Walk.currentLon st) ((r2 - 0.5) * 3) Hclon) as [Hin2 Hs2].
  set (lat' := Math_max (centerLat - boundRange)
                 (Math_min (centerLat + boundRange)
                    (Walk.currentLat st + (r1 - 0.5) * 2))) in *.
  set (lon' := Math_max (centerLon - boundRange)
                 (Math_min (centerLon + boundRange)
                    (Walk.currentLon st + (r2 - 0.5) * 3))) in *.
  assert (Rabs ((r1 - 0.5) * 2) <= 1) as Hd1 by (apply Rabs_le; lra).
  assert (Rabs ((r2 - 0.5) * 3) <= 1.5) as Hd2 by (apply Rabs_le; lra).
  assert (centerLat - boundRange <= parseFloat_toFixed 6 lat'
          <= centerLat + boundRange) as Hr6lat.
  { rewrite Hlat, Hb, <- minus_IZR, <- plus_IZR in *.
    apply toFixed_between. exact Hin1. }
  assert (centerLon - boundRange <= parseFloat_toFixed 6 lon'
          <= centerLon + boundRange) as Hr6lon.
  { rewrite Hlon, Hb, <- minus_IZR, <- plus_IZR in *.
    apply toFixed_between. exact Hin2. }
  unfold walk_ok. cbn [Walk.points Walk.currentLat Walk.currentLon
                       Walk.totalDistance].
  split; [rewrite length_app; cbn; lia|].
  split; [exact Hin1|]. split; [exact Hin2|].
  split.
  { destruct i as [|i]; cbn [Nat.ltb Nat.leb].
    - cbn in Hdist |- *. lra.
    - pose proof (leg_bound (lat' - Walk.currentLat st)
                    (lon' - Walk.currentLon st)
                    ltac:(lra) ltac:(lra)) as Hleg.
      replace (S (S i) - 1)%nat with (S (S i - 1))%nat by lia.
      rewrite (S_INR (S i - 1)). lra. }
  split.
  { intros k p Hk. destruct (decide (k < i)%nat) as [Hlt|Hge].
    - rewrite lookup_app_l in Hk by lia. exact (Hpts k p Hk).
    - rewrite lookup_app_r in Hk by lia.
      destruct (k - length (Walk.points st))%nat as [|j] eqn:Hj;
        [|cbn in Hk; try rewrite lookup_nil in Hk; discriminate].
      cbn in Hk. apply (inj Some) in Hk. subst p.
      assert (k = i) as -> by lia.
      unfold point_ok. cbn.
      split; [reflexivity|]. split; [reflexivity|].
      split; [exact Hr6lat|]. split; [exact Hr6lon|].
      split; [eexists; split; [reflexivity|lra]|].
      split; eexists; (split; [reflexivity|lra]). }
  intros p Hp. rewrite last_snoc in Hp. apply (inj Some) in Hp. subst p.
  cbn. split; reflexivity.
Qed.

Lemma pointLoop_returns (fuel i : nat) (st : Walk.t) :
  (i + fuel = n)%nat ->
  walk_ok centerLat centerLon boundRange (Z.of_nat n) i st ->
  returns
    (pointLoop fuel centerLat centerLon boundRange (Z.of_nat n) (Some t0)
       i st)
    (walk_ok centerLat centerLon boundRange (Z.of_nat n) n).
Proof.
  revert i st. induction fuel as [|fuel IH]; intros i st Hi Hok.
  - assert (i = n) as -> by lia. cbn [pointLoop].
    rewrite (proj2 (Z.ltb_ge _ _)) by lia.
    apply returns_hret. exact Hok.
  - cbn [pointLoop]. rewrite (proj2 (Z.ltb_lt _ _)) by lia.
    eapply returns_hbind; [apply pointBody_returns; [lia|exact Hok]|].
    intros st' Hok'. apply IH; [lia|exact Hok'].
Qed.
End PointLoop.

(** ** The whole run of [generateMockTrajectoryData] *)

(** A draw scaled to a whole number of [n] choices. *)
Lemma floor_draw (r : R) (n : Z) :
  0 <= r < 1 -> (0 < n)%Z -> (0 <= Zfloor (r * IZR n) <= n - 1)%Z.
Proof.
  intros [H0 H1] Hn. apply IZR_lt in Hn.
  pose proof (Zfloor_bound (r * IZR n)) as [Hlo Hhi].
  split.
  - apply (Zfloor_lub 0%Z). nra.
  - assert (IZR (Zfloor (r * IZR n)) < IZR n) as Hlt by nra.
    apply lt_IZR in Hlt. lia.
Qed.

Lemma index_Z_draw {A} (names : list A) (r : R) (n : Z) :
  0 <= r < 1 -> n = Z.of_nat (length names) -> (0 < n)%Z ->
  exists s, index_Z names (Math_floor (r * IZR n)) = Some s /\ s ∈ names.
Proof.
  intros Hr Hn Hpos. destruct (floor_draw r n Hr Hpos) as [H0 H1].
  unfold index_Z, Math_floor.
  destruct (Z.ltb_spec (Zfloor (r * IZR n)) 0) as [|_]; [lia|].
  destruct (lookup_lt_is_Some_2 names (Z.to_nat (Zfloor (r * IZR n))))
    as [s Hs]; [lia|].
  exists s. split; [exact Hs|]. exact (list_elem_of_lookup_2 _ _ _ Hs).
Qed.

Lemma whole_draw (r : R) (n a : Z) :
  0 <= r < 1 -> (0 < n)%Z ->
  whole_in a (a + n - 1) (IZR (Math_floor (r * IZR n)) + IZR a).
Proof.
  intros Hr Hn. destruct (floor_draw r n Hr Hn) as [H0 H1].
  exists (Zfloor (r * IZR n) + a)%Z. split; [|lia].
  rewrite plus_IZR. reflexivity.
Qed.

Lemma Number_toString_whole `{NumberFormatter} (z : Z) :
  (Z.abs z < 10 ^ 21)%Z -> Number_toString (IZR z) = pretty z.
Proof.
  intros Hz. unfold Number_toString. rewrite ZfloorZ.
  destruct (Req_dec_T (IZR z) (IZR z)) as [_|Hne]; [|contradiction].
  destruct (Rlt_dec (Rabs (IZR z)) (10 ^ 21)) as [_|Hbig]; [reflexivity|].
  exfalso. apply Hbig. rewrite <- abs_IZR.
  replace (10 ^ 21) with (IZR (10 ^ 21)) by (rewrite pow_IZR; reflexivity).
  apply IZR_lt. exact Hz.
Qed.

Lemma Zfloor_div_Z (m d : Z) :
  (0 < d)%Z -> Zfloor (IZR m / IZR d) = (m `div` d)%Z.
Proof.
  intros Hd. apply Zfloor_eq.
  pose proof (Z.div_mod m d ltac:(lia)) as Hm.
  pose proof (Z.mod_pos_bound m d Hd) as Hr.
  assert (0 < IZR d) as Hd' by (apply IZR_lt in Hd; exact Hd).
  assert (IZR m = IZR d * IZR (m `div` d) + IZR (m `mod` d)) as HmR
      by (rewrite <- mult_IZR, <- plus_IZR; f_equal; exact Hm).
  destruct Hr as [Hr0 Hr1]. apply IZR_le in Hr0. apply IZR_lt in Hr1.
  split.
  - apply Rmult_le_reg_r with (IZR d); [exact Hd'|].
    unfold Rdiv. rewrite Rmult_assoc, Rinv_l, Rmult_1_r by lra. nra.
  - apply Rmult_lt_reg_r with (IZR d); [exact Hd'|].
    unfold Rdiv. rewrite Rmult_assoc, Rinv_l, Rmult_1_r by lra. nra.
Qed.

Lemma region_whole (region : Region.t) :
  region ∈ regions ->
  exists zlat zlon zb,
    fst (Region.center region) = IZR zlat /\
    snd (Region.center region) = IZR zlon /\
    Region.bounds region = IZR zb /\
    (0 <= zb /\ -37 <= zlat - zb /\ zlat + zb <= 28 /\
     55 <= zlon - zb /\ zlon + zb <= 101)%Z.
Proof.
  unfold regions. intros Hin.
  repeat (apply elem_of_cons in Hin as [->|Hin]);
    [..|apply elem_of_nil in Hin; contradiction];
    cbn; eexists _, _, _;
    (split; [reflexivity|]); (split; [reflexivity|]);
    (split; [reflexivity|]); lia.
Qed.

Ltac hrandom r Hr :=
  eapply returns_hbind; [apply returns_random|];
  intros r Hr; cbv beta in Hr.
Ltac hnow t Ht :=
  eapply returns_hbind; [apply returns_now|];
  intros t Ht; cbv beta in Ht.
Ltac hnew t Ht :=
  eapply returns_hbind; [apply returns_new|];
  intros ? (t & -> & Ht).
Ltac htext :=
  eapply returns_hbind; [apply returns_text|]; intros ? ->.

Lemma recent_room (now : Z) (r days : R) :
  (0 <= now <= 8000000000000000)%Z -> 0 <= r < 1 -> 0 <= days <= 365 ->
  Rabs (IZR now - r * days * 24 * 60 * 60 * 1000) <= maxTime.
Proof.
  intros [Hn0 Hn1] Hr Hd. apply IZR_le in Hn0, Hn1. unfold maxTime.
  assert (0 <= r * days <= 365) by nra.
  apply Rabs_le. lra.
Qed.

Lemma cycle_range (m : Z) (r : R) :
  0 <= r < 1 ->
  (m `div` 10 <= Math_floor (IZR m / 10) + Math_floor (r * 5)
   <= m `div` 10 + 4)%Z.
Proof.
  intros Hr. pose proof (floor_draw r 5 Hr ltac:(lia)) as Hf.
  unfold Math_floor. rewrite (Zfloor_div_Z m 10) by lia. lia.
Qed.

(** A salinity rounded to two decimals stays between 34.5 and 36.5. *)
Lemma toFixed_half_grid (r : R) :
  0 <= r < 1 ->
  34.5 <= parseFloat_toFixed 2 (r * 2 + 34.5) <= 36.5.
Proof.
  intros Hr.
  replace 34.5 with (IZR 3450 / 10 ^ 2) by lra.
  replace 36.5 with (IZR 3650 / 10 ^ 2) by lra.
  apply toFixed_between_grid. lra.
Qed.

Lemma slice_to_take {A} (l : list A) (k : Z) :
  (0 <= k)%Z -> Array_slice_to k l = take (Z.to_nat k) l.
Proof.
  intros Hk. unfold Array_slice_to, Array_slice.
  rewrite (proj2 (Z.ltb_ge k 0)) by lia.
  rewrite drop_0, Nat.sub_0_r. reflexivity.
Qed.

(** The text of a whole number picked by a draw. *)
Lemma whole_text `{NumberFormatter} (r : R) (n a : Z) :
  0 <= r < 1 -> (0 < n <= 100000)%Z -> (0 <= a <= 100000)%Z ->
  exists z,
    Number_toString (IZR (Math_floor (r * IZR n)) + IZR a) = pretty z /\
    (a <= z <= a + n - 1)%Z.
Proof.
  intros Hr Hn Ha. pose proof (floor_draw r n Hr ltac:(lia)) as Hf.
  unfold Math_floor. rewrite <- plus_IZR.
  eexists. split; [apply Number_toString_whole; lia|lia].
Qed.

Lemma whole_text0 `{NumberFormatter} (r : R) (n : Z) :
  0 <= r < 1 -> (0 < n <= 100000)%Z -> (0 <= 0)%Z ->
  exists z,
    Number_toString (IZR (Math_floor (r * IZR n))) = pretty z /\
    (0 <= z <= n - 1)%Z.
Proof.
  intros Hr Hn _. pose proof (floor_draw r n Hr ltac:(lia)) as Hf.
  unfold Math_floor.
  eexists. split; [apply Number_toString_whole; lia|lia].
Qed.

(** The text of a serial number. *)
Lemma serial_text `{NumberFormatter} (r : R) :
  0 <= r < 1 ->
  exists z,
    Number_toString (IZR (Math_floor (r * 90000 + 10000))) = pretty z /\
    (10000 <= z <= 99999)%Z.
Proof.
  intros Hr. pose proof (floor_draw r 90000 Hr ltac:(lia)) as Hf.
  unfold Math_floor. rewrite Zfloor_addz.
  eexists. split; [apply Number_toString_whole; lia|lia].
Qed.

Ltac hstep :=
  lazymatch goal with
  | |- returns (hbind (hbind _ _) _) _ => apply returns_assoc
  | |- returns (hbind (hret _) _) _ => apply returns_hret_bind
  | |- returns (hbind (if ?b then _ else _) _) _ => destruct b
  | |- returns (hbind random _) _ =>
      let r := fresh "r" in let Hr := fresh "Hr" in hrandom r Hr
  | |- returns (hbind Date_now _) _ =>
      let t := fresh "now" in let Ht := fresh "Hnow" in hnow t Ht
  | |- returns (hbind Date_new _) _ =>
      let t := fresh "now" in let Ht := fresh "Hnow" in hnew t Ht
  | |- returns (hbind (Date_text (Some _)) _) _ => htext
  | |- returns (hbind (Date_toISOString _) _) _ =>
      eapply returns_hbind;
      [apply returns_toISOString; apply recent_room;
       [assumption|assumption|lra]|];
      intros ? ->
  end.

Ltac in_list :=
  repeat first [apply list_elem_of_here|apply list_elem_of_further].

Section TrajectoryRun.
Context `{DateFormatter} `{NumberFormatter} `{Calendar}.
Hypothesis Hcal : sane_calendar.

Lemma startDate_valid (now k : Z) :
  (0 <= now <= 8000000000000000)%Z -> (0 <= k <= 23)%Z ->
  exists t,
    Date_setMonth (Some now) ((fun m => m - k)%Z <$> Date_getMonth (Some now))
    = Some t /\
    (Z.abs t <= 8100000000000000)%Z.
Proof.
  intros Hnow Hk. destruct Hcal as [Hmonth _].
  specialize (Hmonth now k Hk). cbn.
  eexists. split; [apply Date_of_IZR; lia|lia].
Qed.

Lemma stamp_valid (t : Z) (i : nat) :
  (Z.abs t <= 8100000000000000)%Z -> (i < 69)%nat ->
  exists t',
    Date_setDate (Some t)
      ((fun d => d + Z.of_nat i * 10)%Z <$> Date_getDate (Some t))
    = Some t'.
Proof.
  intros Ht Hi. destruct Hcal as [_ Hdate].
  specialize (Hdate t (Z.of_nat i * 10)%Z ltac:(lia)). cbn.
  eexists. apply Date_of_IZR. lia.
Qed.

Lemma generateMockTrajectoryData_returns (floatId : string) :
  returns (generateMockTrajectoryData floatId) (trajectory_ok floatId).
Proof.
  unfold generateMockTrajectoryData. cbv zeta.
  hrandom r0 Hr0.
  destruct (index_Z_draw regions r0 5 Hr0 eq_refl ltac:(lia))
    as (region & Hregion & Hin).
  change (INR (length regions)) with (INR 5).
  replace (INR 5) with 5 by (cbn; lra).
  rewrite Hregion.
  eapply returns_hbind; [apply returns_defined|]. intros ? ->.
  destruct (region_whole region Hin)
    as (zlat & zlon & zb & Hlat & Hlon & Hb & Hbox).
  hrandom r1 Hr1.
  pose proof (floor_draw r1 50 Hr1 ltac:(lia)) as Hcount.
  hnew now Hnow.
  hrandom r2 Hr2.
  destruct (startDate_valid now (Math_floor (r2 * 24))
              Hnow (floor_draw r2 24 Hr2 ltac:(lia)))
    as (t0 & Hstart & Ht0).
  rewrite !Hstart.
  hrandom r3 Hr3. hrandom r4 Hr4.
  remember (Math_floor (r1 * 50) + 20)%Z as pc eqn:Epc.
  unfold Math_floor in Epc.
  assert (20 <= pc <= 69)%Z as Hpc by lia.
  replace pc with (Z.of_nat (Z.to_nat pc)) by lia.
  rewrite Nat2Z.id.
  remember (Z.to_nat pc) as n eqn:En.
  assert (20 <= n <= 69)%nat as Hn by lia.
  eapply returns_hbind.
  { apply (pointLoop_returns _ _ _ n t0 zlat zlon zb Hlat Hlon Hb).
    - intros i Hi. apply (stamp_valid t0 i Ht0). lia.
    - lia.
    - assert (0 <= Region.bounds region) as Hb0
          by (rewrite Hb; apply IZR_le; lia).
      unfold walk_ok. cbn.
      split; [reflexivity|]. split; [nra|]. split; [nra|].
      split; [lra|]. split.
      + intros k p Hk. rewrite lookup_nil in Hk. discriminate.
      + intros p Hp. discriminate. }
  intros st Hwalk.
  repeat hstep.
  all: apply returns_hret.
  all: exists region, n, (Walk.currentLat st), (Walk.currentLon st),
         (Walk.totalDistance st).
  all: cbn [FloatTrajectory.floatId FloatTrajectory.floatNumber
            FloatTrajectory.startDate FloatTrajectory.endDate
            FloatTrajectory.platformType FloatTrajectory.status
            FloatTrajectory.points FloatTrajectory.totalDistance
            FloatTrajectory.missionDuration FloatTrajectory.wmo
            FloatTrajectory.platformMaker FloatTrajectory.floatSerial
            FloatTrajectory.transmissionSystem FloatTrajectory.ptt
            FloatTrajectory.owner FloatTrajectory.dataCentre
            FloatTrajectory.sensors FloatTrajectory.deploymentDate
            FloatTrajectory.deploymentLatitude
            FloatTrajectory.deploymentLongitude FloatTrajectory.ship
            FloatTrajectory.cruise FloatTrajectory.project
            FloatTrajectory.principalInvestigator FloatTrajectory.age
            FloatTrajectory.lastProfileDate FloatTrajectory.cycle
            FloatTrajectory.lastSurfaceData FloatTrajectory.lastBottomData
            FloatTrajectory.profilesData FloatTrajectory.qualityControl
            FloatTrajectory.dataProcessing
            Measurement.pressure Measurement.temperature
            Measurement.salinity
            QualityControl.dataMode QualityControl.positionQC
            QualityControl.temperatureQC QualityControl.salinityQC
            QualityControl.pressureQC QualityControl.qcPerformed
            DataProcessing.processingLevel DataProcessing.softwareVersion
            DataProcessing.processingHistory
            DataProcessing.verticalSampling DataProcessing.dataRecovery].
  all: split; [exact Hin|]; split; [exact Hn|].
  all: split; [destruct st; exact Hwalk|].
  all: do 9 (split; [reflexivity|]).
  all: do 4 (split; [apply (index_Z_draw _ _ 4);
                     [assumption|reflexivity|lia]|]).
  all: do 3 (split; [apply (index_Z_draw _ _ 4);
                     [assumption|reflexivity|lia]|]).
  all: do 2 (split; [apply (index_Z_draw _ _ 3);
                     [assumption|reflexivity|lia]|]).
  all: split; [try destruct (Rgt_dec _ 0.95); in_list|].
  all: split;
    [eexists; split; [reflexivity|];
     destruct (Rgt_dec _ 0.5); auto|].
  all: split; [apply serial_text; assumption|].
  all: split;
    [first [left; reflexivity|right; apply serial_text; assumption]|].
  all: split;
    [eexists; split; [reflexivity|]; split; [reflexivity|];
     eexists; split;
       [cbn; rewrite <- plus_IZR; reflexivity
       |apply cycle_range; assumption]|].
  all: split;
    [split; [apply (toFixed_between 1 _ 2 12); lra|];
     split; [apply (toFixed_between 3 _ 25 30); lra
            |apply (toFixed_between 2 _ 34 36); lra]|].
  all: split;
    [split; [apply (toFixed_between 1 _ 1500 2000); lra|];
     split; [apply (toFixed_between 3 _ 2 5); lra
            |apply toFixed_half_grid; assumption]|].
  all: split;
    [repeat split;
     match goal with
     | |- whole_in _ _ (IZR (Math_floor (?q * 3)) + 1) =>
         exact (whole_draw q 3 1 ltac:(assumption) ltac:(lia))
     end|].
  all: split;
    [match goal with
     | |- context [Math_floor (?r * 3)] =>
         pose proof (floor_draw r 3 ltac:(assumption) ltac:(lia))
     end;
     eexists; split;
       [apply slice_to_take; unfold Math_floor; lia
       |unfold Math_floor; lia]|].
  all: split;
    [match goal with
     | |- context [Math_floor (?r * 2)] =>
         pose proof (floor_draw r 2 ltac:(assumption) ltac:(lia))
     end;
     eexists; split;
       [apply slice_to_take; unfold Math_floor; lia
       |unfold Math_floor; lia]|].
  all: split;
    [match goal with
     | |- context [Number_toString (IZR (Math_floor (?a * 3)) + 1)] =>
         destruct (whole_text a 3 1 ltac:(assumption) ltac:(lia)
                     ltac:(lia)) as (za & -> & Hza)
     end;
     match goal with
     | |- context [(Number_toString (IZR (Math_floor (?b * 10))) +:+ "."
                    +:+ Number_toString (IZR (Math_floor (?c * 10))))
                   %string] =>
         destruct (whole_text0 b 10 ltac:(assumption) ltac:(lia)
                     ltac:(lia)) as (zb' & -> & Hzb');
         destruct (whole_text0 c 10 ltac:(assumption) ltac:(lia)
                     ltac:(lia)) as (zc & -> & Hzc)
     end;
     exists za, zb', zc; split; [reflexivity|]; lia|].
  all: split;
    [match goal with
     | |- context [Number_toString (IZR (Math_floor (?a * 5)) + 1)] =>
         destruct (whole_text a 5 1 ltac:(assumption) ltac:(lia)
                     ltac:(lia)) as (zv & -> & Hzv)
     end;
     exists zv; split; [reflexivity|lia]|].
  all: match goal with
       | |- whole_in _ _ (IZR (Math_floor (?q * 20)) + 80) =>
           exact (whole_draw q 20 80 ltac:(assumption) ltac:(lia))
       end.
Qed.
End TrajectoryRun.

(** ** The trajectories that [generateMockTrajectoryData] returns *)

Lemma sampleCalendar_sane : @sane_calendar sampleCalendar.
Proof. split; intros t k Hk; cbn; lia. Qed.

Ltac open_trajectory Hok :=
  destruct Hok
    as (region & n & lat & lon & dist & Hin & Hn & Hwalk & Htotal
        & Hdlat & Hdlon & Hdate & Hid & Hwmo & Hnum & Htrans & Hprof
        & Hplat & Hmaker & Howner & Hcentre & Hship & Hproject & Hpi
        & Hmode & Hlevel & Hstatus & Hsensors & Hserial & Hptt
        & Hmission & Hsurface & Hbottom & Hqc & Hperformed & Hhistory
        & Hversion & Hsampling & Hrecovery).

Section Trajectories.
Context `{DateFormatter} `{NumberFormatter} `{Calendar}.

(** The run returns a trajectory of which [trajectory_ok] holds. *)
Lemma trajectory_run (floatId : string) (h : Host.t) :
  sane_calendar ->
  sane_clock (Host.clock h) ->
  unit_stream (World.rnd (Host.world h)) ->
  exists traj h',
    generateMockTrajectoryData floatId h = Some (traj, h') /\
    trajectory_ok floatId traj.
Proof.
  intros Hcal Hclock Hunit.
  destruct (generateMockTrajectoryData_returns Hcal floatId h
              (conj Hclock Hunit)) as (traj & h' & Hrun & _ & Hok).
  exists traj, h'. auto.
Qed.

(** X15: on a host with a plausible clock and calendar and draws in
    [0, 1), the trajectory generator returns a trajectory of 20 to 69
    points; the point at index [k] has id [k + 1]; the last point is the
    current one, the four before it are active and all earlier ones are
    completed. *)
Theorem trajectory_points_series (floatId : string) (h : Host.t) :
  sane_calendar ->
  sane_clock (Host.clock h) ->
  unit_stream (World.rnd (Host.world h)) ->
  exists traj h',
    generateMockTrajectoryData floatId h = Some (traj, h') /\
    let n := length (FloatTrajectory.points traj) in
    (20 <= n <= 69)%nat /\
    forall k p, FloatTrajectory.points traj !! k = Some p ->
      TrajectoryPoint.id p = INR k + 1 /\
      TrajectoryPoint.status p
      = (if bool_decide (k + 1 = n)%nat then current
         else if bool_decide (k + 5 < n)%nat then completed
         else active).
Proof.
  intros Hcal Hclock Hunit.
  destruct (trajectory_run floatId h Hcal Hclock Hunit)
    as (traj & h' & Hrun & Hok).
  exists traj, h'. split; [exact Hrun|].
  destruct Hok as (region & n & lat & lon & dist & _ & Hn & Hwalk & _).
  destruct Hwalk as (Hlen & _ & _ & _ & Hpts & _).
  cbn [Walk.points] in Hlen, Hpts. cbv zeta. rewrite Hlen.
  split; [exact Hn|].
  intros k p Hk. destruct (Hpts k p Hk) as (Hid & Hstatus & _).
  split; [exact Hid|]. rewrite Hstatus.
  destruct (Z.eqb_spec (Z.of_nat k) (Z.of_nat n - 1)).
  - rewrite bool_decide_eq_true_2 by lia. reflexivity.
  - rewrite (bool_decide_eq_false_2 (k + 1 = n)%nat) by lia.
    destruct (Z.ltb_spec (Z.of_nat k) (Z.of_nat n - 5)).
    + rewrite bool_decide_eq_true_2 by lia. reflexivity.
    + rewrite bool_decide_eq_false_2 by lia. reflexivity.
Qed.

(** X16: every point of a generated trajectory lies in the square of one
    of the five regions, its centre plus or minus its bound, even after
    the rounding to six decimals; so its latitude is between -37 and 28
    and its longitude between 55 and 101, a valid coordinate.  Every
    point has a depth from 500 to 2500, a temperature from 2 to 17 and a
    salinity from 34 to 36, the ends included: in doubles the sum for a
    draw just below 1 can round to the upper end. *)
Theorem trajectory_points_in_region (floatId : string) (h : Host.t) :
  sane_calendar ->
  sane_clock (Host.clock h) ->
  unit_stream (World.rnd (Host.world h)) ->
  exists traj h' region,
    generateMockTrajectoryData floatId h = Some (traj, h') /\
    region ∈ regions /\
    forall p, p ∈ FloatTrajectory.points traj ->
      Rabs (TrajectoryPoint.latitude p - fst (Region.center region))
        <= Region.bounds region /\
      Rabs (TrajectoryPoint.longitude p - snd (Region.center region))
        <= Region.bounds region /\
      -37 <= TrajectoryPoint.latitude p <= 28 /\
      55 <= TrajectoryPoint.longitude p <= 101 /\
      GeoMetrics.valid (coordinate p) /\
      (exists d, TrajectoryPoint.depth p = Some d /\ 500 <= d <= 2500) /\
      (exists t, TrajectoryPoint.temperature p = Some t /\ 2 <= t <= 17) /\
      (exists s, TrajectoryPoint.salinity p = Some s /\ 34 <= s <= 36).
Proof.
  intros Hcal Hclock Hunit.
  destruct (trajectory_run floatId h Hcal Hclock Hunit)
    as (traj & h' & Hrun & Hok).
  destruct Hok as (region & n & lat & lon & dist & Hin & _ & Hwalk & _).
  exists traj, h', region. split; [exact Hrun|]. split; [exact Hin|].
  destruct Hwalk as (_ & _ & _ & _ & Hpts & _). cbn [Walk.points] in Hpts.
  destruct (region_whole region Hin)
    as (zlat & zlon & zb & Hlat & Hlon & Hb & Hbox).
  intros p Hp. apply list_elem_of_lookup in Hp as [k Hk].
  destruct (Hpts k p Hk)
    as (_ & _ & Hplat & Hplon & Hdepth & Htemp & Hsal).
  assert (-37 <= TrajectoryPoint.latitude p <= 28 /\
          55 <= TrajectoryPoint.longitude p <= 101) as [Hblat Hblon].
  { rewrite Hlat, Hlon, Hb in *.
    destruct Hbox as (Hb0 & Hb1 & Hb2 & Hb3 & Hb4).
    apply IZR_le in Hb1, Hb2, Hb3, Hb4.
    rewrite ?minus_IZR, ?plus_IZR in *. lra. }
  split; [apply Rabs_le; lra|]. split; [apply Rabs_le; lra|].
  split; [exact Hblat|]. split; [exact Hblon|].
  split; [unfold GeoMetrics.valid, coordinate; cbn; lra|].
  destruct Hdepth as (d & Hd & Hd'), Htemp as (t & Ht & Ht'),
           Hsal as (s & Hs & Hs').
  split; [exists d; split; [exact Hd|lra]|].
  split; [exists t; split; [exact Ht|lra]|].
  exists s; split; [exact Hs|lra].
Qed.

(** X17: the deployment position of a generated trajectory is the
    position of its last point, the current one, not of its first; the
    deployment date is the start date. *)
Theorem trajectory_deployment_is_last_point (floatId : string)
    (h : Host.t) :
  sane_calendar ->
  sane_clock (Host.clock h) ->
  unit_stream (World.rnd (Host.world h)) ->
  exists traj h' p,
    generateMockTrajectoryData floatId h = Some (traj, h') /\
    last (FloatTrajectory.points traj) = Some p /\
    TrajectoryPoint.status p = current /\
    FloatTrajectory.deploymentLatitude traj = TrajectoryPoint.latitude p /\
    FloatTrajectory.deploymentLongitude traj
    = TrajectoryPoint.longitude p /\
    FloatTrajectory.deploymentDate traj = FloatTrajectory.startDate traj.
Proof.
  intros Hcal Hclock Hunit.
  destruct (trajectory_run floatId h Hcal Hclock Hunit)
    as (traj & h' & Hrun & Hok).
  destruct Hok as (region & n & lat & lon & dist & _ & Hn & Hwalk & _
                   & Hdlat & Hdlon & Hdate & _).
  destruct Hwalk as (Hlen & _ & _ & _ & Hpts & Hlast).
  cbn [Walk.points Walk.currentLat Walk.currentLon] in Hlen, Hpts, Hlast.
  destruct (last (FloatTrajectory.points traj)) as [p|] eqn:Hp.
  2:{ apply last_None in Hp. rewrite Hp in Hlen. cbn in Hlen. lia. }
  exists traj, h', p. split; [exact Hrun|]. split; [exact Hp|].
  destruct (Hlast p eq_refl) as [Hplat Hplon].
  split.
  { rewrite last_lookup, Hlen in Hp.
    destruct (Hpts _ p Hp) as (_ & Hstatus & _). rewrite Hstatus.
    rewrite (proj2 (Z.eqb_eq _ _)) by lia. reflexivity. }
  split; [congruence|]. split; [congruence|exact Hdate].
Qed.

(** X18: the total distance of a generated trajectory of [n] points is
    not negative and at most 200.133 km for each of its [n - 1] legs,
    plus half a hundredth for the rounding: no leg is longer than a
    degree of latitude and a degree and a half of longitude. *)
Theorem trajectory_distance_bound (floatId : string) (h : Host.t) :
  sane_calendar ->
  sane_clock (Host.clock h) ->
  unit_stream (World.rnd (Host.world h)) ->
  exists traj h',
    generateMockTrajectoryData floatId h = Some (traj, h') /\
    0 <= FloatTrajectory.totalDistance traj
      <= 200.133 * INR (length (FloatTrajectory.points traj) - 1) + 0.005.
Proof.
  intros Hcal Hclock Hunit.
  destruct (trajectory_run floatId h Hcal Hclock Hunit)
    as (traj & h' & Hrun & Hok).
  exists traj, h'. split; [exact Hrun|].
  destruct Hok as (region & n & lat & lon & dist & _ & Hn & Hwalk & Htotal
                   & _).
  destruct Hwalk as (Hlen & _ & _ & Hdist & _).
  cbn [Walk.points Walk.totalDistance] in Hlen, Hdist.
  rewrite Htotal, Hlen.
  pose proof (toFixed_error 2 dist) as Herr.
  apply Rabs_le_bounds in Herr.
  replace (/ (2 * 10 ^ 2)) with 0.005 in Herr by lra.
  pose proof (pos_INR (n - 1)) as Hpos.
  assert (IZR 0 <= dist <= IZR (Z.of_nat (201 * (n - 1)))) as Hbox.
  { rewrite <- INR_IZR_INZ, mult_INR.
    replace (INR 201) with 201 by (rewrite INR_IZR_INZ; reflexivity).
    lra. }
  apply (toFixed_between 2) in Hbox. lra.
Qed.

(** X19: the quality-control and processing records of a generated
    trajectory: the four QC flags are whole numbers from 1 to 3; the
    first three to five of the five QC tests are listed as performed and
    the first two or three of the four processing steps, so that the
    fourth step is never listed; the data recovery is a whole number from
    80 to 99, never 100; the software version is "v" and three numbers,
    from 1 to 3, 0 to 9 and 0 to 9, and the vertical sampling is 1 to 5
    dbar. *)
Theorem trajectory_quality_metadata (floatId : string) (h : Host.t) :
  sane_calendar ->
  sane_clock (Host.clock h) ->
  unit_stream (World.rnd (Host.world h)) ->
  exists traj h',
    generateMockTrajectoryData floatId h = Some (traj, h') /\
    let qc := FloatTrajectory.qualityControl traj in
    let dp := FloatTrajectory.dataProcessing traj in
    Forall (whole_in 1 3)
      [QualityControl.positionQC qc; QualityControl.temperatureQC qc;
       QualityControl.salinityQC qc; QualityControl.pressureQC qc] /\
    (exists k,
       QualityControl.qcPerformed qc
       = take k ["Range test"%string; "Spike test"%string;
                 "Gradient test"%string;
                 "Pressure increasing test"%string;
                 "Global range test"%string] /\
       (3 <= k <= 5)%nat) /\
    (exists k,
       DataProcessing.processingHistory dp
       = take k ["Automated quality control applied"%string;
                 "Manual review completed"%string;
                 "Delayed mode calibration"%string;
                 "Salinity drift correction"%string] /\
       (2 <= k <= 3)%nat) /\
    ("Salinity drift correction"%string
       ∉ DataProcessing.processingHistory dp) /\
    whole_in 80 99 (DataProcessing.dataRecovery dp) /\
    (exists a b c,
       DataProcessing.softwareVersion dp
       = ("v" ++ pretty a ++ "." ++ pretty b ++ "." ++ pretty c)%string /\
       (1 <= a <= 3)%Z /\ (0 <= b <= 9)%Z /\ (0 <= c <= 9)%Z) /\
    (exists v,
       DataProcessing.verticalSampling dp = (pretty v ++ "dbar")%string /\
       (1 <= v <= 5)%Z).
Proof.
  intros Hcal Hclock Hunit.
  destruct (trajectory_run floatId h Hcal Hclock Hunit)
    as (traj & h' & Hrun & Hok).
  exists traj, h'. split; [exact Hrun|].
  open_trajectory Hok. cbv zeta.
  destruct Hqc as (Hq1 & Hq2 & Hq3 & Hq4).
  split; [repeat constructor; assumption|].
  split; [exact Hperformed|]. split; [exact Hhistory|].
  split.
  { destruct Hhistory as (k & -> & Hk).
    intros Hmem. apply list_elem_of_lookup in Hmem as [i Hi].
    rewrite lookup_take_Some in Hi. destruct Hi as [Hi Hlt].
    do 3 (destruct i as [|i]; [discriminate Hi|]). lia. }
  split; [exact Hrecovery|]. split; [exact Hversion|exact Hsampling].
Qed.


(** X21: a generated trajectory carries the float id it was asked for, as
    its id and its WMO number, after "WMO" as its float number and inside
    the two paths of its profile files; its serial number, and its PTT
    unless that is "n/a", are five decimal digits; its status is
    "completed", "lost" or "active", and its sensors are the three CTD
    sensors, followed or not by "DOXY". *)
Theorem trajectory_identity (floatId : string) (h : Host.t) :
  sane_calendar ->
  sane_clock (Host.clock h) ->
  unit_stream (World.rnd (Host.world h)) ->
  exists traj h',
    generateMockTrajectoryData floatId h = Some (traj, h') /\
    FloatTrajectory.floatId traj = floatId /\
    FloatTrajectory.wmo traj = floatId /\
    FloatTrajectory.floatNumber traj = ("WMO" ++ floatId)%string /\
    FloatTrajectory.profilesData traj
    = ProfilesData.mk ("/data/" ++ floatId ++ "_profiles.ascii")
        ("/data/" ++ floatId ++ "_profiles.nc") /\
    (exists serial,
       FloatTrajectory.floatSerial traj = pretty serial /\
       (10000 <= serial <= 99999)%Z) /\
    (FloatTrajectory.ptt traj = "n/a"%string \/
     exists ptt,
       FloatTrajectory.ptt traj = pretty ptt /\
       (10000 <= ptt <= 99999)%Z) /\
    FloatTrajectory.status traj
      ∈ ["completed"%string; "lost"%string; "active"%string] /\
    (FloatTrajectory.sensors traj
     = ["CTD_CNDC"%string; "CTD_TEMP"%string; "CTD_PRES"%string] \/
     FloatTrajectory.sensors traj
     = ["CTD_CNDC"%string; "CTD_TEMP"%string; "CTD_PRES"%string;
        "DOXY"%string]).
Proof.
  intros Hcal Hclock Hunit.
  destruct (trajectory_run floatId h Hcal Hclock Hunit)
    as (traj & h' & Hrun & Hok).
  exists traj, h'. split; [exact Hrun|].
  open_trajectory Hok.
  repeat (split; [assumption|]).
  destruct Hsensors as (extra & -> & [->| ->]); [left|right]; reflexivity.
Qed.

(** X22: every name of a generated trajectory that is picked from a list
    by a draw is defined, the index being always in range: the platform
    type and maker, the owner, the data centre, the ship, the project,
    the principal investigator, the data mode and the processing
    level. *)
Theorem trajectory_names (floatId : string) (h : Host.t) :
  sane_calendar ->
  sane_clock (Host.clock h) ->
  unit_stream (World.rnd (Host.world h)) ->
  exists traj h',
    generateMockTrajectoryData floatId h = Some (traj, h') /\
    one_of ["APEX"%string; "SOLO"%string; "NOVA"%string; "ARVOR"%string]
      (FloatTrajectory.platformType traj) /\
    one_of ["TWR"%string; "SBE"%string; "NKE"%string; "METOCEAN"%string]
      (FloatTrajectory.platformMaker traj) /\
    one_of ["STEPHEN RISER"%string; "INDIA METEOROLOGICAL DEPT"%string;
            "CSIRO"%string; "JAMSTEC"%string]
      (FloatTrajectory.owner traj) /\
    one_of ["AOML"%string; "INCOIS"%string; "CSIRO"%string; "JMA"%string]
      (FloatTrajectory.dataCentre traj) /\
    one_of ["R/V Kaharoa II"%string; "ORV Sagar Nidhi"%string;
            "R/V Investigator"%string; "R/V Mirai"%string]
      (FloatTrajectory.ship traj) /\
    one_of ["US ARGO PROJECT"%string; "INDIAN ARGO PROJECT"%string;
            "AUSTRALIAN ARGO"%string; "JAPAN ARGO"%string]
      (FloatTrajectory.project traj) /\
    one_of ["STEPHEN RISER"%string; "DR. RAJESH KUMAR"%string;
            "DR. SUSAN WIJFFELS"%string; "DR. TOSHIO SUGA"%string]
      (FloatTrajectory.principalInvestigator traj) /\
    one_of ["A"%string; "R"%string; "D"%string]
      (QualityControl.dataMode (FloatTrajectory.qualityControl traj)) /\
    one_of ["L1"%string; "L2"%string; "L3"%string]
      (DataProcessing.processingLevel
         (FloatTrajectory.dataProcessing traj)).
Proof.
  intros Hcal Hclock Hunit.
  destruct (trajectory_run floatId h Hcal Hclock Hunit)
    as (traj & h' & Hrun & Hok).
  exists traj, h'. split; [exact Hrun|].
  open_trajectory Hok.
  repeat (split; [assumption|]). assumption.
Qed.

(** X23: the profile chart draws every generated trajectory of [n]
    points: it makes [floor (n / 5)] groups, plus one when [n mod 5] is
    at least 2, which is from 4 to 14 groups, and no point lacks a
    temperature or a depth; but when [n mod 5 = 1] one point is left out
    of the groups. *)
Theorem trajectory_profile_groups (floatId : string) (h : Host.t) :
  sane_calendar ->
  sane_clock (Host.clock h) ->
  unit_stream (World.rnd (Host.world h)) ->
  exists traj h' groups,
    generateMockTrajectoryData floatId h = Some (traj, h') /\
    let n := length (FloatTrajectory.points traj) in
    profileGroups (FloatTrajectory.points traj) = Some groups /\
    length groups = (n / 5 + (if (2 <=? n mod 5)%nat then 1 else 0))%nat /\
    (4 <= length groups <= 14)%nat /\
    length (concat groups)
    = (n - (if (n mod 5 =? 1)%nat then 1 else 0))%nat.
Proof.
  intros Hcal Hclock Hunit.
  destruct (trajectory_run floatId h Hcal Hclock Hunit)
    as (traj & h' & Hrun & Hok).
  open_trajectory Hok.
  destruct Hwalk as (Hlen & _ & _ & _ & Hpts & _).
  cbn [Walk.points] in Hlen, Hpts.
  remember (FloatTrajectory.points traj) as pts eqn:Epts.
  assert (filter (fun p => isValidPoint p = true) pts = pts) as Hvalid.
  { apply filter_valid_all, Forall_forall. intros p Hp.
    apply list_elem_of_lookup in Hp as [k Hk].
    destruct (Hpts k p Hk)
      as (_ & _ & _ & _ & (d & Hd & _) & (t & Ht & _) & _).
    unfold isValidPoint. rewrite Hd, Ht.
    rewrite !bool_decide_eq_true_2 by (eexists; reflexivity).
    reflexivity. }
  eexists traj, h', _. split; [exact Hrun|]. cbv zeta.
  rewrite <- Epts.
  split; [apply profileGroups_windows|].
  rewrite Hvalid. unfold profileSize.
  destruct (windows_kept (length pts) pts (le_n _)) as (Hcat & Hcount & _).
  cbv zeta in Hcat, Hcount. fold (windows 5 pts) in Hcat, Hcount.
  set (ws := filter (fun w => (2 <= length w)%nat) (windows 5 pts)) in *.
  rewrite length_map.
  split; [exact Hcount|].
  split.
  { rewrite Hcount, Hlen.
    pose proof (Nat.div_mod_eq n 5) as Hdm.
    pose proof (Nat.mod_upper_bound n 5 ltac:(lia)) as Hmod.
    destruct (2 <=? n mod 5)%nat eqn:E;
      [apply Nat.leb_le in E|apply Nat.leb_gt in E]; lia. }
  rewrite (Permutation_length (concat_sorted_perm ws)), Hcat, length_take.
  destruct (length pts mod 5 =? 1)%nat; lia.
Qed.
End Trajectories.

Lemma trajectory_points_series_witness :
  exists traj h',
    @generateMockTrajectoryData sampleFormatter sampleNumbers sampleCalendar
      "1900000" (host_of (1 / 2) 1700000000000)
    = Some (traj, h') /\
    (20 <= length (FloatTrajectory.points traj) <= 69)%nat.
Proof.
  destruct (@trajectory_points_series sampleFormatter sampleNumbers
              sampleCalendar "1900000" (host_of (1 / 2) 1700000000000)
              sampleCalendar_sane
              (sane_clock_const 1700000000000 ltac:(lia))
              (unit_stream_const (1 / 2) ltac:(lra)))
    as (traj & h' & Hrun & Hn & _).
  exists traj, h'. split; [exact Hrun|exact Hn].
Defined.

Lemma trajectory_points_in_region_witness :
  exists traj h' region,
    @generateMockTrajectoryData sampleFormatter sampleNumbers sampleCalendar
      "1900000" (host_of (1 / 2) 1700000000000)
    = Some (traj, h') /\
    region ∈ regions.
Proof.
  destruct (@trajectory_points_in_region sampleFormatter sampleNumbers
              sampleCalendar "1900000" (host_of (1 / 2) 1700000000000)
              sampleCalendar_sane
              (sane_clock_const 1700000000000 ltac:(lia))
              (unit_stream_const (1 / 2) ltac:(lra)))
    as (traj & h' & region & Hrun & Hin & _).
  exists traj, h', region. split; [exact Hrun|exact Hin].
Defined.

Lemma trajectory_deployment_is_last_point_witness :
  exists traj h' p,
    @generateMockTrajectoryData sampleFormatter sampleNumbers sampleCalendar
      "1900000" (host_of (1 / 2) 1700000000000)
    = Some (traj, h') /\
    last (FloatTrajectory.points traj) = Some p /\
    FloatTrajectory.deploymentLatitude traj = TrajectoryPoint.latitude p.
Proof.
  destruct (@trajectory_deployment_is_last_point sampleFormatter sampleNumbers
              sampleCalendar "1900000" (host_of (1 / 2) 1700000000000)
              sampleCalendar_sane
              (sane_clock_const 1700000000000 ltac:(lia))
              (unit_stream_const (1 / 2) ltac:(lra)))
    as (traj & h' & p & Hrun & Hlast & _ & Hlat & _).
  exists traj, h', p. split; [exact Hrun|]. split; [exact Hlast|exact Hlat].
Defined.

Lemma trajectory_distance_bound_witness :
  exists traj h',
    @generateMockTrajectoryData sampleFormatter sampleNumbers sampleCalendar
      "1900000" (host_of (1 / 2) 1700000000000)
    = Some (traj, h') /\
    0 <= FloatTrajectory.totalDistance traj.
Proof.
  destruct (@trajectory_distance_bound sampleFormatter sampleNumbers
              sampleCalendar "1900000" (host_of (1 / 2) 1700000000000)
              sampleCalendar_sane
              (sane_clock_const 1700000000000 ltac:(lia))
              (unit_stream_const (1 / 2) ltac:(lra)))
    as (traj & h' & Hrun & Hdist & _).
  exists traj, h'. split; [exact Hrun|exact Hdist].
Defined.

Lemma trajectory_quality_metadata_witness :
  exists traj h',
    @generateMockTrajectoryData sampleFormatter sampleNumbers sampleCalendar
      "1900000" (host_of (1 / 2) 1700000000000)
    = Some (traj, h') /\
    whole_in 80 99
      (DataProcessing.dataRecovery (FloatTrajectory.dataProcessing traj)).
Proof.
  destruct (@trajectory_quality_metadata sampleFormatter sampleNumbers
              sampleCalendar "1900000" (host_of (1 / 2) 1700000000000)
              sampleCalendar_sane
              (sane_clock_const 1700000000000 ltac:(lia))
              (unit_stream_const (1 / 2) ltac:(lra)))
    as (traj & h' & Hrun & _ & _ & _ & _ & Hrec & _).
  exists traj, h'. split; [exact Hrun|exact Hrec].
Defined.


Lemma trajectory_identity_witness :
  exists traj h',
    @generateMockTrajectoryData sampleFormatter sampleNumbers sampleCalendar
      "1900000" (host_of (1 / 2) 1700000000000)
    = Some (traj, h') /\
    FloatTrajectory.floatId traj = "1900000"%string.
Proof.
  destruct (@trajectory_identity sampleFormatter sampleNumbers
              sampleCalendar "1900000" (host_of (1 / 2) 1700000000000)
              sampleCalendar_sane
              (sane_clock_const 1700000000000 ltac:(lia))
              (unit_stream_const (1 / 2) ltac:(lra)))
    as (traj & h' & Hrun & Hid & _).
  exists traj, h'. split; [exact Hrun|exact Hid].
Defined.

Lemma trajectory_names_witness :
  exists traj h',
    @generateMockTrajectoryData sampleFormatter sampleNumbers sampleCalendar
      "1900000" (host_of (1 / 2) 1700000000000)
    = Some (traj, h') /\
    one_of ["APEX"%string; "SOLO"%string; "NOVA"%string; "ARVOR"%string]
      (FloatTrajectory.platformType traj).
Proof.
  destruct (@trajectory_names sampleFormatter sampleNumbers
              sampleCalendar "1900000" (host_of (1 / 2) 1700000000000)
              sampleCalendar_sane
              (sane_clock_const 1700000000000 ltac:(lia))
              (unit_stream_const (1 / 2) ltac:(lra)))
    as (traj & h' & Hrun & Hplat & _).
  exists traj, h'. split; [exact Hrun|exact Hplat].
Defined.

Lemma trajectory_profile_groups_witness :
  exists traj h' groups,
    @generateMockTrajectoryData sampleFormatter sampleNumbers sampleCalendar
      "1900000" (host_of (1 / 2) 1700000000000)
    = Some (traj, h') /\
    profileGroups (FloatTrajectory.points traj) = Some groups.
Proof.
  destruct (@trajectory_profile_groups sampleFormatter sampleNumbers
              sampleCalendar "1900000" (host_of (1 / 2) 1700000000000)
              sampleCalendar_sane
              (sane_clock_const 1700000000000 ltac:(lia))
              (unit_stream_const (1 / 2) ltac:(lra)))
    as (traj & h' & groups & Hrun & Hgroups & _).
  exists traj, h', groups. split; [exact Hrun|exact Hgroups].
Defined.

(** ** Objects whose keys are whole numbers *)

Lemma Object_get_number_here {A} (o : list (Z * A)) (z : Z) (a : A) :
  Object_get_number ((z, a) :: o) (IZR z) = Some a.
Proof.
  unfold Object_get_number. cbn [List.find fst].
  destruct (Req_dec_T (IZR z) (IZR z)) as [_|Hne]; [reflexivity|].
  contradiction.
Qed.

Lemma Object_get_number_further {A} (o : list (Z * A)) (z z' : Z) (a : A) :
  z <> z' ->
  Object_get_number ((z', a) :: o) (IZR z) = Object_get_number o (IZR z).
Proof.
  intros Hne. unfold Object_get_number. cbn [List.find fst].
  destruct (Req_dec_T (IZR z) (IZR z')) as [E|_]; [|reflexivity].
  apply eq_IZR in E. contradiction.
Qed.

Lemma Object_get_number_nil {A} (x : R) :
  @Object_get_number A [] x = None.
Proof. reflexivity. Qed.

Ltac get_number :=
  unfold qualityMap, descriptions;
  repeat first
    [rewrite Object_get_number_here
    |rewrite Object_get_number_further by discriminate
    |rewrite Object_get_number_nil].

(** ** The summary statistics of the quality chart *)

(** The fold behind [qualityStats], from any map of counts. *)
Lemma qualityStats_fold (data : list QualityData.t) (c : string) :
  forall acc : gmap string R,
    foldl
      (fun acc d =>
         let info := getQualityInfo (QualityData.qualityFlag d) in
         <[QualityInfo.category info :=
             default 0 (acc !! QualityInfo.category info) + 1]> acc)
      acc data !! c
    = (if (length (inCategory c data) =? 0)%nat then acc !! c
       else Some (default 0 (acc !! c) + INR (length (inCategory c data)))).
Proof.
  induction data as [|d data IH]; intros acc; [reflexivity|].
  cbn [foldl]. rewrite IH. cbv zeta. unfold inCategory.
  rewrite filter_cons.
  set (k := QualityInfo.category
              (getQualityInfo (QualityData.qualityFlag d))).
  destruct (decide (k = c)) as [->|Hne].
  - rewrite lookup_insert_eq. cbn [length default].
    destruct (length _ =? 0)%nat eqn:E.
    + apply Nat.eqb_eq in E. unfold inCategory in E. rewrite E.
      reflexivity.
    + cbn [Nat.eqb]. f_equal. rewrite S_INR. unfold Datatypes.id. lra.
  - rewrite lookup_insert_ne by exact Hne. reflexivity.
Qed.

Lemma qualityStats_count (data : list QualityData.t) (c : string) :
  default 0 (qualityStats data !! c) = INR (length (inCategory c data)).
Proof.
  unfold qualityStats. rewrite qualityStats_fold, lookup_empty.
  destruct (length _ =? 0)%nat eqn:E.
  - apply Nat.eqb_eq in E. rewrite E. reflexivity.
  - cbn. lra.
Qed.

(** The records counted as good are not those counted as probably
    good. *)
Lemma good_count_le (data : list QualityData.t) :
  (length (inCategory "good" data) + length (inCategory "probablyGood" data)
   <= length data)%nat.
Proof.
  unfold inCategory. induction data as [|d data IH]; [cbn; lia|].
  rewrite !filter_cons.
  destruct (decide (_ = "good"%string)) as [E|_];
    destruct (decide (_ = "probablyGood"%string)) as [E'|_];
    cbn [length]; try lia.
  rewrite E in E'. discriminate.
Qed.

Lemma goodDataPercentage_count (data : list QualityData.t) :
  goodDataPercentage data
  = INR (length (inCategory "good" data)
         + length (inCategory "probablyGood" data))
    / INR (length data) * 100.
Proof.
  unfold goodDataPercentage. cbv zeta.
  rewrite !qualityStats_count, plus_INR. reflexivity.
Qed.

Lemma ratio_percent (g n : R) :
  0 <= g <= n -> 0 < n -> 0 <= g / n * 100 <= 100.
Proof.
  intros [H0 H1] Hn.
  assert (0 <= g / n <= 1) as [Hlo Hhi].
  { split.
    - apply Rmult_le_pos; [exact H0|].
      apply Rlt_le, Rinv_0_lt_compat, Hn.
    - apply Rmult_le_reg_r with n; [exact Hn|].
      unfold Rdiv. rewrite Rmult_assoc, Rinv_l, Rmult_1_r by lra. lra. }
  lra.
Qed.

(** X24: whatever the records, [qualityStats] maps a category to the
    number of records whose flag falls in it, and has no entry for a
    category without records; a flag outside the table, such as 7, falls
    in the category "bad". *)
Theorem quality_stats_counts (data : list QualityData.t) (c : string) :
  qualityStats data !! c
  = (if (length (inCategory c data) =? 0)%nat then None
     else Some (INR (length (inCategory c data)))) /\
  QualityInfo.category (getQualityInfo 7) = "bad"%string.
Proof.
  split.
  - unfold qualityStats. rewrite qualityStats_fold, lookup_empty.
    destruct (length _ =? 0)%nat; [reflexivity|].
    cbn [default]. f_equal. lra.
  - unfold getQualityInfo. get_number. reflexivity.
Qed.

(** X25: for records that are not none, the share of good data is the
    hundredfold of the number of records in the categories "good" and
    "probablyGood" over the number of all records, between 0 and 100. *)
Theorem quality_good_percentage (data : list QualityData.t) :
  data <> [] ->
  goodDataPercentage data
  = INR (length (inCategory "good" data)
         + length (inCategory "probablyGood" data))
    / INR (length data) * 100 /\
  0 <= goodDataPercentage data <= 100.
Proof.
  intros Hdata. split; [apply goodDataPercentage_count|].
  rewrite goodDataPercentage_count.
  assert (0 < INR (length data)) as Hn.
  { apply lt_0_INR. destruct data; [contradiction|cbn; lia]. }
  pose proof (pos_INR (length (inCategory "good" data)
                       + length (inCategory "probablyGood" data))) as H0.
  pose proof (le_INR _ _ (good_count_le data)) as H1.
  apply ratio_percent; [split; assumption|exact Hn].
Qed.

(** ** The quality chart on the generated records *)

(** A record as [generateMockQualityData] makes them: a flag from 1 to 4
    and a confidence that goes with it. *)
Lemma flag_category (q : R) :
  q = 1 \/ q = 2 \/ q = 3 \/ q = 4 ->
  QualityInfo.category (getQualityInfo q)
  = (if Rle_dec q 1 then "good"
     else if Rle_dec q 2 then "probablyGood"
     else if Rle_dec q 3 then "questionable"
     else "bad")%string.
Proof.
  unfold getQualityInfo.
  intros [->|[->|[->| ->]]]; get_number;
    cbn [QualityInfo.category qualityMap_4];
    repeat (destruct (Rle_dec _ _); try lra); reflexivity.
Qed.

Section QualityChart.
Context `{DateFormatter} `{NumberFormatter}.

Lemma qualityData_flags (h : Host.t) :
  sane_clock (Host.clock h) ->
  unit_stream (World.rnd (Host.world h)) ->
  exists recs,
    generateMockQualityData h = Some (recs, hadvance h 1600 200) /\
    length recs = 200%nat /\
    Forall
      (fun r =>
         let q := QualityData.qualityFlag r in
         (q = 1 \/ q = 2 \/ q = 3 \/ q = 4) /\
         (q <= 2 -> 85 <= QualityData.confidence r < 100) /\
         (2 < q -> 60 <= QualityData.confidence r < 85)) recs.
Proof.
  intros Hclock Hunit.
  destruct (qualityData_records h Hclock) as (recs & Hrun & Hlen & Hall).
  exists recs. split; [exact Hrun|]. split; [exact Hlen|].
  apply Forall_forall. intros r Hr.
  apply list_elem_of_lookup in Hr as [i Hr].
  destruct (Hall i r Hr) as [Hi Hbody].
  pose proof (qualityBody_run h i [] Hi Hclock) as Hexp.
  cbv zeta in Hexp. cbn [app] in Hexp. rewrite Hbody in Hexp.
  apply Some_singleton_inj in Hexp. subst r.
  cbn [QualityData.qualityFlag QualityData.confidence].
  pose proof (Hunit (World.rnd_pos (Host.world h) + (8 * i + 6))%nat)
    as U6.
  split.
  { destruct (Rlt_dec _ 0.85); destruct (Rlt_dec _ _); auto. }
  split.
  - intros Hle. destruct (Rle_dec _ 2) as [_|Hn]; [lra|contradiction].
  - intros Hgt. destruct (Rle_dec _ 2) as [Hle|_]; lra.
Qed.
End QualityChart.

(** The share of good records among records flagged 1 to 4, and the
    confidence that goes with them. *)
Lemma confidence_lower (data : list QualityData.t) :
  Forall
    (fun r =>
       let q := QualityData.qualityFlag r in
       (q = 1 \/ q = 2 \/ q = 3 \/ q = 4) /\
       (q <= 2 -> 85 <= QualityData.confidence r < 100) /\
       (2 < q -> 60 <= QualityData.confidence r < 85)) data ->
  forall s,
    s + 60 * INR (length data)
      + 25 * INR (length (inCategory "good" data)
                  + length (inCategory "probablyGood" data))
    <= foldl (fun sum d => sum + QualityData.confidence d) s data
    <= s + 85 * INR (length data)
       + 15 * INR (length (inCategory "good" data)
                   + length (inCategory "probablyGood" data))
    /\
    (data <> [] ->
     foldl (fun sum d => sum + QualityData.confidence d) s data
     < s + 85 * INR (length data)
       + 15 * INR (length (inCategory "good" data)
                   + length (inCategory "probablyGood" data))).
Proof.
  induction 1 as [|d data Hd Hall IH]; intros s.
  - cbn. split; [lra|]. intros Hne. contradiction.
  - cbv zeta in Hd. destruct Hd as (Hq & Hgood & Hpoor).
    cbn [foldl]. destruct (IH (s + QualityData.confidence d))
      as [[Hlo Hhi] Hstrict].
    unfold inCategory in *. rewrite !filter_cons.
    rewrite (flag_category _ Hq).
    cbn [length]. rewrite S_INR.
    destruct (Rle_dec (QualityData.qualityFlag d) 1) as [L1|L1].
    + cbn [decide_rel]. 
      rewrite decide_True by reflexivity.
      rewrite decide_False by discriminate.
      cbn [length]. rewrite Nat.add_succ_l, S_INR.
      specialize (Hgood ltac:(lra)).
      split; [lra|]. intros _. lra.
    + destruct (Rle_dec (QualityData.qualityFlag d) 2) as [L2|L2].
      * rewrite decide_False by discriminate.
        rewrite decide_True by reflexivity.
        cbn [length]. rewrite Nat.add_succ_r, S_INR.
        specialize (Hgood ltac:(lra)).
        split; [lra|]. intros _. lra.
      * specialize (Hpoor ltac:(lra)).
        destruct (Rle_dec (QualityData.qualityFlag d) 3) as [L3|L3];
          rewrite !decide_False by discriminate;
          (split; [lra|]); intros _; lra.
Qed.

Lemma no_missing (data : list QualityData.t) :
  Forall
    (fun r =>
       let q := QualityData.qualityFlag r in
       (q = 1 \/ q = 2 \/ q = 3 \/ q = 4) /\
       (q <= 2 -> 85 <= QualityData.confidence r < 100) /\
       (2 < q -> 60 <= QualityData.confidence r < 85)) data ->
  inCategory "missing" data = [].
Proof.
  induction 1 as [|d data Hd Hall IH]; [reflexivity|].
  cbv zeta in Hd. destruct Hd as (Hq & _).
  unfold inCategory in *. rewrite filter_cons, (flag_category _ Hq), IH.
  repeat (destruct (Rle_dec _ _));
    rewrite decide_False by discriminate; reflexivity.
Qed.

Section QualityChartTheorems.
Context `{DateFormatter} `{NumberFormatter}.

(** X26: on the 200 records of [generateMockQualityData] the chart
    finds a share of good data between 0 and 100 percent and no record
    in the category "missing"; the average confidence it shows is tied
    to that share: at least 60 plus a quarter of it, and at most 85 plus
    0.15 times it, both to within a billionth, which is far more than the
    rounding of the 200 double additions and the divisions involved. *)
Theorem quality_chart_of_generator (h : Host.t) :
  sane_clock (Host.clock h) ->
  unit_stream (World.rnd (Host.world h)) ->
  exists recs,
    generateMockQualityData h = Some (recs, hadvance h 1600 200) /\
    0 <= goodDataPercentage recs <= 100 /\
    60 + goodDataPercentage recs / 4 - 1e-9 <= avgConfidence recs
      <= 85 + 0.15 * goodDataPercentage recs + 1e-9 /\
    qualityStats recs !! "missing"%string = None.
Proof.
  intros Hclock Hunit.
  destruct (qualityData_flags h Hclock Hunit)
    as (recs & Hrun & Hlen & Hall).
  exists recs. split; [exact Hrun|].
  assert (recs <> []) as Hne by (intros ->; discriminate Hlen).
  destruct (confidence_lower recs Hall 0) as [[Hlo _] Hhi].
  specialize (Hhi Hne).
  pose proof (good_count_le recs) as Hle. apply le_INR in Hle.
  pose proof (pos_INR (length (inCategory "good" recs)
                       + length (inCategory "probablyGood" recs))) as Hg.
  rewrite goodDataPercentage_count. unfold avgConfidence.
  rewrite Hlen in *.
  replace (INR 200) with 200 in * by (rewrite INR_IZR_INZ; reflexivity).
  remember (INR (length (inCategory "good" recs)
                 + length (inCategory "probablyGood" recs))) as g eqn:Eg.
  remember (foldl (fun sum d => sum + QualityData.confidence d) 0 recs)
    as total eqn:Et.
  split; [lra|]. split; [lra|].
  unfold qualityStats. rewrite qualityStats_fold, lookup_empty.
  rewrite (no_missing recs Hall). reflexivity.
Qed.
End QualityChartTheorems.

Lemma quality_chart_of_generator_witness :
  exists recs,
    @generateMockQualityData sampleFormatter sampleNumbers
      (host_of (1 / 2) 1700000000000)
    = Some (recs, hadvance (host_of (1 / 2) 1700000000000) 1600 200) /\
    0 <= goodDataPercentage recs <= 100.
Proof.
  destruct (@quality_chart_of_generator sampleFormatter sampleNumbers
              (host_of (1 / 2) 1700000000000)
              (sane_clock_const 1700000000000 ltac:(lia))
              (unit_stream_const (1 / 2) ltac:(lra)))
    as (recs & Hrun & Hpct & _).
  exists recs. split; [exact Hrun|exact Hpct].
Defined.

Lemma quality_good_percentage_witness :
  goodDataPercentage [sampleQuality]
  = INR (length (inCategory "good" [sampleQuality])
         + length (inCategory "probablyGood" [sampleQuality]))
    / INR (length [sampleQuality]) * 100 /\
  0 <= goodDataPercentage [sampleQuality] <= 100.
Proof.
  apply (quality_good_percentage [sampleQuality]). discriminate.
Defined.

(** ** The badges of the dashboard on a generated trajectory *)

Lemma badge_of_flag (q : R) :
  whole_in 1 3 q ->
  (getQualityFlagColor q = "bg-green-500"%string /\
   (getQualityFlagDescription q = "Good"%string \/
    getQualityFlagDescription q = "Probably good"%string)) \/
  (getQualityFlagColor q = "bg-yellow-500"%string /\
   getQualityFlagDescription q = "Probably bad"%string).
Proof.
  intros (z & -> & Hz).
  assert (z = 1 \/ z = 2 \/ z = 3)%Z as [->|[->| ->]] by lia;
    unfold getQualityFlagColor, getQualityFlagDescription; get_number;
    repeat (destruct (Rle_dec _ _); try lra); auto.
Qed.

Section Badges.
Context `{DateFormatter} `{NumberFormatter} `{Calendar}.

(** X27: on the dashboard, each of the four QC flags of a generated
    trajectory gets a green badge reading "Good" or "Probably good", or a
    yellow one reading "Probably bad", never a red or a grey one; the
    status badge is green for "active", blue for "completed" and, by the
    default of the switch, grey for "lost". *)
Theorem trajectory_badges (floatId : string) (h : Host.t) :
  sane_calendar ->
  sane_clock (Host.clock h) ->
  unit_stream (World.rnd (Host.world h)) ->
  exists traj h',
    generateMockTrajectoryData floatId h = Some (traj, h') /\
    let qc := FloatTrajectory.qualityControl traj in
    Forall
      (fun q =>
         (getQualityFlagColor q = "bg-green-500"%string /\
          (getQualityFlagDescription q = "Good"%string \/
           getQualityFlagDescription q = "Probably good"%string)) \/
         (getQualityFlagColor q = "bg-yellow-500"%string /\
          getQualityFlagDescription q = "Probably bad"%string))
      [QualityControl.positionQC qc; QualityControl.temperatureQC qc;
       QualityControl.salinityQC qc; QualityControl.pressureQC qc] /\
    (FloatTrajectory.status traj = "active"%string /\
     getStatusColor (FloatTrajectory.status traj) = "bg-green-500"%string
     \/
     FloatTrajectory.status traj = "completed"%string /\
     getStatusColor (FloatTrajectory.status traj) = "bg-blue-500"%string
     \/
     FloatTrajectory.status traj = "lost"%string /\
     getStatusColor (FloatTrajectory.status traj) = "bg-gray-500"%string).
Proof.
  intros Hcal Hclock Hunit.
  destruct (trajectory_run floatId h Hcal Hclock Hunit)
    as (traj & h' & Hrun & Hok).
  exists traj, h'. split; [exact Hrun|].
  open_trajectory Hok. cbv zeta.
  destruct Hqc as (Hq1 & Hq2 & Hq3 & Hq4).
  split.
  { repeat (apply Forall_cons; split; [apply badge_of_flag; assumption|]).
    apply Forall_nil_2. }
  apply elem_of_cons in Hstatus as [->|Hstatus]; [right; left; auto|].
  apply elem_of_cons in Hstatus as [->|Hstatus]; [right; right; auto|].
  apply elem_of_cons in Hstatus as [->|Hstatus]; [left; auto|].
  apply elem_of_nil in Hstatus. contradiction.
Qed.
End Badges.

Lemma trajectory_badges_witness :
  exists traj h',
    @generateMockTrajectoryData sampleFormatter sampleNumbers sampleCalendar
      "1900000" (host_of (1 / 2) 1700000000000)
    = Some (traj, h') /\
    Forall
      (fun q =>
         (getQualityFlagColor q = "bg-green-500"%string /\
          (getQualityFlagDescription q = "Good"%string \/
           getQualityFlagDescription q = "Probably good"%string)) \/
         (getQualityFlagColor q = "bg-yellow-500"%string /\
          getQualityFlagDescription q = "Probably bad"%string))
      [QualityControl.positionQC (FloatTrajectory.qualityControl traj);
       QualityControl.temperatureQC (FloatTrajectory.qualityControl traj);
       QualityControl.salinityQC (FloatTrajectory.qualityControl traj);
       QualityControl.pressureQC (FloatTrajectory.qualityControl traj)].
Proof.
  destruct (@trajectory_badges sampleFormatter sampleNumbers
              sampleCalendar "1900000" (host_of (1 / 2) 1700000000000)
              sampleCalendar_sane
              (sane_clock_const 1700000000000 ltac:(lia))
              (unit_stream_const (1 / 2) ltac:(lra)))
    as (traj & h' & Hrun & Hflags & _).
  exists traj, h'. split; [exact Hrun|exact Hflags].
Defined.
